(** * Zug: a shallow embedding of the autonomous coding agent

    The repository holds three variants of one program.  The most
    complete one (sandboxed file tools, regex update, tool-calling chat
    loop, bounded feedback loop) is embedded in [Module Agent]; the two
    variants with two callable functions ([zug.go] and the port with
    wrapped errors) are embedded in [Module Zug] and [Module ZugPort].

    Go strings are byte sequences and are embedded as [string] (a
    sequence of 8-bit [ascii]).  The Go standard library is not part of
    the repository; the parts the agent calls are modelled in the
    [Go*] modules below for a Unix target ([os.PathSeparator] is a
    slash), following the library's own algorithms. *)

From Stdlib Require Import Ascii NArith DecimalString.
From stdpp Require Import base gmap strings list.

Local Open Scope stdpp_scope.

(** ** Byte strings *)

Module Bytes.

Fixpoint take (n : nat) (s : string) : string :=
  match n, s with
  | S n', String c s' => String c (take n' s')
  | _, _ => EmptyString
  end.

Fixpoint drop (n : nat) (s : string) : string :=
  match n, s with
  | S n', String _ s' => drop n' s'
  | _, _ => s
  end.

(** [s[a:b]] *)
Definition slice (a b : nat) (s : string) : string := take (b - a) (drop a s).

(** [s[i]], when in range *)
Definition index (i : nat) (s : string) : option ascii := String.get i s.

Definition is_empty (s : string) : bool :=
  match s with EmptyString => true | _ => false end.

Definition byte_in (c : ascii) (s : string) : bool :=
  (fix go (s : string) : bool :=
     match s with
     | EmptyString => false
     | String d s' => Ascii.eqb c d || go s'
     end) s.

(** The text ["\n"]. *)
Definition newline : string := String "010"%char "".

End Bytes.

(** ** Package [unicode/utf8] *)

Module GoUtf8.
Import Bytes.

Definition RuneError : N := 0xFFFD%N.

Definition byte_val (c : ascii) : N := N_of_ascii c.

(** A continuation byte lies in [lo, hi]. *)
Definition in_range (lo hi : N) (c : ascii) : bool :=
  ((lo <=? byte_val c) && (byte_val c <=? hi))%N.

(** The [first] table together with [acceptRanges]: for a leading
    byte, the encoded size and the range accepted for the second byte;
    [None] for the entries [as] (ASCII) and [xx] (invalid). *)
Definition first (s0 : N) : option (nat * N * N) :=
  (if s0 <? 0xC2 then None
   else if s0 <? 0xE0 then Some (2%nat, 0x80, 0xBF)
   else if s0 =? 0xE0 then Some (3%nat, 0xA0, 0xBF)
   else if s0 <? 0xED then Some (3%nat, 0x80, 0xBF)
   else if s0 =? 0xED then Some (3%nat, 0x80, 0x9F)
   else if s0 <? 0xF0 then Some (3%nat, 0x80, 0xBF)
   else if s0 =? 0xF0 then Some (4%nat, 0x90, 0xBF)
   else if s0 <? 0xF4 then Some (4%nat, 0x80, 0xBF)
   else if s0 =? 0xF4 then Some (4%nat, 0x80, 0x8F)
   else None)%N.

Definition bits (mask : N) (c : ascii) : N := N.land (byte_val c) mask.

(** [utf8.DecodeRuneInString]: the rune and its width in bytes. *)
Definition DecodeRuneInString (s : string) : N * nat :=
  match s with
  | EmptyString => (RuneError, 0)
  | String s0 t =>
      match first (byte_val s0) with
      | None =>
          ((if byte_val s0 <? 0x80 then byte_val s0 else RuneError)%N, 1)
      | Some (sz, lo, hi) =>
          if String.length s <? sz then (RuneError, 1)
          else match t with
          | EmptyString => (RuneError, 1)
          | String s1 t1 =>
              if negb (in_range lo hi s1) then (RuneError, 1)
              else if sz <=? 2 then
                (N.lor (N.shiftl (bits 0x1F s0) 6) (bits 0x3F s1), 2)
              else match t1 with
              | EmptyString => (RuneError, 1)
              | String s2 t2 =>
                  if negb (in_range 0x80 0xBF s2) then (RuneError, 1)
                  else if sz <=? 3 then
                    (N.lor (N.shiftl (bits 0x0F s0) 12)
                       (N.lor (N.shiftl (bits 0x3F s1) 6) (bits 0x3F s2)), 3)
                  else match t2 with
                  | EmptyString => (RuneError, 1)
                  | String s3 _ =>
                      if negb (in_range 0x80 0xBF s3) then (RuneError, 1)
                      else
                        (N.lor (N.shiftl (bits 0x07 s0) 18)
                           (N.lor (N.shiftl (bits 0x3F s1) 12)
                              (N.lor (N.shiftl (bits 0x3F s2) 6) (bits 0x3F s3))), 4)
                  end
              end
          end
      end
  end.

Definition rune_width (s : string) : nat := snd (DecodeRuneInString s).

(** [utf8.RuneCountInString]; a string of [n] bytes has at most [n]
    runes, which bounds the loop (lemma [RuneCount_loop_fuel]). *)
Fixpoint RuneCount_loop (fuel : nat) (s : string) : nat :=
  match fuel with
  | 0 => 0
  | S fuel' =>
      match s with
      | EmptyString => 0
      | _ => S (RuneCount_loop fuel' (drop (rune_width s) s))
      end
  end.

Definition RuneCountInString (s : string) : nat :=
  RuneCount_loop (String.length s) s.

End GoUtf8.

(** ** Package [strings] *)

Module GoStrings.
Import Bytes.

(** [strings.HasPrefix] *)
Fixpoint HasPrefix (s prefix : string) : bool :=
  match prefix, s with
  | EmptyString, _ => true
  | String p prefix', String c s' => Ascii.eqb c p && HasPrefix s' prefix'
  | String _ _, EmptyString => false
  end.

(** [strings.Index]: the least [i] with [s[i:i+len(substr)] == substr];
    Go's [-1] is [None]. *)
Fixpoint Index (s substr : string) : option nat :=
  if HasPrefix s substr then Some 0
  else match s with
       | EmptyString => None
       | String _ s' => S <$> Index s' substr
       end.

(** [strings.Contains] *)
Definition Contains (s substr : string) : bool :=
  match Index s substr with Some _ => true | None => false end.

(** [strings.Cut] *)
Definition Cut (s sep : string) : option (string * string) :=
  match Index s sep with
  | Some i => Some (take i s, drop (i + String.length sep) s)
  | None => None
  end.

(** The counting loop of [strings.Count] for a non-empty [substr]:
    [for { i := Index(s, substr); if i == -1 { return n }; n++;
    s = s[i+len(substr):] }]; every round shortens [s] (lemma
    [Count_loop_fuel]). *)
Fixpoint Count_loop (fuel : nat) (s substr : string) : nat :=
  match fuel with
  | 0 => 0
  | S fuel' =>
      match Index s substr with
      | None => 0
      | Some i => S (Count_loop fuel' (drop (i + String.length substr) s) substr)
      end
  end.

(** [strings.Count] *)
Definition Count (s substr : string) : nat :=
  if is_empty substr then GoUtf8.RuneCountInString s + 1
  else Count_loop (S (String.length s)) s substr.

(** The replacement loop of [strings.Replace],
    [for i := 0; i < n; i++ { ... }] followed by the write of
    [s[start:]]; [todo] is [n - i]. *)
Fixpoint Replace_loop (todo : nat) (first : bool)
    (s old new : string) (start : nat) (b : string) : string :=
  match todo with
  | 0 => b +:+ drop start s
  | S todo' =>
      let j :=
        if is_empty old then
          if first then start
          else start + GoUtf8.rune_width (drop start s)
        else start + default 0 (Index (drop start s) old) in
      Replace_loop todo' false s old new (j + String.length old)
        (b +:+ slice start j s +:+ new)
  end.

(** [strings.Replace(s, old, new, -1)], that is [strings.ReplaceAll] *)
Definition ReplaceAll (s old new : string) : string :=
  if String.eqb old new then s
  else
    let m := Count s old in
    if m =? 0 then s
    else Replace_loop m true s old new 0 "".

(** [strings.Join] *)
Fixpoint Join (elems : list string) (sep : string) : string :=
  match elems with
  | [] => ""
  | [e] => e
  | e :: rest => e +:+ sep +:+ Join rest sep
  end.

End GoStrings.

(** ** Package [path/filepath] (Unix) *)

Module GoFilepath.
Import Bytes GoStrings.

Definition Separator : ascii := "/"%char.

(** [os.IsPathSeparator] *)
Definition IsPathSeparator (c : ascii) : bool := Ascii.eqb c Separator.

Definition is_dot (c : ascii) : bool := Ascii.eqb c "."%char.

(** End of a path element: end of input or a separator next. *)
Definition at_element_end (rest : string) : bool :=
  match rest with
  | EmptyString => true
  | String c _ => IsPathSeparator c
  end.

(** The inner loop of the [..] case of [Clean]:
    [for out.w > dotdot && !os.IsPathSeparator(out.index(out.w)) { out.w-- }] *)
Fixpoint scan_back (out : string) (dotdot w : nat) : nat :=
  match w with
  | 0 => 0
  | S w' =>
      if (dotdot <? w) &&
         negb (match index w out with Some c => IsPathSeparator c | None => false end)
      then scan_back out dotdot w'
      else w
  end.

(** The element copy of the default case of [Clean]:
    [for ; r < n && !os.IsPathSeparator(path[r]); r++ { out.append(path[r]) }];
    returns the bytes copied and the unread input. *)
Fixpoint copy_element (rest : string) : string * string :=
  match rest with
  | EmptyString => (EmptyString, EmptyString)
  | String c rest' =>
      if IsPathSeparator c then (EmptyString, rest)
      else let '(e, r) := copy_element rest' in (String c e, r)
  end.

(** The main loop of [Clean], [for r < n { switch ... }].  [rest] is
    [path[r:]], [out] the bytes written so far ([out.w] is its length),
    [dotdot] the index where backtracking must stop.  Every iteration
    reads at least one byte, so [fuel = len(path)] is never used up
    (lemma [Clean_loop_fuel]). *)
Fixpoint Clean_loop (fuel : nat) (rooted : bool)
    (rest out : string) (dotdot : nat) : string :=
  match fuel with
  | 0 => out
  | S fuel' =>
      match rest with
      | EmptyString => out
      | String c rest1 =>
          if IsPathSeparator c then
            (* empty path element *)
            Clean_loop fuel' rooted rest1 out dotdot
          else if is_dot c && at_element_end rest1 then
            (* . element *)
            Clean_loop fuel' rooted rest1 out dotdot
          else if is_dot c &&
                  match rest1 with
                  | String c2 rest2 => is_dot c2 && at_element_end rest2
                  | EmptyString => false
                  end then
            (* .. element: remove to last separator *)
            let rest2 := drop 1 rest1 in
            if dotdot <? String.length out then
              (* can backtrack *)
              let w := scan_back out dotdot (String.length out - 1) in
              Clean_loop fuel' rooted rest2 (take w out) dotdot
            else if negb rooted then
              (* cannot backtrack, but not rooted, so append .. element *)
              let out1 := if 0 <? String.length out
                          then out +:+ "/" else out in
              let out2 := out1 +:+ ".." in
              Clean_loop fuel' rooted rest2 out2 (String.length out2)
            else
              Clean_loop fuel' rooted rest2 out dotdot
          else
            (* real path element: add slash if needed, copy element *)
            let out1 :=
              if (rooted && negb (String.length out =? 1)) ||
                 (negb rooted && negb (String.length out =? 0))
              then out +:+ "/" else out in
            let '(e, rest') := copy_element rest in
            Clean_loop fuel' rooted rest' (out1 +:+ e) dotdot
      end
  end.

(** [filepath.Clean] *)
Definition Clean (path : string) : string :=
  match path with
  | EmptyString => "."
  | String c0 path1 =>
      let rooted := IsPathSeparator c0 in
      let out :=
        if rooted
        then Clean_loop (String.length path) true path1 "/" 1
        else Clean_loop (String.length path) false path "" 0 in
      (* Turn empty string into "." *)
      if is_empty out then "." else out
  end.

(** [filepath.Join]: the elements from the first non-empty one on are
    joined with the separator and cleaned. *)
Fixpoint Join (elem : list string) : string :=
  match elem with
  | [] => ""
  | e :: rest =>
      if is_empty e then Join rest
      else Clean (GoStrings.Join elem "/")
  end.

(** [filepath.IsAbs] *)
Definition IsAbs (path : string) : bool := HasPrefix path "/".

(** The index loop of [filepath.Dir]:
    [i := len(path) - 1; for i >= 0 && !os.IsPathSeparator(path[i]) { i-- }];
    returns [i + 1]. *)
Fixpoint last_separator_end (path : string) : nat :=
  match path with
  | EmptyString => 0
  | String c path' =>
      let k := last_separator_end path' in
      if 0 <? k then S k
      else if IsPathSeparator c then 1 else 0
  end.

(** [filepath.Dir] *)
Definition Dir (path : string) : string :=
  Clean (take (last_separator_end path) path).

End GoFilepath.

(** ** Package [encoding/json] *)

Module GoJson.
Import Bytes.

(** A parsed JSON text. *)
#[warnings="-register-all"]
Inductive Value : Type :=
  | Null
  | Bool (b : bool)
  | Number (literal : string)
  | Str (s : string)
  | Array (elems : list Value)
  | Object (members : list (string * Value)).

Inductive UnmarshalError : Type :=
  | SyntaxError (msg : string)
  | UnmarshalTypeError (value field : string).

(** The word [UnmarshalTypeError] uses for the offending JSON value. *)
Definition kind (v : Value) : string :=
  match v with
  | Null => "null" | Bool _ => "bool" | Number _ => "number"
  | Str _ => "string" | Array _ => "array" | Object _ => "object"
  end.

Definition lower_byte (c : ascii) : ascii :=
  let n := nat_of_ascii c in
  if (65 <=? n) && (n <=? 90) then ascii_of_nat (n + 32) else c.

(** Case-insensitive comparison of a member name with a field name.
    All field names of the agent are lower-case ASCII without [k] and
    [s], for which Unicode simple folding is ASCII folding. *)
Fixpoint EqualFold (key field : string) : bool :=
  match key, field with
  | EmptyString, EmptyString => true
  | String a key', String b field' =>
      Ascii.eqb (lower_byte a) (lower_byte b) && EqualFold key' field'
  | _, _ => false
  end.

(** The struct field a member name selects: an exact match is
    preferred, a case-insensitive one accepted. *)
Definition field_for (fields : list string) (key : string) : option string :=
  match List.find (String.eqb key) fields with
  | Some f => Some f
  | None => List.find (EqualFold key) fields
  end.

(** A struct all of whose fields are strings, as field name/value
    pairs; an unset field reads as the zero value. *)
Definition Struct := list (string * string).

Fixpoint get (p : Struct) (field : string) : string :=
  match p with
  | [] => ""
  | (f, v) :: p' => if String.eqb f field then v else get p' field
  end.

(** Decoding of the members of an object into the struct, in order;
    the first type error is saved and decoding goes on. *)
Fixpoint decode_members (fields : list string) (members : list (string * Value))
    (p : Struct) (saved : option UnmarshalError) : Struct * option UnmarshalError :=
  match members with
  | [] => (p, saved)
  | (key, v) :: rest =>
      match field_for fields key with
      | None => decode_members fields rest p saved
      | Some f =>
          match v with
          | Str s => decode_members fields rest ((f, s) :: p) saved
          | Null => decode_members fields rest p saved
          | _ =>
              decode_members fields rest p
                (match saved with
                 | Some e => Some e
                 | None => Some (UnmarshalTypeError (kind v) f)
                 end)
          end
      end
  end.

(** [json.Unmarshal] of a parsed text into a struct of string fields. *)
Definition decode_struct (fields : list string) (v : Value) : Struct + UnmarshalError :=
  match v with
  | Null => inl []
  | Object members =>
      match decode_members fields members [] None with
      | (p, None) => inl p
      | (_, Some e) => inr e
      end
  | _ => inr (UnmarshalTypeError (kind v) "")
  end.

(** [json.Unmarshal] of a parsed text into a [map[string]interface{}]:
    the number of keys of the resulting map. *)
Definition decode_map_len (v : Value) : nat + UnmarshalError :=
  match v with
  | Null => inl 0
  | Object members => inl (length (remove_dups (map fst members)))
  | _ => inr (UnmarshalTypeError (kind v) "")
  end.

(** [json.Unmarshal] of a parsed text into a [map[string]interface{}]:
    the members are stored in order, a later one replacing an earlier
    one of the same name. *)
Definition decode_map (v : Value) : gmap string Value + UnmarshalError :=
  match v with
  | Null => inl ∅
  | Object members => inl (fold_left (λ m '(key, x), <[key := x]> m) members ∅)
  | _ => inr (UnmarshalTypeError (kind v) "")
  end.

(** The type assertion [x.(string)] on a value of such a map. *)
Definition as_string (x : option Value) : string * bool :=
  match x with
  | Some (Str s) => (s, true)
  | _ => ("", false)
  end.

End GoJson.

(** ** What is taken from the Go library without a model

    The Unicode tables, [strings.ToLower], [strings.TrimSpace] and
    [strings.Fields] (all Unicode-aware), [strconv.Quote] (the [%q]
    verb) and the JSON lexer are parameters of the development. *)

Class GoLib := {
  (** [unicode.IsLetter], [unicode.IsDigit] *)
  IsLetter : N → bool;
  IsDigit : N → bool;
  (** [strings.ToLower], [strings.TrimSpace], [strings.Fields] *)
  ToLower : string → string;
  TrimSpace : string → string;
  Fields : string → list string;
  (** [strconv.Quote] *)
  Quote : string → string;
  (** The syntax layer of [json.Unmarshal]: the value a text denotes,
      or the text of the syntax error. *)
  json_parse : string → GoJson.Value + string;
  (** The text of a [json.UnmarshalTypeError] for a JSON value of the
      given kind met at the given struct field. *)
  type_error_text : string → string → string
}.

(** [json.Unmarshal] into a struct of string fields, into a
    [map[string]interface{}], and the text of its error. *)
Definition Unmarshal `{lib : GoLib} (fields : list string) (data : string) :
    GoJson.Struct + GoJson.UnmarshalError :=
  match json_parse data with
  | inr msg => inr (GoJson.SyntaxError msg)
  | inl v => GoJson.decode_struct fields v
  end.

Definition UnmarshalMap `{lib : GoLib} (data : string) :
    gmap string GoJson.Value + GoJson.UnmarshalError :=
  match json_parse data with
  | inr msg => inr (GoJson.SyntaxError msg)
  | inl v => GoJson.decode_map v
  end.

Definition UnmarshalError_text `{lib : GoLib} (e : GoJson.UnmarshalError) : string :=
  match e with
  | GoJson.SyntaxError msg => msg
  | GoJson.UnmarshalTypeError v f => type_error_text v f
  end.

(** ** Package [regexp] *)

Module GoRegexp.
Import Bytes GoStrings.

(** A match: the bounds of the whole match ([a[0]], [a[1]]) and of
    the capture groups 1, 2, ... ([None] where Go has [-1]). *)
Record Match := {
  m_lo : nat;
  m_hi : nat;
  m_sub : list (option (nat * nat))
}.

(** [match[2*num]], [match[2*num+1]] when in range and set. *)
Definition group (m : Match) (num : nat) : option (nat * nat) :=
  match num with
  | 0 => Some (m_lo m, m_hi m)
  | S k => mjoin (m_sub m !! k)
  end.

(** The matching engine: parser, compiler and the machines behind
    [doExecute] are not modelled.  [doExecute re s pos] is the
    leftmost match at or after [pos]. *)
Class Engine := {
  Regexp : Type;
  Compile : string → option Regexp;
  subexpNames : Regexp → list string;
  doExecute : Regexp → string → nat → option Match
}.

Section WithEngine.
Context `{lib : GoLib} `{engine : Engine}.

Definition is_name_rune (r : N) : bool :=
  IsLetter r || IsDigit r || (r =? 95)%N.

(** The name scan of [extract]:
    [for i < len(str) { rune, size := DecodeRuneInString(str[i:]);
    if !IsLetter(rune) && !IsDigit(rune) && rune != '_' { break };
    i += size }] (lemma [name_len_fuel]). *)
Fixpoint name_len (fuel : nat) (str : string) : nat :=
  match fuel with
  | 0 => 0
  | S fuel' =>
      match str with
      | EmptyString => 0
      | _ =>
          let '(rune, size) := GoUtf8.DecodeRuneInString str in
          if is_name_rune rune then size + name_len fuel' (drop size str)
          else 0
      end
  end.

(** The number parse of [extract]; [None] is Go's [-1]. *)
Fixpoint parse_num (name : string) (num : N) : option N :=
  match name with
  | EmptyString => Some num
  | String c name' =>
      let d := N_of_ascii c in
      if ((d <? 48) || (57 <? d) || (100000000 <=? num))%N then None
      else parse_num name' (num * 10 + d - 48)%N
  end.

(** [extract]: the name from a leading [name] or [{name}], its
    number if it is one, and the rest. *)
Definition extract (str0 : string) : option (string * option N * string) :=
  match str0 with
  | EmptyString => None
  | String c0 _ =>
      let brace := Ascii.eqb c0 "{"%char in
      let str := if brace then drop 1 str0 else str0 in
      let i := name_len (String.length str) str in
      if i =? 0 then None   (* empty name is not okay *)
      else
        let name := take i str in
        let closed :=
          if brace then
            match index i str with
            | Some c => if Ascii.eqb c "}"%char then Some (S i) else None
            | None => None   (* missing closing brace *)
            end
          else Some i in
        match closed with
        | None => None
        | Some i' =>
            let num := parse_num name 0 in
            (* Disallow leading zeros. *)
            let num := if HasPrefix name "0" && (1 <? String.length name)
                       then None else num in
            Some (name, num, drop i' str)
        end
  end.

(** The loop over [re.subexpNames] of [expand]: the first group of
    that name that took part in the match. *)
Fixpoint named_group (names : list string) (i : nat) (name : string)
    (m : Match) : option (nat * nat) :=
  match names with
  | [] => None
  | namei :: names' =>
      match (if String.eqb name namei then group m i else None) with
      | Some r => Some r
      | None => named_group names' (S i) name m
      end
  end.

(** [Regexp.expand]: every iteration drops at least the dollar
    sign from the template, which bounds the loop (lemma
    [expand_loop_fuel]). *)
Fixpoint expand_loop (fuel : nat) (re : Regexp)
    (dst template src : string) (m : Match) : string :=
  match fuel with
  | 0 => dst +:+ template
  | S fuel' =>
      match Cut template "$" with
      | None => dst +:+ template
      | Some (before, after) =>
          let dst := dst +:+ before in
          if HasPrefix after "$" then
            expand_loop fuel' re (dst +:+ "$") (drop 1 after) src m
          else
            match extract after with
            | None =>
                (* Malformed; treat $ as raw text. *)
                expand_loop fuel' re (dst +:+ "$") after src m
            | Some (name, num, rest) =>
                let found :=
                  match num with
                  | Some n => group m (N.to_nat n)
                  | None => named_group (subexpNames re) 0 name m
                  end in
                let dst := match found with
                           | Some (a, b) => dst +:+ slice a b src
                           | None => dst
                           end in
                expand_loop fuel' re dst rest src m
            end
      end
  end.

Definition expand (re : Regexp) (dst template src : string) (m : Match) : string :=
  expand_loop (S (String.length template)) re dst template src m.

(** [Regexp.replaceAll]: [for searchPos <= endPos { ... }] and
    the copy of the unmatched bytes after the last match.
    [searchPos] grows in every iteration, so [len(src) + 2] rounds
    are never used up. *)
Fixpoint replaceAll_loop (fuel : nat) (re : Regexp) (src : string)
    (repl : string → Match → string)
    (lastMatchEnd searchPos : nat) (buf : string) : string :=
  match fuel with
  | 0 => buf +:+ drop lastMatchEnd src
  | S fuel' =>
      if searchPos <=? String.length src then
        match doExecute re src searchPos with
        | None => buf +:+ drop lastMatchEnd src   (* no more matches *)
        | Some a =>
            (* Copy the unmatched characters before this match. *)
            let buf := buf +:+ slice lastMatchEnd (m_lo a) src in
            (* Insert the replacement, but not for a match of the
               empty string immediately after another match. *)
            let buf := if (lastMatchEnd <? m_hi a) || (m_lo a =? 0)
                       then repl buf a else buf in
            (* Advance past this match; always at least one character. *)
            let width := GoUtf8.rune_width (drop searchPos src) in
            let searchPos' :=
              if m_hi a <? searchPos + width then searchPos + width
              else if m_hi a <? searchPos + 1 then searchPos + 1
              else m_hi a in
            replaceAll_loop fuel' re src repl (m_hi a) searchPos' buf
        end
      else buf +:+ drop lastMatchEnd src
  end.

Definition replaceAll (re : Regexp) (src : string)
    (repl : string → Match → string) : string :=
  replaceAll_loop (S (S (String.length src))) re src repl 0 0 "".

(** [Regexp.ReplaceAllString] *)
Definition ReplaceAllString (re : Regexp) (src repl : string) : string :=
  replaceAll re src (λ dst m, expand re dst repl src m).

(** [Regexp.MatchString] *)
Definition MatchString (re : Regexp) (s : string) : bool :=
  bool_decide (is_Some (doExecute re s 0)).

End WithEngine.
End GoRegexp.

(** ** Package [os]: a file tree

    Names are compared as written (they are cleaned paths built by
    [filepath.Join]); there are no links, permissions or quotas.  The
    root [/] and the working directory [.] always exist, the empty
    name never does. *)

Module GoOs.
Import Bytes GoStrings.

Inductive Errno := ENOENT | ENOTDIR | EISDIR | EEXIST.

Record PathError := { Op : string; Path : string; Errno_ : Errno }.

Inductive node : Type :=
  | File (data : string)
  | Dir.

Abbreviation FS := (gmap string node).

Definition lookup (fs : FS) (name : string) : option node :=
  if String.eqb name "/" || String.eqb name "." then Some Dir
  else if is_empty name then None
  else fs !! name.

(** Why a name that is not there cannot be reached or created: the
    nearest ancestor that exists is a file ([ENOTDIR]), or it is a
    directory but not the parent ([ENOENT]); [None] when the parent
    is a directory.  The search goes up by [filepath.Dir] and ends at
    the root or the current directory at the latest (lemma
    [parent_errno_fuel]). *)
Fixpoint parent_errno (fuel : nat) (fs : FS) (name : string) (near : bool) : option Errno :=
  match fuel with
  | 0 => Some ENOENT
  | S fuel' =>
      let up := GoFilepath.Dir name in
      match lookup fs up with
      | Some Dir => if near then None else Some ENOENT
      | Some (File _) => Some ENOTDIR
      | None => parent_errno fuel' fs up false
      end
  end.

Definition parent_check (fs : FS) (name : string) : option Errno :=
  if is_empty name then Some ENOENT
  else parent_errno (S (String.length name)) fs name true.

(** [os.Stat] followed by [IsDir] *)
Definition IsDir (fs : FS) (name : string) : bool :=
  match lookup fs name with Some Dir => true | _ => false end.

(** [os.Mkdir] *)
Definition Mkdir (fs : FS) (name : string) : FS + PathError :=
  match lookup fs name with
  | Some _ => inr {| Op := "mkdir"; Path := name; Errno_ := EEXIST |}
  | None =>
      match parent_check fs name with
      | Some e => inr {| Op := "mkdir"; Path := name; Errno_ := e |}
      | None => inl (<[name := Dir]> fs)
      end
  end.

(** The two index loops of [os.MkdirAll]: skip the trailing
    separators, then scan backward over the last element; the result
    is [j]. *)
Fixpoint skip_trailing_separators (path : string) (i : nat) : nat :=
  match i with
  | 0 => 0
  | S i' =>
      match index i' path with
      | Some c => if GoFilepath.IsPathSeparator c
                  then skip_trailing_separators path i' else i
      | None => i
      end
  end.

Fixpoint scan_element (path : string) (j : nat) : nat :=
  match j with
  | 0 => 0
  | S j' =>
      match index j' path with
      | Some c => if GoFilepath.IsPathSeparator c then j
                  else scan_element path j'
      | None => j
      end
  end.

(** [os.MkdirAll]; the parent is a proper prefix of the path, which
    bounds the recursion by the length of the path (lemma
    [MkdirAll_rec_fuel]). *)
Fixpoint MkdirAll_rec (fuel : nat) (fs : FS) (path : string) : FS + PathError :=
  match fuel with
  | 0 => Mkdir fs path
  | S fuel' =>
      (* Fast path: if we can tell whether path is a directory or file, stop. *)
      match lookup fs path with
      | Some Dir => inl fs
      | Some (File _) => inr {| Op := "mkdir"; Path := path; Errno_ := ENOTDIR |}
      | None =>
          (* Slow path: make sure parent exists and then call Mkdir for path. *)
          let i := skip_trailing_separators path (String.length path) in
          let j := scan_element path i in
          let made :=
            if 1 <? j then MkdirAll_rec fuel' fs (take (j - 1) path)
            else inl fs in
          match made with
          | inr e => inr e
          | inl fs1 =>
              match Mkdir fs1 path with
              | inl fs2 => inl fs2
              | inr e => if IsDir fs1 path then inl fs1 else inr e
              end
          end
      end
  end.

Definition MkdirAll (fs : FS) (path : string) : FS + PathError :=
  MkdirAll_rec (String.length path) fs path.

(** Opening [name] for writing with [O_CREATE]: the old content of a
    regular file (empty when it is created). *)
Definition open_create (fs : FS) (name : string) : string + PathError :=
  match lookup fs name with
  | Some Dir => inr {| Op := "open"; Path := name; Errno_ := EISDIR |}
  | Some (File old) => inl old
  | None =>
      match parent_check fs name with
      | Some e => inr {| Op := "open"; Path := name; Errno_ := e |}
      | None => inl ""
      end
  end.

(** [os.WriteFile]: create or truncate, then write. *)
Definition WriteFile (fs : FS) (name data : string) : FS + PathError :=
  match open_create fs name with
  | inl _ => inl (<[name := File data]> fs)
  | inr e => inr e
  end.

(** [os.OpenFile(name, O_CREATE|O_WRONLY|O_APPEND, _)] followed by
    [WriteString]. *)
Definition AppendString (fs : FS) (name data : string) : FS + PathError :=
  match open_create fs name with
  | inl old => inl (<[name := File (old +:+ data)]> fs)
  | inr e => inr e
  end.

(** [os.ReadFile] *)
Definition ReadFile (fs : FS) (name : string) : string + PathError :=
  match lookup fs name with
  | Some (File data) => inl data
  | Some Dir => inr {| Op := "read"; Path := name; Errno_ := EISDIR |}
  | None =>
      inr {| Op := "open"; Path := name;
             Errno_ := default ENOENT (parent_check fs name) |}
  end.

(** The order in which [filepath.WalkDir] reaches two names below one
    root: directory entries are visited in the order of their names,
    so the names compare byte by byte with the separator before every
    other byte. *)
Fixpoint walk_leb (x y : string) : bool :=
  match x, y with
  | EmptyString, _ => true
  | String _ _, EmptyString => false
  | String a x', String b y' =>
      if Ascii.eqb a b then walk_leb x' y'
      else if GoFilepath.IsPathSeparator a then true
      else if GoFilepath.IsPathSeparator b then false
      else (nat_of_ascii a <? nat_of_ascii b)
  end.

Fixpoint walk_insert (x : string) (l : list string) : list string :=
  match l with
  | [] => [x]
  | y :: l' => if walk_leb x y then x :: l else y :: walk_insert x l'
  end.

(** [name] relative to the directory [root] when it lies below it. *)
Definition relative_below (root name : string) : option string :=
  if String.eqb root "." then
    if HasPrefix name "/" || HasPrefix name "../" || String.eqb name ".."
    then None else Some name
  else
    let below := if String.eqb root "/" then "/" else root +:+ "/" in
    if HasPrefix name below then Some (drop (String.length below) name) else None.

(** [filepath.WalkDir] with the callback of [listFiles]: the regular
    files below [root], relative to it, in walk order. *)
Definition WalkFiles (fs : FS) (root : string) : list string + PathError :=
  match lookup fs root with
  | None => inr {| Op := "lstat"; Path := root; Errno_ := ENOENT |}
  | Some (File _) => inl ["."]
  | Some Dir =>
      inl (foldr walk_insert []
             (omap (λ '(name, n),
                      match n with
                      | File _ => relative_below root name
                      | Dir => None
                      end)
                   (map_to_list fs)))
  end.

(** [os.Stat]: the node, or the error. *)
Definition Stat (fs : FS) (name : string) : node + PathError :=
  match lookup fs name with
  | Some n => inl n
  | None =>
      inr {| Op := "stat"; Path := name;
             Errno_ := default ENOENT (parent_check fs name) |}
  end.

(** [os.IsNotExist] *)
Definition IsNotExist (err : option PathError) : bool :=
  match err with
  | Some e => match Errno_ e with ENOENT => true | _ => false end
  | None => false
  end.

(** [err.Error()] *)
Definition Errno_text (e : Errno) : string :=
  match e with
  | ENOENT => "no such file or directory"
  | ENOTDIR => "not a directory"
  | EISDIR => "is a directory"
  | EEXIST => "file exists"
  end.

Definition PathError_text (e : PathError) : string :=
  Op e +:+ " " +:+ Path e +:+ ": " +:+ Errno_text (Errno_ e).

End GoOs.

(** ** Package [go-openai]: the messages of the chat API *)

Module GoOpenAI.

Definition ChatMessageRoleSystem : string := "system".
Definition ChatMessageRoleUser : string := "user".
Definition ChatMessageRoleAssistant : string := "assistant".
Definition ChatMessageRoleTool : string := "tool".
Definition ToolTypeFunction : string := "function".

(** The function call of the older API ([message.FunctionCall]). *)
Record FunctionCall := {
  CallName : string;
  CallArguments : string
}.

(** A tool call; [FunctionName] and [FunctionArguments] are
    [toolCall.Function.Name] and [toolCall.Function.Arguments]. *)
Record ToolCall := {
  ID : string;
  ToolType : string;
  FunctionName : string;
  FunctionArguments : string
}.

Record ChatCompletionMessage := {
  Role : string;
  Content : string;
  Name : string;
  FunctionCall_ : option FunctionCall;
  ToolCallID : string;
  ToolCalls : list ToolCall
}.

Record ChatCompletionResponse := { Choices : list ChatCompletionMessage }.

End GoOpenAI.

(** ** The world outside the process *)

Module Outside.
Import GoOpenAI.

(** How a child process ended when running it returns a non-nil
    error: with a non-zero status (or a signal), or not started at all.
    The text is [err.Error()]. *)
Inductive RunError : Type :=
| ExitError (text : string)
| StartError (text : string).

Definition RunError_text (e : RunError) : string :=
  match e with ExitError t => t | StartError t => t end.

(** A call returns, or the program panics. *)
Inductive Run (A : Type) : Type :=
| Returned (x : A)
| Panicked (text : string).
Arguments Returned {A} x.
Arguments Panicked {A} text.

Definition index_out_of_range : string :=
  "runtime error: index out of range [0] with length 0".

(** What a child process wrote: to its standard output, to its
    standard error, and to both as one stream ([CombinedOutput]). *)
Record Completed := {
  Stdout : string;
  Stderr : string;
  Output : string;
  Failure : option RunError
}.

(** What the process observes of the chat service and of the commands
    it runs.  Both are functions of the number of external interactions
    made so far, so that any sequence of replies is some [Env].
    [exec n dir argv fs] is [exec.Command(argv[0], argv[1:]...)] run
    in [dir]. *)
Record Env := {
  CreateChatCompletion : nat → list ChatCompletionMessage → ChatCompletionResponse + string;
  exec : nat → string → list string → GoOs.FS → Completed * GoOs.FS
}.

Inductive Event : Type :=
| Appended (m : ChatCompletionMessage)
| Requested (messages : list ChatCompletionMessage)
| Executed (dir : string) (argv : list string)
| Turn (turn : nat) (instruction : string).

(** [writes] holds the writes to files that went through, in order:
    the name of the file and the bytes handed to [os.WriteFile] or to
    [WriteString].  A file written again with the bytes it holds
    leaves [fs] as it is and still adds to [writes]. *)
Record World := {
  fs : GoOs.FS;
  ticks : nat;
  trace : list Event;
  writes : list (string * string)
}.

Definition set_fs (w : World) (fs' : GoOs.FS) : World :=
  {| fs := fs'; ticks := ticks w; trace := trace w; writes := writes w |}.

(** The world after a write of [data] to the file [name] went through
    and left the file system [fs']. *)
Definition wrote (w : World) (fs' : GoOs.FS) (name data : string) : World :=
  {| fs := fs'; ticks := ticks w; trace := trace w;
     writes := writes w ++ [(name, data)] |}.

Definition emit (w : World) (e : Event) : World :=
  {| fs := fs w; ticks := ticks w; trace := trace w ++ [e]; writes := writes w |}.

Definition tick (w : World) : World :=
  {| fs := fs w; ticks := S (ticks w); trace := trace w; writes := writes w |}.

End Outside.

(** ** The agent (the tool-calling variant) *)

Module Agent.
Import Bytes GoStrings GoOpenAI Outside.

(** *** Errors, one constructor per [fmt.Errorf] or [errors.New] site *)

Inductive error : Type :=
| ErrInvalidPath (rel : string)
| ErrEscapesProjectDir (rel : string)
| ErrCreateDirectory (path : string) (cause : GoOs.PathError)
| ErrWriteFile (path : string) (cause : GoOs.PathError)
| ErrOpenAppend (path : string) (cause : GoOs.PathError)
| ErrReadForUpdate (path : string) (cause : GoOs.PathError)
| ErrWriteUpdated (path : string) (cause : GoOs.PathError)
| ErrReadFile (path : string) (cause : GoOs.PathError)
| ErrListFiles (root : string) (cause : GoOs.PathError)
| ErrCreateChatCompletion (step : nat) (cause : string)
| ErrEmptyChoices
| ErrNoContentNoToolCalls
| ErrTooManyToolInvocations
| ErrInvalidJSON (name : string) (cause : GoJson.UnmarshalError) (raw : string)
| ErrInvalidJSONListFiles (cause : GoJson.UnmarshalError) (raw : string)
| ErrEmptyPath (name raw : string)
| ErrListFilesArguments (raw : string)
| ErrEmptyCommand (raw : string)
| ErrUnknownTool (name : string).

Inductive result (A : Type) : Type :=
| Ok (a : A)
| Err (e : error).
Arguments Ok {A} a.
Arguments Err {A} e.

Definition is_Err {A} (r : result A) : bool :=
  match r with Err _ => true | Ok _ => false end.

Record AutonomousCodingAgent := {
  projectDir : string;
  ctx : list ChatCompletionMessage;
  maxCtxMessages : nat
}.

Definition set_ctx (a : AutonomousCodingAgent) (c : list ChatCompletionMessage) :
    AutonomousCodingAgent :=
  {| projectDir := projectDir a; ctx := c; maxCtxMessages := maxCtxMessages a |}.

(** [NewAgent]: the project directory is made (the process stops when
    that fails) and the window is 40 messages. *)
Definition NewAgent (fs0 : GoOs.FS) (dir : string) :
    option (AutonomousCodingAgent * GoOs.FS) :=
  match GoOs.MkdirAll fs0 dir with
  | inr _ => None
  | inl fs1 => Some ({| projectDir := dir; ctx := []; maxCtxMessages := 40 |}, fs1)
  end.

Section WithLibrary.
Context `{lib : GoLib} `{engine : GoRegexp.Engine}.

(** *** Utility helpers *)

(** [absPath] ensures [rel] cannot traverse outside the sandbox. *)
Definition absPath (a : AutonomousCodingAgent) (rel : string) : result string :=
  let clean := GoFilepath.Clean rel in
  (* Prevent paths that are absolute or try to go "up" from the root. *)
  if GoFilepath.IsAbs clean || HasPrefix clean (".." +:+ "/") || String.eqb clean ".." then
    Err (ErrInvalidPath rel)
  else
    let full := GoFilepath.Join [projectDir a; clean] in
    (* Ensure the fully resolved path is truly within the projectDir. *)
    let cleanProjectDir := GoFilepath.Clean (projectDir a) in
    if negb (HasPrefix full (cleanProjectDir +:+ "/")) && negb (String.eqb full cleanProjectDir) then
      Err (ErrEscapesProjectDir rel)
    else Ok full.

(** *** File operations (tools) *)

Definition createFile (a : AutonomousCodingAgent) (w : World) (path content : string) :
    result string * World :=
  match absPath a path with
  | Err e => (Err e, w)
  | Ok full =>
      match GoOs.MkdirAll (fs w) (GoFilepath.Dir full) with
      | inr e => (Err (ErrCreateDirectory path e), w)
      | inl fs1 =>
          match GoOs.WriteFile fs1 full content with
          | inr e => (Err (ErrWriteFile path e), set_fs w fs1)
          | inl fs2 =>
              (Ok ("file " +:+ path +:+ " created"), wrote w fs2 full content)
          end
      end
  end.

Definition appendFile (a : AutonomousCodingAgent) (w : World) (path content : string) :
    result string * World :=
  match absPath a path with
  | Err e => (Err e, w)
  | Ok full =>
      (* Ensure directory exists before trying to open/create the file *)
      match GoOs.MkdirAll (fs w) (GoFilepath.Dir full) with
      | inr e => (Err (ErrCreateDirectory path e), w)
      | inl fs1 =>
          match GoOs.AppendString fs1 full content with
          | inr e => (Err (ErrOpenAppend path e), set_fs w fs1)
          | inl fs2 =>
              (Ok ("content appended to " +:+ path), wrote w fs2 full content)
          end
      end
  end.

(** The text [updateFile] computes from the file content: all matches
    replaced when [find] compiles as a regular expression, all literal
    occurrences replaced otherwise. *)
Definition replaced (src find replace : string) : string :=
  match GoRegexp.Compile find with
  | Some re => GoRegexp.ReplaceAllString re src replace
  | None => ReplaceAll src find replace
  end.

Definition nothing_replaced (path : string) : string :=
  "nothing replaced in " +:+ path +:+
  " (content was identical or find pattern did not match)".

Definition updated (path : string) : string := "updated " +:+ path.

Definition updateFile (a : AutonomousCodingAgent) (w : World) (path find replace : string) :
    result string * World :=
  match absPath a path with
  | Err e => (Err e, w)
  | Ok full =>
      match GoOs.ReadFile (fs w) full with
      | inr e => (Err (ErrReadForUpdate path e), w)
      | inl src =>
          let dst := replaced src find replace in
          if String.eqb dst src then (Ok (nothing_replaced path), w)
          else
            match GoOs.WriteFile (fs w) full dst with
            | inr e => (Err (ErrWriteUpdated path e), w)
            | inl fs1 => (Ok (updated path), wrote w fs1 full dst)
            end
      end
  end.

Definition readFile (a : AutonomousCodingAgent) (w : World) (path : string) :
    result string * World :=
  match absPath a path with
  | Err e => (Err e, w)
  | Ok full =>
      match GoOs.ReadFile (fs w) full with
      | inr e => (Err (ErrReadFile path e), w)
      | inl raw => (Ok raw, w)
      end
  end.

Definition listFiles (a : AutonomousCodingAgent) (w : World) : result string * World :=
  let projectRoot := GoFilepath.Clean (projectDir a) in
  match GoOs.WalkFiles (fs w) projectRoot with
  | inr e => (Err (ErrListFiles projectRoot e), w)
  | inl [] => (Ok "No files found in the project.", w)
  | inl list => (Ok (Join list (String "010"%char "")), w)
  end.

(** *** Error texts ([err.Error()]) *)

Definition decimal (n : nat) : string :=
  DecimalString.NilEmpty.string_of_uint (Nat.to_uint n).

Definition Error_text (e : error) : string :=
  match e with
  | ErrInvalidPath rel =>
      "invalid path " +:+ Quote rel +:+ " (must be relative and stay within project dir)"
  | ErrEscapesProjectDir rel =>
      "invalid path " +:+ Quote rel +:+ " (escapes project dir)"
  | ErrCreateDirectory path c =>
      "failed to create directory for " +:+ path +:+ ": " +:+ GoOs.PathError_text c
  | ErrWriteFile path c =>
      "failed to write file " +:+ path +:+ ": " +:+ GoOs.PathError_text c
  | ErrOpenAppend path c =>
      "failed to open/append to file " +:+ path +:+ ": " +:+ GoOs.PathError_text c
  | ErrReadForUpdate path c =>
      "failed to read file " +:+ path +:+ " for update: " +:+ GoOs.PathError_text c
  | ErrWriteUpdated path c =>
      "failed to write updated content to " +:+ path +:+ ": " +:+ GoOs.PathError_text c
  | ErrReadFile path c =>
      "failed to read file " +:+ path +:+ ": " +:+ GoOs.PathError_text c
  | ErrListFiles root c =>
      "error listing files in " +:+ root +:+ ": " +:+ GoOs.PathError_text c
  | ErrCreateChatCompletion step c =>
      "CreateChatCompletion failed on step " +:+ decimal step +:+ ": " +:+ c
  | ErrEmptyChoices => "received an empty Choices array from OpenAI"
  | ErrNoContentNoToolCalls => "assistant provided no content and no tool calls"
  | ErrTooManyToolInvocations => "too many tool invocations without a final answer"
  | ErrInvalidJSON name c raw =>
      "invalid JSON arguments for " +:+ name +:+ ": " +:+ UnmarshalError_text c
      +:+ ". Raw args: " +:+ raw
  | ErrInvalidJSONListFiles c raw =>
      "invalid JSON arguments for list_files (expected empty or {}): "
      +:+ UnmarshalError_text c +:+ ". Raw args: " +:+ raw
  | ErrEmptyPath name raw =>
      "argument 'path' for " +:+ name +:+ " cannot be empty. Raw args: " +:+ raw
  | ErrListFilesArguments raw =>
      "list_files expects no arguments, but received some. Raw args: " +:+ raw
  | ErrEmptyCommand raw =>
      "argument 'command' for run_shell cannot be empty. Raw args: " +:+ raw
  | ErrUnknownTool name =>
      "unknown tool " +:+ Quote name +:+ " requested by LLM"
  end.

Section WithEnv.
Variable env : Env.

(** *** Shell runner (tool) *)

Definition runShell (a : AutonomousCodingAgent) (w : World) (cmd : string) :
    result string * World :=
  let w := emit w (Executed (projectDir a) ["bash"; "-c"; cmd]) in
  let '(c, fs') := exec env (ticks w) (projectDir a) ["bash"; "-c"; cmd] (fs w) in
  let w := tick (set_fs w fs') in
  let outputStr := TrimSpace (Output c) in
  match Failure c with
  | Some err =>
      (* Return both output and error so the model can diagnose. *)
      (Ok ("Output:" +:+ newline +:+ outputStr +:+ newline +:+ "ERROR: "
           +:+ RunError_text err), w)
  | None => (Ok outputStr, w)
  end.

(** *** OpenAI interaction helpers *)

(** [systemPrompt] defines the initial system message for the AI. *)
Definition systemPrompt : ChatCompletionMessage :=
  {| Role := ChatMessageRoleSystem;
     Content := "You are AutonomousCoder, a senior software engineer. Work step-by-step: decide which file to read or modify, or which shell command to run, using the provided tools. File paths should always be relative to the project root. Iterate until the tests pass or the goal is reached. Respond concisely. If a tool fails, analyze the error and try to fix the issue in your next step. If a shell command produces an error, that error will be part of its output. If a file operation results in 'nothing changed', consider if the 'find' pattern was correct or if the file already has the desired content. Be precise with file paths. Always use 'list_files' if unsure about file existence or names before attempting to read or write.";
     Name := ""; FunctionCall_ := None; ToolCallID := ""; ToolCalls := [] |}.

(** [execTool] deserialises args and dispatches to the matching helper. *)
Definition execTool (a : AutonomousCodingAgent) (w : World) (name jsonArgs : string) :
    result string * World :=
  if String.eqb name "create_file" || String.eqb name "append_file" then
    match Unmarshal ["path"; "content"] jsonArgs with
    | inr e => (Err (ErrInvalidJSON name e jsonArgs), w)
    | inl p =>
        if String.eqb (TrimSpace (GoJson.get p "path")) "" then
          (Err (ErrEmptyPath name jsonArgs), w)
        else if String.eqb name "create_file" then
          createFile a w (GoJson.get p "path") (GoJson.get p "content")
        else appendFile a w (GoJson.get p "path") (GoJson.get p "content")
    end
  else if String.eqb name "update_file" then
    match Unmarshal ["path"; "find"; "replace"] jsonArgs with
    | inr e => (Err (ErrInvalidJSON name e jsonArgs), w)
    | inl p =>
        if String.eqb (TrimSpace (GoJson.get p "path")) "" then
          (Err (ErrEmptyPath name jsonArgs), w)
        else updateFile a w (GoJson.get p "path") (GoJson.get p "find")
               (GoJson.get p "replace")
    end
  else if String.eqb name "read_file" then
    match Unmarshal ["path"] jsonArgs with
    | inr e => (Err (ErrInvalidJSON "read_file" e jsonArgs), w)
    | inl p =>
        if String.eqb (TrimSpace (GoJson.get p "path")) "" then
          (Err (ErrEmptyPath "read_file" jsonArgs), w)
        else readFile a w (GoJson.get p "path")
    end
  else if String.eqb name "list_files" then
    match json_parse jsonArgs with
    | inr msg => (Err (ErrInvalidJSONListFiles (GoJson.SyntaxError msg) jsonArgs), w)
    | inl v =>
        match GoJson.decode_map_len v with
        | inr e => (Err (ErrInvalidJSONListFiles e jsonArgs), w)
        | inl n =>
            if negb (n =? 0) then (Err (ErrListFilesArguments jsonArgs), w)
            else listFiles a w
        end
    end
  else if String.eqb name "run_shell" then
    match Unmarshal ["command"] jsonArgs with
    | inr e => (Err (ErrInvalidJSON "run_shell" e jsonArgs), w)
    | inl p =>
        if String.eqb (TrimSpace (GoJson.get p "command")) "" then
          (Err (ErrEmptyCommand jsonArgs), w)
        else runShell a w (GoJson.get p "command")
    end
  else (Err (ErrUnknownTool name), w).

(** [a.ctx = append(a.ctx, m)] *)
Definition append_ctx (a : AutonomousCodingAgent) (w : World) (m : ChatCompletionMessage) :
    AutonomousCodingAgent * World :=
  (set_ctx a (ctx a ++ [m]), emit w (Appended m)).

(** The sliding window: [if len(a.ctx) > a.maxCtxMessages
    { a.ctx = a.ctx[len(a.ctx)-a.maxCtxMessages:] }]; also tells
    whether it trimmed. *)
Definition trim_ctx (a : AutonomousCodingAgent) : AutonomousCodingAgent * bool :=
  if maxCtxMessages a <? length (ctx a) then
    let cutoff := length (ctx a) - maxCtxMessages a in
    (set_ctx a (skipn cutoff (ctx a)), true)
  else (a, false).

(** The body of [for _, toolCall := range msg.ToolCalls]. *)
Definition run_tool_call
    (st : AutonomousCodingAgent * World * list ChatCompletionMessage) (toolCall : ToolCall) :
    AutonomousCodingAgent * World * list ChatCompletionMessage :=
  let '(a, w, messagesForAPI) := st in
  if String.eqb (ToolType toolCall) ToolTypeFunction then
    let toolName := FunctionName toolCall in
    let '(r, w) := execTool a w toolName (FunctionArguments toolCall) in
    let toolResult :=
      match r with
      | Err toolErr =>
          "TOOL_EXECUTION_ERROR for " +:+ toolName +:+ ": " +:+ Error_text toolErr
      | Ok toolResult => toolResult
      end in
    let toolResponseMessage :=
      {| Role := ChatMessageRoleTool; ToolCallID := ID toolCall;
         Name := toolName; Content := toolResult;
         FunctionCall_ := None; ToolCalls := [] |} in
    let '(a, w) := append_ctx a w toolResponseMessage in
    (a, w, messagesForAPI ++ [toolResponseMessage])
  else
    let errorMsg :=
      {| Role := ChatMessageRoleTool; ToolCallID := ID toolCall;
         Name := FunctionName toolCall;
         Content := "Error: Tool type '" +:+ ToolType toolCall
                    +:+ "' is not supported by the agent.";
         FunctionCall_ := None; ToolCalls := [] |} in
    let '(a, w) := append_ctx a w errorMsg in
    (a, w, messagesForAPI ++ [errorMsg]).

(** One iteration of the tool loop of [chat]: it returns from [chat]
    or goes on to the next step. *)
Inductive Step : Type :=
| Return (r : result string) (a : AutonomousCodingAgent) (w : World)
| Continue (a : AutonomousCodingAgent) (w : World)
    (messagesForAPI : list ChatCompletionMessage).

Definition chat_step (step : nat) (a : AutonomousCodingAgent) (w : World)
    (messagesForAPI : list ChatCompletionMessage) : Step :=
  let w := emit w (Requested messagesForAPI) in
  let resp := CreateChatCompletion env (ticks w) messagesForAPI in
  let w := tick w in
  match resp with
  | inr err => Return (Err (ErrCreateChatCompletion (step + 1) err)) a w
  | inl resp =>
      match Choices resp with
      | [] => Return (Err ErrEmptyChoices) a w
      | msg :: _ =>
          (* Add the assistant's response to the agent's context and
             to messagesForAPI for the next iteration *)
          let '(a, w) := append_ctx a w msg in
          let messagesForAPI := messagesForAPI ++ [msg] in
          match ToolCalls msg with
          | [] =>
              (* No tool calls: this turn is over. *)
              if String.eqb (Content msg) "" then Return (Err ErrNoContentNoToolCalls) a w
              else Return (Ok (Content msg)) a w
          | calls =>
              let '(a, w, messagesForAPI) :=
                fold_left run_tool_call calls (a, w, messagesForAPI) in
              (* After processing all tool calls for this step, trim
                 context again for the next API call in this loop *)
              let '(a, trimmed) := trim_ctx a in
              Continue a w
                (if trimmed then systemPrompt :: ctx a else messagesForAPI)
          end
      end
  end.

(** [for step := 0; step < 10; step++ { ... }] with the statements
    after it; [hops] is [10 - step]. *)
Fixpoint chat_loop (hops step : nat) (a : AutonomousCodingAgent) (w : World)
    (messagesForAPI : list ChatCompletionMessage) :
    result string * AutonomousCodingAgent * World :=
  match hops with
  | 0 => (Err ErrTooManyToolInvocations, a, w)
  | S hops' =>
      match chat_step step a w messagesForAPI with
      | Return r a w => (r, a, w)
      | Continue a w messagesForAPI => chat_loop hops' (S step) a w messagesForAPI
      end
  end.

(** [chat] handles an entire cycle of user prompt, potential tool
    calls, assistant reply. *)
Definition chat (a : AutonomousCodingAgent) (w : World) (userPrompt : string) :
    result string * AutonomousCodingAgent * World :=
  (* Add current user prompt to the agent's context *)
  let '(a, w) := append_ctx a w
    {| Role := ChatMessageRoleUser; Content := userPrompt; Name := "";
       FunctionCall_ := None; ToolCallID := ""; ToolCalls := [] |} in
  (* Maintain sliding window for a.ctx before making any API call *)
  let '(a, _) := trim_ctx a in
  (* Prepare messages for the current API call, including the system prompt *)
  let messagesForAPI := systemPrompt :: ctx a in
  chat_loop 10 0 a w messagesForAPI.

(** *** Feedback-driven loop *)

(** How [feedbackLoop] ends: the first three are its three [return]
    statements, the last is falling out of the [for] loop (the log
    line "Reached maximum turns in feedback loop"). *)
Inductive Outcome : Type :=
| ChatFailed (e : error)
| TestsPassed
| NoTestsDirectory
| Exhausted.

Definition testCommand : string := "pytest -q --maxfail=1 --disable-warnings tests/".

(** The condition under which the tests count as passed. *)
Definition tests_passed (testOutput : string) : bool :=
  negb (Contains (ToLower testOutput) "fail") &&
  negb (Contains (ToLower testOutput) "error") &&
  (Contains (ToLower testOutput) "pass" || Contains (ToLower testOutput) "no tests ran").

Definition fix_instruction (testOutput : string) : string :=
  "The previous operations led to test failures. Please analyze the following test output and fix the code. Test output:"
  +:+ newline +:+ testOutput.

(** [for turn := 0; turn < 10; turn++ { ... }] with the statements
    after it; [turns] is [10 - turn]. *)
Fixpoint feedback_turns (turns turn : nat) (a : AutonomousCodingAgent) (w : World)
    (currentTaskInstruction : string) : Outcome * AutonomousCodingAgent * World :=
  match turns with
  | 0 => (Exhausted, a, w)
  | S turns' =>
      let w := emit w (Turn turn currentTaskInstruction) in
      match chat a w currentTaskInstruction with
      | (Err e, a, w) => (ChatFailed e, a, w)
      | (Ok assistantReply, a, w) =>
          (* Check for tests after the assistant believes it has made progress. *)
          let testsDir := GoFilepath.Join [projectDir a; "tests"] in
          if GoOs.IsDir (fs w) testsDir then
            let '(r, w) := runShell a w testCommand in
            let testOutput := match r with Ok out => out | Err _ => "" end in
            if tests_passed testOutput then (TestsPassed, a, w)
            else feedback_turns turns' (S turn) a w (fix_instruction testOutput)
          else (NoTestsDirectory, a, w)
      end
  end.

Definition feedbackLoop (a : AutonomousCodingAgent) (w : World) (initialTask : string) :
    Outcome * AutonomousCodingAgent * World :=
  feedback_turns 10 0 a w initialTask.

End WithEnv.
End WithLibrary.

(** *** The tools offered to the model *)

(** The map [toolParams] builds: the keys [type] and [properties]
    and, when it is set, [required]. *)
Record Schema := {
  schema_type : string;
  properties : gmap string (gmap string string);
  required : option (list string)
}.

(** [toolParams] builds a minimal JSON schema {string:string, ...}. *)
Definition toolParams (keys : list string) : Schema :=
  let props :=
    fold_left (λ (props : gmap string (gmap string string)) k,
                 <[k := {["type" := "string"]}]> props) keys ∅ in
  {| schema_type := "object";
     properties := props;
     (* "required" should only be set if there are keys. *)
     required := if 0 <? length keys then Some keys else None |}.

Record FunctionDefinition := {
  DefName : string;
  Description : string;
  Parameters : Schema
}.

Record Tool := { Tool_Type : string; Function_ : FunctionDefinition }.

(** [toolDefs] defines the tools available to the OpenAI model. *)
Definition toolDefs : list Tool :=
  [ {| Tool_Type := ToolTypeFunction;
       Function_ :=
         {| DefName := "create_file";
            Description := "Create a new file with given content. Path should be relative to project root. Ensures parent directories exist.";
            Parameters := toolParams ["path"; "content"] |} |};
    {| Tool_Type := ToolTypeFunction;
       Function_ :=
         {| DefName := "append_file";
            Description := "Append content to an existing file. Creates the file if it doesn't exist. Path should be relative to project root.";
            Parameters := toolParams ["path"; "content"] |} |};
    {| Tool_Type := ToolTypeFunction;
       Function_ :=
         {| DefName := "update_file";
            Description := "Search (regex or plain text) & replace text in an existing file. 'find' can be a regex. Path should be relative to project root.";
            Parameters := toolParams ["path"; "find"; "replace"] |} |};
    {| Tool_Type := ToolTypeFunction;
       Function_ :=
         {| DefName := "read_file";
            Description := "Read the contents of an existing file. Path should be relative to project root.";
            Parameters := toolParams ["path"] |} |};
    {| Tool_Type := ToolTypeFunction;
       Function_ :=
         {| DefName := "list_files";
            Description := "List all files in the project, relative to project root. Returns 'No files found...' if empty.";
            Parameters := toolParams [] (* No parameters for list_files *) |} |};
    {| Tool_Type := ToolTypeFunction;
       Function_ :=
         {| DefName := "run_shell";
            Description := "Execute a shell command (bash) in the project dir and return its combined stdout/stderr. Errors are included in the output.";
            Parameters := toolParams ["command"] |} |} ].

End Agent.

(** ** The agent of [zug.go]

    The model may call two functions, [create_file] and
    [append_file]; paths are joined to the project directory without
    a check, and the feedback loop has no turn budget. *)

Module Zug.
Import Bytes GoStrings GoOpenAI Outside.

Record AutonomousCodingAgent := {
  projectDir : string;
  context : list ChatCompletionMessage
}.

Definition set_context (a : AutonomousCodingAgent) (c : list ChatCompletionMessage) :
    AutonomousCodingAgent :=
  {| projectDir := projectDir a; context := c |}.

(** [NewAgent] constructs the agent, ensuring the project directory
    exists; [inr] is [os.Exit(1)]. *)
Definition NewAgent (fs0 : GoOs.FS) (dir : string) :
    (AutonomousCodingAgent * GoOs.FS) + GoOs.PathError :=
  match GoOs.MkdirAll fs0 dir with
  | inr err => inr err
  | inl fs1 => inl ({| projectDir := dir; context := [] |}, fs1)
  end.

(** The errors the functions return: those of the chat service, of
    [json.Unmarshal] and of package [os] as they are, and one of their
    own. *)
Inductive error : Type :=
| ErrChatCompletion (text : string)
| ErrUnmarshal (cause : GoJson.UnmarshalError)
| ErrPath (cause : GoOs.PathError)
| ErrUnknownFunction (name : string).

Section WithLibrary.
Context `{lib : GoLib}.

(** [createFile] writes a new file under [projectDir]. *)
Definition createFile (a : AutonomousCodingAgent) (w : World) (relPath content : string) :
    (string + error) * World :=
  let fullPath := GoFilepath.Join [projectDir a; relPath] in
  match GoOs.MkdirAll (fs w) (GoFilepath.Dir fullPath) with
  | inr err => (inr (ErrPath err), w)
  | inl fs1 =>
      match GoOs.WriteFile fs1 fullPath content with
      | inr err => (inr (ErrPath err), set_fs w fs1)
      | inl fs2 => (inl ("File created: " +:+ fullPath), wrote w fs2 fullPath content)
      end
  end.

(** [appendFile] appends content to an existing file. *)
Definition appendFile (a : AutonomousCodingAgent) (w : World) (relPath content : string) :
    (string + error) * World :=
  let fullPath := GoFilepath.Join [projectDir a; relPath] in
  match GoOs.AppendString (fs w) fullPath content with
  | inr err => (inr (ErrPath err), w)
  | inl fs1 => (inl ("Appended to: " +:+ fullPath), wrote w fs1 fullPath content)
  end.

Section WithEnv.
Variable env : Env.

Definition systemMessage : ChatCompletionMessage :=
  {| Role := ChatMessageRoleSystem; Content := "You are a helpful coding assistant.";
     Name := ""; FunctionCall_ := None; ToolCallID := ""; ToolCalls := [] |}.

(** [askModel] sends a chat-completion request, handles function
    calls, and returns the model's reply. *)
Definition askModel (a : AutonomousCodingAgent) (w : World) (prompt : string) :
    Run (string + error) * AutonomousCodingAgent * World :=
  (* prepend system prompt + history *)
  let messages :=
    [systemMessage] ++ context a ++
    [ {| Role := ChatMessageRoleUser; Content := prompt; Name := "";
         FunctionCall_ := None; ToolCallID := ""; ToolCalls := [] |} ] in
  let w := emit w (Requested messages) in
  let resp := CreateChatCompletion env (ticks w) messages in
  let w := tick w in
  match resp with
  | inr err => (Returned (inr (ErrChatCompletion err)), a, w)
  | inl resp =>
      match Choices resp with
      | [] => (Panicked index_out_of_range, a, w)
      | choice :: _ =>
          (* save to history *)
          let a := set_context a (context a ++ [choice]) in
          let w := emit w (Appended choice) in
          (* if a function call happened *)
          match FunctionCall_ choice with
          | Some call =>
              let name := CallName call in
              match Unmarshal ["path"; "content"] (CallArguments call) with
              | inr err => (Returned (inr (ErrUnmarshal err)), a, w)
              | inl args =>
                  if String.eqb name "create_file" then
                    let '(r, w) :=
                      createFile a w (GoJson.get args "path") (GoJson.get args "content") in
                    (Returned r, a, w)
                  else if String.eqb name "append_file" then
                    let '(r, w) :=
                      appendFile a w (GoJson.get args "path") (GoJson.get args "content") in
                    (Returned r, a, w)
                  else (Returned (inr (ErrUnknownFunction name)), a, w)
              end
          | None => (Returned (inl (Content choice)), a, w)
          end
      end
  end.

(** [runShell] executes a shell command in [projectDir] and returns
    its combined output, with the error of running it. *)
Definition runShell (a : AutonomousCodingAgent) (w : World) (cmd : string) :
    Run (string * option RunError) * World :=
  match Fields cmd with
  | [] => (Panicked index_out_of_range, w)
  | parts =>
      let w := emit w (Executed (projectDir a) parts) in
      let '(c, fs') := exec env (ticks w) (projectDir a) parts (fs w) in
      let w := tick (set_fs w fs') in
      (Returned (Output c, Failure c), w)
  end.

(** How [feedbackLoop] ends: its [return], its two [break]s, or a
    panic below it. *)
Inductive Outcome : Type :=
| AskFailed (e : error)
| TestsPassed
| NoTests
| Crashed (text : string).

(** One round of the loop: the function is left, or the loop goes on
    with a new instruction. *)
Inductive Round : Type :=
| Done (o : Outcome) (a : AutonomousCodingAgent) (w : World)
| Again (a : AutonomousCodingAgent) (w : World) (instruction : string).

Definition testCommand : string := "pytest --maxfail=1 --disable-warnings -q".

Definition tests_passed (testOut : string) : bool :=
  negb (Contains (ToLower testOut) "failed").

Definition feedback_round (a : AutonomousCodingAgent) (w : World) (instruction : string) :
    Round :=
  match askModel a w instruction with
  | (Panicked text, a, w) => Done (Crashed text) a w
  | (Returned (inr err), a, w) => Done (AskFailed err) a w
  | (Returned (inl output), a, w) =>
      let testsDir := GoFilepath.Join [projectDir a; "tests"] in
      if GoOs.IsDir (fs w) testsDir then
        match runShell a w testCommand with
        | (Panicked text, w) => Done (Crashed text) a w
        | (Returned (testOut, _), w) =>
            if tests_passed testOut then Done TestsPassed a w
            else
              Again a w
                ("Tests failed. Here is the output:" +:+ newline +:+ testOut
                 +:+ newline +:+ "Please fix the errors.")
        end
      else Done NoTests a w
  end.

(** [for { ... }]: the loop has no bound of its own.  The first [n]
    rounds of it: where the function was left, or the state in which
    round [n] would begin. *)
Fixpoint feedback_rounds (n : nat) (a : AutonomousCodingAgent) (w : World)
    (instruction : string) : Round :=
  match n with
  | 0 => Again a w instruction
  | S n' =>
      match feedback_round a w instruction with
      | Done o a w => Done o a w
      | Again a w instruction => feedback_rounds n' a w instruction
      end
  end.

(** [feedbackLoop] returns when some round leaves it. *)
Inductive feedbackLoop (a : AutonomousCodingAgent) (w : World) (instruction : string) :
    Outcome → AutonomousCodingAgent → World → Prop :=
| feedbackLoop_done o a' w' :
    feedback_round a w instruction = Done o a' w' →
    feedbackLoop a w instruction o a' w'
| feedbackLoop_again a1 w1 instruction1 o a' w' :
    feedback_round a w instruction = Again a1 w1 instruction1 →
    feedbackLoop a1 w1 instruction1 o a' w' →
    feedbackLoop a w instruction o a' w'.

End WithEnv.
End WithLibrary.
End Zug.

(** ** The port of the agent

    As [zug.go], with wrapped errors, a check for an empty list of
    choices, and a feedback loop that goes on after an error. *)

Module ZugPort.
Import Bytes GoStrings GoOpenAI Outside.

Record AutonomousCodingAgent := {
  ProjectDir : string;
  Context : list ChatCompletionMessage
}.

Definition set_Context (a : AutonomousCodingAgent) (c : list ChatCompletionMessage) :
    AutonomousCodingAgent :=
  {| ProjectDir := ProjectDir a; Context := c |}.

Inductive error : Type :=
| ErrCreatingProjectDirectory (cause : GoOs.PathError)
| ErrChatCompletion (cause : string)
| ErrNoChoices
| ErrUnmarshalling (cause : GoJson.UnmarshalError)
| ErrInvalidArguments (functionName : string)
| ErrUnknownFunctionCall (functionName : string)
| ErrCreatingDirectory (dir : string) (cause : GoOs.PathError)
| ErrWritingFile (fullPath : string) (cause : GoOs.PathError)
| ErrOpeningFile (fullPath : string) (cause : GoOs.PathError)
| ErrRunningCommand (cmdStr : string) (cause : RunError) (stderr : string).

(** [NewAutonomousCodingAgent] creates a new agent. *)
Definition NewAutonomousCodingAgent (fs0 : GoOs.FS) (projectDir : string) :
    (AutonomousCodingAgent * GoOs.FS) + error :=
  let projectDir := if String.eqb projectDir "" then "project" else projectDir in
  match GoOs.MkdirAll fs0 projectDir with
  | inr err => inr (ErrCreatingProjectDirectory err)
  | inl fs1 => inl ({| ProjectDir := projectDir; Context := [] |}, fs1)
  end.

Section WithLibrary.
Context `{lib : GoLib}.

(** [err.Error()] *)
Definition Error_text (e : error) : string :=
  match e with
  | ErrCreatingProjectDirectory c =>
      "error creating project directory: " +:+ GoOs.PathError_text c
  | ErrChatCompletion c => "chat completion error: " +:+ c
  | ErrNoChoices => "no choices returned from API"
  | ErrUnmarshalling c =>
      "error unmarshalling function arguments: " +:+ UnmarshalError_text c
  | ErrInvalidArguments functionName =>
      "invalid arguments for function " +:+ functionName
  | ErrUnknownFunctionCall functionName =>
      "unknown function call: " +:+ functionName
  | ErrCreatingDirectory dir c =>
      "error creating directory " +:+ dir +:+ ": " +:+ GoOs.PathError_text c
  | ErrWritingFile fullPath c =>
      "error writing file " +:+ fullPath +:+ ": " +:+ GoOs.PathError_text c
  | ErrOpeningFile fullPath c =>
      "error opening file " +:+ fullPath +:+ " for appending: "
      +:+ GoOs.PathError_text c
  | ErrRunningCommand cmdStr c stderr =>
      "error running command '" +:+ cmdStr +:+ "': " +:+ RunError_text c
      +:+ newline +:+ "Stderr: " +:+ stderr
  end.

(** [createFile] creates a new file with the given content. *)
Definition createFile (a : AutonomousCodingAgent) (w : World) (path content : string) :
    (string + error) * World :=
  let fullPath := GoFilepath.Join [ProjectDir a; path] in
  let dir := GoFilepath.Dir fullPath in
  match GoOs.MkdirAll (fs w) dir with
  | inr err => (inr (ErrCreatingDirectory dir err), w)
  | inl fs1 =>
      match GoOs.WriteFile fs1 fullPath content with
      | inr err => (inr (ErrWritingFile fullPath err), set_fs w fs1)
      | inl fs2 => (inl ("File created: " +:+ fullPath), wrote w fs2 fullPath content)
      end
  end.

(** [appendFile] appends content to an existing file. *)
Definition appendFile (a : AutonomousCodingAgent) (w : World) (path content : string) :
    (string + error) * World :=
  let fullPath := GoFilepath.Join [ProjectDir a; path] in
  match GoOs.AppendString (fs w) fullPath content with
  | inr err => (inr (ErrOpeningFile fullPath err), w)
  | inl fs1 => (inl ("Appended to: " +:+ fullPath), wrote w fs1 fullPath content)
  end.

Section WithEnv.
Variable env : Env.

Definition systemMessage : ChatCompletionMessage :=
  {| Role := ChatMessageRoleSystem; Content := "You are a helpful coding assistant.";
     Name := ""; FunctionCall_ := None; ToolCallID := ""; ToolCalls := [] |}.

(** [askModel] queries the OpenAI model. *)
Definition askModel (a : AutonomousCodingAgent) (w : World) (prompt : string) :
    (string + error) * AutonomousCodingAgent * World :=
  let messages :=
    [systemMessage] ++ Context a ++
    [ {| Role := ChatMessageRoleUser; Content := prompt; Name := "";
         FunctionCall_ := None; ToolCallID := ""; ToolCalls := [] |} ] in
  let w := emit w (Requested messages) in
  let resp := CreateChatCompletion env (ticks w) messages in
  let w := tick w in
  match resp with
  | inr err => (inr (ErrChatCompletion err), a, w)
  | inl resp =>
      match Choices resp with
      | [] => (inr ErrNoChoices, a, w)
      | message :: _ =>
          let saved :=
            {| Role := Role message; Content := Content message; Name := "";
               FunctionCall_ := FunctionCall_ message;
               ToolCallID := ""; ToolCalls := [] |} in
          let a := set_Context a (Context a ++ [saved]) in
          let w := emit w (Appended saved) in
          (* Handle function calls *)
          match FunctionCall_ message with
          | Some call =>
              let functionName := CallName call in
              match UnmarshalMap (CallArguments call) with
              | inr err => (inr (ErrUnmarshalling err), a, w)
              | inl args =>
                  let '(path, pathOk) := GoJson.as_string (args !! "path") in
                  let '(content, contentOk) := GoJson.as_string (args !! "content") in
                  if negb pathOk || negb contentOk then
                    (inr (ErrInvalidArguments functionName), a, w)
                  else if String.eqb functionName "create_file" then
                    let '(r, w) := createFile a w path content in (r, a, w)
                  else if String.eqb functionName "append_file" then
                    let '(r, w) := appendFile a w path content in (r, a, w)
                  else (inr (ErrUnknownFunctionCall functionName), a, w)
              end
          | None => (inl (Content message), a, w)
          end
      end
  end.

(** [runShell] executes a shell command in the project directory. *)
Definition runShell (a : AutonomousCodingAgent) (w : World) (cmdStr : string) :
    Run (string * option error) * World :=
  match Fields cmdStr with
  | [] => (Panicked index_out_of_range, w)
  | parts =>
      let w := emit w (Executed (ProjectDir a) parts) in
      let '(c, fs') := exec env (ticks w) (ProjectDir a) parts (fs w) in
      let w := tick (set_fs w fs') in
      match Failure c with
      | Some err =>
          (* Include stderr in the error message if the command failed *)
          (Returned (Stdout c +:+ Stderr c,
                     Some (ErrRunningCommand cmdStr err (Stderr c))), w)
      | None => (Returned (Stdout c +:+ Stderr c, None), w)
      end
  end.

(** How [feedbackLoop] ends: one of its two [break]s, or a panic
    below it. *)
Inductive Outcome : Type :=
| TestsPassed
| NoTests
| Crashed (text : string).

Inductive Round : Type :=
| Done (o : Outcome) (a : AutonomousCodingAgent) (w : World)
| Again (a : AutonomousCodingAgent) (w : World) (currentInstruction : string).

Definition testCommand : string := "pytest --maxfail=1 --disable-warnings -q".

Definition tests_passed (testOutput : string) : bool :=
  negb (Contains (ToLower testOutput) "failed") &&
  negb (Contains (ToLower testOutput) "error").

(** The body of the loop; [instruction] is the task, which the loop
    does not change. *)
Definition feedback_round (instruction : string) (a : AutonomousCodingAgent) (w : World)
    (currentInstruction : string) : Round :=
  match askModel a w currentInstruction with
  | (inr err, a, w) =>
      let currentInstruction :=
        "The previous attempt to get a response failed with: " +:+ Error_text err
        +:+ ". Please try again, or suggest a different approach to achieve: "
        +:+ instruction in
      if 5 <? length (Context a) then
        (* Avoid overly long context on repeated errors *)
        Again (set_Context a []) w instruction
      else Again a w currentInstruction
  | (inl output, a, w) =>
      let testsDir := GoFilepath.Join [ProjectDir a; "tests"] in
      let err :=
        match GoOs.Stat (fs w) testsDir with inl _ => None | inr e => Some e end in
      if negb (GoOs.IsNotExist err) then
        match runShell a w testCommand with
        | (Panicked text, w) => Done (Crashed text) a w
        | (Returned (testOutput, Some _), w) =>
            Again a w
              ("Tests command failed to execute. Here is the command output:"
               +:+ newline +:+ testOutput +:+ newline
               +:+ "Please check the test setup or fix the code based on this. Original task: "
               +:+ instruction)
        | (Returned (testOutput, None), w) =>
            if tests_passed testOutput then Done TestsPassed a w
            else
              Again a w
                ("Tests failed. Here is the output:" +:+ newline +:+ testOutput
                 +:+ newline +:+ "Please fix the errors. Original task: " +:+ instruction)
        end
      else Done NoTests a w
  end.

(** The first [n] rounds of [for { ... }]. *)
Fixpoint feedback_rounds (n : nat) (instruction : string) (a : AutonomousCodingAgent)
    (w : World) (currentInstruction : string) : Round :=
  match n with
  | 0 => Again a w currentInstruction
  | S n' =>
      match feedback_round instruction a w currentInstruction with
      | Done o a w => Done o a w
      | Again a w currentInstruction =>
          feedback_rounds n' instruction a w currentInstruction
      end
  end.

(** [feedbackLoop] returns when some round leaves the loop. *)
Inductive feedbackLoop (instruction : string) (a : AutonomousCodingAgent) (w : World)
    (currentInstruction : string) : Outcome → AutonomousCodingAgent → World → Prop :=
| feedbackLoop_done o a' w' :
    feedback_round instruction a w currentInstruction = Done o a' w' →
    feedbackLoop instruction a w currentInstruction o a' w'
| feedbackLoop_again a1 w1 currentInstruction1 o a' w' :
    feedback_round instruction a w currentInstruction = Again a1 w1 currentInstruction1 →
    feedbackLoop instruction a1 w1 currentInstruction1 o a' w' →
    feedbackLoop instruction a w currentInstruction o a' w'.

End WithEnv.
End WithLibrary.
End ZugPort.

(** ** A small library instance

    An instance of the library parameters that can be run: it agrees
    with Go on ASCII text, on regular expressions without
    metacharacters (which match literally) and on JSON objects whose
    members are strings without escapes, and it declines everything
    else.  The general theorems do not depend on it; it serves to run
    the agent on concrete inputs. *)

Module Small.
Import Bytes GoStrings.

Definition is_ascii_letter (r : N) : bool :=
  ((65 <=? r) && (r <=? 90) || (97 <=? r) && (r <=? 122))%N.

Definition is_ascii_digit (r : N) : bool := ((48 <=? r) && (r <=? 57))%N.

Fixpoint lower (s : string) : string :=
  match s with
  | EmptyString => EmptyString
  | String c s' => String (GoJson.lower_byte c) (lower s')
  end.

Definition is_space (c : ascii) : bool :=
  let n := nat_of_ascii c in ((9 <=? n) && (n <=? 13)) || (n =? 32).

Fixpoint trim_left (s : string) : string :=
  match s with
  | String c s' => if is_space c then trim_left s' else s
  | EmptyString => EmptyString
  end.

Fixpoint trim_right (s : string) : string :=
  match s with
  | EmptyString => EmptyString
  | String c s' =>
      let t := trim_right s' in
      if is_empty t && is_space c then EmptyString else String c t
  end.

(** The fields of a text between runs of white space; [cur] is the
    field being read. *)
Fixpoint fields_from (cur : string) (s : string) : list string :=
  match s with
  | EmptyString => if is_empty cur then [] else [cur]
  | String c s' =>
      if is_space c then
        if is_empty cur then fields_from "" s' else cur :: fields_from "" s'
      else fields_from (cur +:+ String c "") s'
  end.

Definition double_quote : ascii := ascii_of_nat 34.

Definition quote (s : string) : string :=
  String double_quote (s +:+ String double_quote EmptyString).

Fixpoint skip_spaces (s : string) : string :=
  match s with
  | String c s' => if is_space c then skip_spaces s' else s
  | EmptyString => EmptyString
  end.

(** The rest of a string literal after its opening quote. *)
Fixpoint read_string (s : string) : option (string * string) :=
  match s with
  | EmptyString => None
  | String c s' =>
      if Ascii.eqb c double_quote then Some (EmptyString, s')
      else if Ascii.eqb c "\"%char then None
      else match read_string s' with
           | Some (v, r) => Some (String c v, r)
           | None => None
           end
  end.

Definition expect (c : ascii) (s : string) : option string :=
  match skip_spaces s with
  | String d s' => if Ascii.eqb c d then Some s' else None
  | EmptyString => None
  end.

(** The members of an object after the opening brace and the first
    member's opening quote. *)
Fixpoint read_members (fuel : nat) (s : string) : option (list (string * GoJson.Value)) :=
  match fuel with
  | 0 => None
  | S fuel' =>
      '(k, s) ← read_string s;
      s ← expect ":"%char s;
      s ← expect double_quote s;
      '(v, s) ← read_string s;
      match skip_spaces s with
      | String c s' =>
          if Ascii.eqb c "}"%char then
            if is_empty (skip_spaces s') then Some [(k, GoJson.Str v)] else None
          else if Ascii.eqb c ","%char then
            s ← expect double_quote s';
            rest ← read_members fuel' s;
            Some ((k, GoJson.Str v) :: rest)
          else None
      | EmptyString => None
      end
  end.

Definition parse (s : string) : GoJson.Value + string :=
  match expect "{"%char s with
  | None => inr "unsupported JSON text"
  | Some s1 =>
      match skip_spaces s1 with
      | String c s2 =>
          if Ascii.eqb c "}"%char then
            if is_empty (skip_spaces s2) then inl (GoJson.Object [])
            else inr "unsupported JSON text"
          else if Ascii.eqb c double_quote then
            match read_members (String.length s2) s2 with
            | Some ms => inl (GoJson.Object ms)
            | None => inr "unsupported JSON text"
            end
          else inr "unsupported JSON text"
      | EmptyString => inr "unexpected end of JSON input"
      end
  end.

#[export] Instance lib : GoLib := {|
  IsLetter := is_ascii_letter;
  IsDigit := is_ascii_digit;
  ToLower := lower;
  TrimSpace := λ s, trim_right (trim_left s);
  Fields := fields_from "";
  Quote := quote;
  json_parse := parse;
  type_error_text := λ v f,
    "json: cannot unmarshal " +:+ v +:+ " into Go struct field ." +:+ f +:+ " of type string"
|}.

(** Regular expressions without metacharacters. *)
Definition is_literal_byte (c : ascii) : bool :=
  (nat_of_ascii c <? 128) && negb (byte_in c "\.+*?()|[]{}^$").

Fixpoint is_literal (p : string) : bool :=
  match p with
  | EmptyString => true
  | String c p' => is_literal_byte c && is_literal p'
  end.

Definition literal_match (re s : string) (pos : nat) : option GoRegexp.Match :=
  if String.length s <? pos then None
  else match Index (drop pos s) re with
       | Some i =>
           Some {| GoRegexp.m_lo := pos + i;
                   GoRegexp.m_hi := pos + i + String.length re;
                   GoRegexp.m_sub := [] |}
       | None => None
       end.

End Small.

(** * The vocabulary of the specification *)

Import Bytes.

(** [root] is a strict ancestor of [full]: [full] continues [root]
    with a separator. *)
Definition strict_ancestor (root full : string) : bool :=
  GoStrings.HasPrefix full (root +:+ "/").

(** The last byte of [s] is a separator. *)
Fixpoint trailing_separator (s : string) : bool :=
  match s with
  | EmptyString => false
  | String c EmptyString => GoFilepath.IsPathSeparator c
  | String _ s' => trailing_separator s'
  end.

(** [Clean] writes a separator before the next element it copies. *)
Definition needs_separator (rooted : bool) (out : string) : bool :=
  (rooted && negb (String.length out =? 1)) ||
  (negb rooted && negb (String.length out =? 0)).

(** After [c] bytes read, [out] leaves room for that separator. *)
Definition has_room (rooted : bool) (out : string) (c : nat) : Prop :=
  needs_separator rooted out = false ∨ String.length out + 1 ≤ c.

(** [marker] occurs in [text]. *)
Definition occurs (marker text : string) : Prop :=
  ∃ pre post, text = pre +:+ marker +:+ post.

Definition appended (t : list Outside.Event) : list GoOpenAI.ChatCompletionMessage :=
  omap (λ e, match e with Outside.Appended m => Some m | _ => None end) t.

Definition requested (t : list Outside.Event) : list (list GoOpenAI.ChatCompletionMessage) :=
  omap (λ e, match e with Outside.Requested ms => Some ms | _ => None end) t.

Definition turns_begun (t : list Outside.Event) : list nat :=
  omap (λ e, match e with Outside.Turn n _ => Some n | _ => None end) t.

(** The events of the trace that concern the conversation and the
    loops: everything but the commands run. *)
Definition is_Executed (e : Outside.Event) : bool :=
  match e with Outside.Executed _ _ => true | _ => false end.

Definition silent (d : list Outside.Event) : Prop := forallb is_Executed d = true.

(** [w'] continues the trace of [w] with [d]. *)
Definition extends (w w' : Outside.World) (d : list Outside.Event) : Prop :=
  Outside.trace w' = Outside.trace w ++ d.

(** The last [n] elements of a list. *)
Definition lastn {A} (n : nat) (l : list A) : list A := skipn (length l - n) l.

(** The stored context [c] against the history [h] of everything ever
    appended: [c] is [h] without some oldest messages, and once
    anything was dropped [c] holds at least [max] messages. *)
Definition window (max : nat) (c h : list GoOpenAI.ChatCompletionMessage) : Prop :=
  ∃ k, k ≤ length h ∧ c = skipn k h ∧ (k = 0 ∨ max ≤ length c).

(** Every request of the trace [t] carries the system prompt followed
    by the last [max] messages appended before it; [h] is the history
    before [t]. *)
Fixpoint windowed (max : nat) (h : list GoOpenAI.ChatCompletionMessage)
    (t : list Outside.Event) : Prop :=
  match t with
  | [] => True
  | Outside.Requested msgs :: t' =>
      msgs = Agent.systemPrompt :: lastn max h ∧ windowed max h t'
  | Outside.Appended m :: t' => windowed max (h ++ [m]) t'
  | _ :: t' => windowed max h t'
  end.

(** The elements of a path between its separators. *)
Fixpoint segments (p : string) : list string :=
  match p with
  | EmptyString => [""]
  | String c p' =>
      if GoFilepath.IsPathSeparator c then "" :: segments p'
      else match segments p' with
           | s :: ss => String c s :: ss
           | [] => [String c ""]
           end
  end.

(** The path holds a parent-directory element. *)
Definition has_parent_segment (p : string) : bool :=
  existsb (String.eqb "..") (segments p).

(** The cleaned path leaves its starting directory: it is the parent
    directory or begins with a parent-directory element. *)
Definition escapes (clean : string) : Prop :=
  clean = ".." ∨ GoStrings.HasPrefix clean "../" = true.

(** The match of the empty pattern at [pos]. *)
Definition empty_match (pos : nat) : GoRegexp.Match :=
  {| GoRegexp.m_lo := pos; GoRegexp.m_hi := pos; GoRegexp.m_sub := [] |}.

(** [s] with [E] after each of its runes. *)
Fixpoint after_each_rune (fuel : nat) (E s : string) : string :=
  match fuel with
  | 0 => ""
  | S fuel' =>
      match s with
      | EmptyString => ""
      | _ => take (GoUtf8.rune_width s) s +:+ E
             +:+ after_each_rune fuel' E (drop (GoUtf8.rune_width s) s)
      end
  end.

(** [s] with [E] inserted at the start, between every two runes and
    at the end. *)
Definition inserted (E s : string) : string :=
  E +:+ after_each_rune (String.length s) E s.

(** The chat service always answers with text and no function call. *)
Definition always_text (env : Outside.Env) : Prop :=
  ∀ n msgs, ∃ msg rest,
    Outside.CreateChatCompletion env n msgs = inl {| GoOpenAI.Choices := msg :: rest |} ∧
    GoOpenAI.FunctionCall_ msg = None.

(** The chat service always fails. *)
Definition service_down (env : Outside.Env) : Prop :=
  ∀ n msgs, ∃ err, Outside.CreateChatCompletion env n msgs = inr err.

(** Every command run in [dir] leaves the directory [tests] where it
    is and prints a text that [judge] does not take for a passing
    run. *)
Definition commands_fail (env : Outside.Env) (dir : string) (judge : string → bool) : Prop :=
  ∀ n argv fs,
    judge (Outside.Output (fst (Outside.exec env n dir argv fs))) = false ∧
    (GoOs.IsDir fs (GoFilepath.Join [dir; "tests"]) = true →
     GoOs.IsDir (snd (Outside.exec env n dir argv fs)) (GoFilepath.Join [dir; "tests"]) = true).

Section Vocabulary.
Context `{lib : GoLib} `{engine : GoRegexp.Engine} (env : Outside.Env).

(** Where a stored message comes from: the agent built it as a user
    or a tool message, or the chat service sent it as its reply. *)
Definition origin (m : GoOpenAI.ChatCompletionMessage) : Prop :=
  GoOpenAI.Role m = GoOpenAI.ChatMessageRoleUser ∨
  GoOpenAI.Role m = GoOpenAI.ChatMessageRoleTool ∨
  ∃ n msgs resp, Outside.CreateChatCompletion env n msgs = inl resp ∧
                 head (GoOpenAI.Choices resp) = Some m.

(** What a piece [d] of the trace, run from the history [h], leaves:
    the context [c'] is a window of the longer history, and every
    request in [d] carried the window of its moment. *)
Definition run_facts (max : nat) (h c' : list GoOpenAI.ChatCompletionMessage)
    (d : list Outside.Event) : Prop :=
  window max c' (h ++ appended d) ∧ windowed max h d ∧ Forall origin (appended d).

(** The state at the head of the tool loop. *)
Definition at_loop_head (a : Agent.AutonomousCodingAgent)
    (h msgs : list GoOpenAI.ChatCompletionMessage) : Prop :=
  window (Agent.maxCtxMessages a) (Agent.ctx a) h ∧
  msgs = Agent.systemPrompt :: Agent.ctx a ∧
  length (Agent.ctx a) ≤ Agent.maxCtxMessages a.

(** What one step of the tool loop does to the trace. *)
Definition step_facts (a a' : Agent.AutonomousCodingAgent) (w w' : Outside.World)
    (h : list GoOpenAI.ChatCompletionMessage) (d : list Outside.Event) : Prop :=
  a' = Agent.set_ctx a (Agent.ctx a') ∧ extends w w' d ∧
  run_facts (Agent.maxCtxMessages a) h (Agent.ctx a') d ∧
  turns_begun d = [].

(** Every reply of the chat service requests a tool call. *)
Definition always_tool_calls : Prop :=
  ∀ n msgs, ∃ msg rest,
    Outside.CreateChatCompletion env n msgs = inl {| GoOpenAI.Choices := msg :: rest |} ∧
    GoOpenAI.ToolCalls msg ≠ [].



(** The empty pattern compiles to [re], which matches the empty
    string at every position. *)
Definition empty_pattern (re : GoRegexp.Regexp) : Prop :=
  GoRegexp.Compile "" = Some re ∧
  ∀ src pos, pos ≤ String.length src →
    GoRegexp.doExecute re src pos = Some (empty_match pos).

(** The text a template expands to at an empty match: every reference
    to a group expands to nothing. *)
Definition expansion (re : GoRegexp.Regexp) (template : string) : string :=
  GoRegexp.expand re "" template "" (empty_match 0).

(** The engine reports matches that lie at or after the position
    where the search began, inside the text. *)
Definition matches_in_range : Prop :=
  ∀ re s pos m,
    GoRegexp.doExecute re s pos = Some m →
    pos ≤ GoRegexp.m_lo m ∧ GoRegexp.m_lo m ≤ GoRegexp.m_hi m ∧
    GoRegexp.m_hi m ≤ String.length s.

End Vocabulary.

(** The names of the tools offered to the model. *)
Definition offered_tools : list string :=
  map (λ t, Agent.DefName (Agent.Function_ t)) Agent.toolDefs.

(** The commands run in a trace, each with its directory. *)
Definition executed (t : list Outside.Event) : list (string * list string) :=
  omap (λ e, match e with Outside.Executed dir argv => Some (dir, argv) | _ => None end) t.

(** The command is a [bash -c] run in [dir]. *)
Definition bash_in (dir : string) (run : string * list string) : Prop :=
  run.1 = dir ∧ ∃ cmd, run.2 = ["bash"; "-c"; cmd].

(** The tool message [m] answers the tool call [call]. *)
Definition answers (call : GoOpenAI.ToolCall) (m : GoOpenAI.ChatCompletionMessage) : Prop :=
  GoOpenAI.Role m = GoOpenAI.ChatMessageRoleTool ∧
  GoOpenAI.ToolCallID m = GoOpenAI.ID call ∧
  GoOpenAI.Name m = GoOpenAI.FunctionName call ∧
  GoOpenAI.ToolCalls m = [].

(** The reply [chat] returns: not empty, and the last message stored. *)
Definition final_reply (r : Agent.result string) (a' : Agent.AutonomousCodingAgent) : Prop :=
  ∀ reply, r = Agent.Ok reply →
    reply ≠ "" ∧
    ∃ msg, last (Agent.ctx a') = Some msg ∧ GoOpenAI.Content msg = reply ∧
           GoOpenAI.ToolCalls msg = [].

(** What every part of a run keeps: the project directory, the window
    size, and commands run by [bash -c] in the project directory. *)
Definition keeps_config (a a' : Agent.AutonomousCodingAgent) (w w' : Outside.World) : Prop :=
  Agent.projectDir a' = Agent.projectDir a ∧
  Agent.maxCtxMessages a' = Agent.maxCtxMessages a ∧
  ∃ d, extends w w' d ∧ Forall (bash_in (Agent.projectDir a)) (executed d).

(** The message [chat] stores for a prompt. *)
Definition user_message (userPrompt : string) : GoOpenAI.ChatCompletionMessage :=
  {| GoOpenAI.Role := GoOpenAI.ChatMessageRoleUser; GoOpenAI.Content := userPrompt;
     GoOpenAI.Name := ""; GoOpenAI.FunctionCall_ := None;
     GoOpenAI.ToolCallID := ""; GoOpenAI.ToolCalls := [] |}.

(** The first request of a chat: the system prompt and the window of
    the history with the prompt. *)
Definition first_request (a : Agent.AutonomousCodingAgent) (userPrompt : string) :
    list GoOpenAI.ChatCompletionMessage :=
  Agent.systemPrompt
  :: lastn (Agent.maxCtxMessages a) (Agent.ctx a ++ [user_message userPrompt]).

(** The chat service answers every request without a choice. *)
Definition no_choices (env : Outside.Env) : Prop :=
  ∀ n msgs, Outside.CreateChatCompletion env n msgs = inl {| GoOpenAI.Choices := [] |}.

(** The copy of a reply that the port stores: role, content and
    function call. *)
Definition stored_copy (message : GoOpenAI.ChatCompletionMessage) :
    GoOpenAI.ChatCompletionMessage :=
  {| GoOpenAI.Role := GoOpenAI.Role message; GoOpenAI.Content := GoOpenAI.Content message;
     GoOpenAI.Name := ""; GoOpenAI.FunctionCall_ := GoOpenAI.FunctionCall_ message;
     GoOpenAI.ToolCallID := ""; GoOpenAI.ToolCalls := [] |}.

(** The world in which a round of the port's loop ends. *)
Definition round_world (r : ZugPort.Round) : Outside.World :=
  match r with ZugPort.Done _ _ w => w | ZugPort.Again _ w _ => w end.

(** ** Cleaned paths as lists of elements *)

(** No byte of [e] is a separator. *)
Fixpoint no_separator (e : string) : bool :=
  match e with
  | EmptyString => true
  | String c e' => negb (GoFilepath.IsPathSeparator c) && no_separator e'
  end.

(** A path element: not empty, without separator. *)
Definition element (e : string) : Prop := e ≠ "" ∧ no_separator e = true.

(** An element that names an entry: neither [.] nor [..]. *)
Definition named (e : string) : Prop := element e ∧ e ≠ "." ∧ e ≠ "..".

(** The elements, each after a separator. *)
Fixpoint slashed (elems : list string) : string :=
  match elems with
  | [] => ""
  | e :: es => "/" +:+ e +:+ slashed es
  end.

(** The path of the elements, rooted or not. *)
Definition render (rooted : bool) (elems : list string) : string :=
  if rooted then match elems with [] => "/" | _ => slashed elems end
  else drop 1 (slashed elems).

(** The elements of a cleaned path: parent elements first (none when
    the path is rooted), then elements that name entries. *)
Definition cleaned (k : nat) (names : list string) : list string :=
  replicate k ".." ++ names.

(** The bound of the backtracking of [Clean] when the output begins
    with [k] parent elements. *)
Definition backstop (rooted : bool) (k : nat) : nat :=
  if rooted then 1 else String.length (render false (replicate k "..")).

(** * Worlds for the examples *)

#[export] Instance literal_engine : GoRegexp.Engine := {|
  GoRegexp.Regexp := string;
  GoRegexp.Compile := λ p, if Small.is_literal p then Some p else None;
  GoRegexp.subexpNames := λ _, [""];
  GoRegexp.doExecute := Small.literal_match
|}.

(** The state of the examples: the agent made by [NewAgent] for the
    project directory [/proj] on an empty disk. *)
Definition proj_agent : Agent.AutonomousCodingAgent :=
  {| Agent.projectDir := "/proj"; Agent.ctx := []; Agent.maxCtxMessages := 40 |}.

Definition proj_fs : GoOs.FS := <["/proj" := GoOs.Dir]> ∅.

Definition proj_world : Outside.World :=
  {| Outside.fs := proj_fs; Outside.ticks := 0; Outside.trace := []; Outside.writes := [] |}.

(** A world in which no process can be started and the chat service
    answers every request with the plain text [done]. *)
Definition plain_reply : GoOpenAI.ChatCompletionResponse + string :=
  inl {| GoOpenAI.Choices :=
           [ {| GoOpenAI.Role := "assistant"; GoOpenAI.Content := "done";
                GoOpenAI.Name := ""; GoOpenAI.FunctionCall_ := None;
                GoOpenAI.ToolCallID := ""; GoOpenAI.ToolCalls := [] |} ] |}.

Definition no_bash_env : Outside.Env :=
  {| Outside.CreateChatCompletion := λ _ _, plain_reply;
     Outside.exec := λ _ _ _ fs,
       ({| Outside.Stdout := ""; Outside.Stderr := ""; Outside.Output := "";
           Outside.Failure := Some (Outside.StartError
             ("exec: " +:+ Small.quote "bash" +:+ ": executable file not found in $PATH")) |},
        fs) |}.

(** A chat service that asks for the file list in every reply. *)
Definition list_files_call : GoOpenAI.ToolCall :=
  {| GoOpenAI.ID := "call_1"; GoOpenAI.ToolType := GoOpenAI.ToolTypeFunction;
     GoOpenAI.FunctionName := "list_files"; GoOpenAI.FunctionArguments := "{}" |}.

Definition tool_reply (calls : list GoOpenAI.ToolCall) : GoOpenAI.ChatCompletionResponse + string :=
  inl {| GoOpenAI.Choices :=
           [ {| GoOpenAI.Role := "assistant"; GoOpenAI.Content := "";
                GoOpenAI.Name := ""; GoOpenAI.FunctionCall_ := None;
                GoOpenAI.ToolCallID := ""; GoOpenAI.ToolCalls := calls |} ] |}.

Definition quiet_bash (text : string) (failure : option Outside.RunError) :
    nat → string → list string → GoOs.FS → Outside.Completed * GoOs.FS :=
  λ _ _ _ fs, ({| Outside.Stdout := text; Outside.Stderr := ""; Outside.Output := text;
                  Outside.Failure := failure |}, fs).

Definition tool_loop_env : Outside.Env :=
  {| Outside.CreateChatCompletion := λ _ _, tool_reply [list_files_call];
     Outside.exec := quiet_bash "" None |}.

(** A world with a tests directory in which the chat service answers
    [done] and every test run reports a failed test. *)
Definition failing_env : Outside.Env :=
  {| Outside.CreateChatCompletion := λ _ _, plain_reply;
     Outside.exec := quiet_bash "1 failed in 0.01s" (Some (Outside.ExitError "exit status 1")) |}.

Definition tests_world : Outside.World :=
  Outside.set_fs proj_world (<["/proj/tests" := GoOs.Dir]> proj_fs).

(** A chat service whose first reply requests 39 tool calls and whose
    later replies are plain text. *)
Definition burst_env : Outside.Env :=
  {| Outside.CreateChatCompletion :=
       λ n _, if n =? 0 then tool_reply (replicate 39 list_files_call) else plain_reply;
     Outside.exec := quiet_bash "" None |}.

(** The arguments of an [update_file] call without a [find] member. *)
Definition update_arguments (path replace : string) : string :=
  "{" +:+ Small.quote "path" +:+ ":" +:+ Small.quote path +:+ ","
  +:+ Small.quote "replace" +:+ ":" +:+ Small.quote replace +:+ "}".

Definition ab_world : Outside.World :=
  Outside.set_fs proj_world (<["/proj/a.txt" := GoOs.File "ab"]> proj_fs).

(** The arguments of a call that names no path. *)
Definition content_arguments (content : string) : string :=
  "{" +:+ Small.quote "content" +:+ ":" +:+ Small.quote content +:+ "}".

(** A world in which the chat service cannot be reached. *)
Definition down_env : Outside.Env :=
  {| Outside.CreateChatCompletion := λ _ _, inr "connection refused";
     Outside.exec := quiet_bash "" None |}.

(** A world in which the chat service answers [done] and every test
    run passes. *)
Definition passing_env : Outside.Env :=
  {| Outside.CreateChatCompletion := λ _ _, plain_reply;
     Outside.exec := quiet_bash "2 passed in 0.02s" None |}.

(** A chat service that answers without a choice. *)
Definition mute_env : Outside.Env :=
  {| Outside.CreateChatCompletion := λ _ _, inl {| GoOpenAI.Choices := [] |};
     Outside.exec := quiet_bash "" None |}.

(** The arguments of a call that names a path only, and a chat service
    that asks for [create_file] with them. *)
Definition path_arguments (path : string) : string :=
  "{" +:+ Small.quote "path" +:+ ":" +:+ Small.quote path +:+ "}".

Definition create_call : GoOpenAI.ChatCompletionMessage :=
  {| GoOpenAI.Role := "assistant"; GoOpenAI.Content := "";
     GoOpenAI.Name := "stale";
     GoOpenAI.FunctionCall_ :=
       Some {| GoOpenAI.CallName := "create_file";
               GoOpenAI.CallArguments := path_arguments "a.txt" |};
     GoOpenAI.ToolCallID := ""; GoOpenAI.ToolCalls := [] |}.

Definition create_call_env : Outside.Env :=
  {| Outside.CreateChatCompletion := λ _ _, inl {| GoOpenAI.Choices := [create_call] |};
     Outside.exec := quiet_bash "" None |}.

(** A project in which [tests] is a regular file. *)
Definition tests_file_world : Outside.World :=
  Outside.set_fs proj_world (<["/proj/tests" := GoOs.File "notes"]> proj_fs).

(** * Properties *)

(** The table of [TestClean] in Go's [path/filepath]. *)
Example Clean_table :
  map GoFilepath.Clean
    [ "abc"; "abc/def"; "a/b/c"; "."; ".."; "../.."; "../../abc"; "/abc"; "/";
      ""; "abc/"; "abc/def/"; "a/b/c/"; "./"; "../"; "../../"; "/abc/";
      "abc//def//ghi"; "abc//"; "abc/./def"; "/./abc/def"; "abc/.";
      "abc/def/ghi/../jkl"; "abc/def/../ghi/../jkl"; "abc/def/.."; "abc/def/../..";
      "/abc/def/../.."; "abc/def/../../.."; "/abc/def/../../..";
      "abc/def/../../../ghi/jkl/../../../mno"; "/../abc";
      "abc/./../def"; "abc//./../def"; "abc/../../././../def" ]
  = [ "abc"; "abc/def"; "a/b/c"; "."; ".."; "../.."; "../../abc"; "/abc"; "/";
      "."; "abc"; "abc/def"; "a/b/c"; "."; ".."; "../.."; "/abc";
      "abc/def/ghi"; "abc"; "abc/def"; "/abc/def"; "abc";
      "abc/def/jkl"; "abc/jkl"; "abc"; ".";
      "/"; ".."; "/";
      "../../mno"; "/abc";
      "def"; "def"; "../../def" ].
Proof. vm_compute. reflexivity. Qed.

(** ** Facts about byte strings *)

Section BytesFacts.

Lemma bytes_app_nil_l (t : string) : "" +:+ t = t.
Proof. reflexivity. Qed.

Lemma bytes_app_cons (c : ascii) (s t : string) : String c s +:+ t = String c (s +:+ t).
Proof. reflexivity. Qed.

Lemma bytes_app_nil_r (s : string) : s +:+ "" = s.
Proof. induction s as [|c s IH]; [done|]. by rewrite bytes_app_cons, IH. Qed.

Lemma bytes_app_assoc (s t u : string) : (s +:+ t) +:+ u = s +:+ (t +:+ u).
Proof. induction s as [|c s IH]; [done|]. by rewrite !bytes_app_cons, IH. Qed.

Lemma bytes_length_app (s t : string) :
  String.length (s +:+ t) = String.length s + String.length t.
Proof. induction s as [|c s IH]; [done|]. rewrite bytes_app_cons. simpl. by rewrite IH. Qed.

Lemma bytes_app_inv_head (s t u : string) : s +:+ t = s +:+ u → t = u.
Proof.
  induction s as [|c s IH]; [done|]. rewrite !bytes_app_cons. intros [=]. auto.
Qed.

Lemma bytes_take_0 (s : string) : take 0 s = "".
Proof. by destruct s. Qed.

Lemma bytes_drop_0 (s : string) : drop 0 s = s.
Proof. by destruct s. Qed.

Lemma bytes_take_drop (n : nat) (s : string) : take n s +:+ drop n s = s.
Proof.
  revert s. induction n as [|n IH]; intros [|c s]; try done.
  simpl. by rewrite bytes_app_cons, IH.
Qed.

Lemma bytes_length_take (n : nat) (s : string) :
  String.length (take n s) = n `min` String.length s.
Proof. revert s. induction n as [|n IH]; intros [|c s]; simpl; auto. Qed.

Lemma bytes_length_drop (n : nat) (s : string) :
  String.length (drop n s) = String.length s - n.
Proof. revert s. induction n as [|n IH]; intros [|c s]; simpl; auto. Qed.

Lemma bytes_take_ge (n : nat) (s : string) : String.length s ≤ n → take n s = s.
Proof.
  revert s. induction n as [|n IH]; intros [|c s]; simpl; try done; [lia|].
  intros ?. f_equal. apply IH. lia.
Qed.

Lemma bytes_drop_ge (n : nat) (s : string) : String.length s ≤ n → drop n s = "".
Proof.
  revert s. induction n as [|n IH]; intros [|c s]; simpl; try done; [lia|].
  intros ?. apply IH. lia.
Qed.

Lemma bytes_drop_drop (n m : nat) (s : string) : drop n (drop m s) = drop (m + n) s.
Proof.
  revert s. induction m as [|m IH]; intros s; [by rewrite bytes_drop_0|].
  destruct s as [|c s]; simpl; [by destruct n|]. apply IH.
Qed.

Lemma bytes_take_app_length (s t : string) : take (String.length s) (s +:+ t) = s.
Proof. induction s as [|c s IH]; simpl; [done|]. by rewrite IH. Qed.

Lemma bytes_drop_app_length (s t : string) : drop (String.length s) (s +:+ t) = t.
Proof. induction s as [|c s IH]; simpl; [apply bytes_drop_0|done]. Qed.

Lemma slice_same (p : nat) (s : string) : slice p p s = "".
Proof. unfold slice. rewrite Nat.sub_diag. apply bytes_take_0. Qed.

Lemma is_empty_true (s : string) : is_empty s = true ↔ s = "".
Proof. by destruct s. Qed.

Lemma is_empty_false (s : string) : is_empty s = false ↔ s ≠ "".
Proof. by destruct s. Qed.

Lemma eqb_eq (s t : string) : String.eqb s t = true ↔ s = t.
Proof. apply String.eqb_eq. Qed.

Lemma eqb_neq (s t : string) : String.eqb s t = false ↔ s ≠ t.
Proof. apply String.eqb_neq. Qed.

Lemma bytes_length_0 (s : string) : String.length s = 0 → s = "".
Proof. by destruct s. Qed.

End BytesFacts.

(** ** Facts about [strings] *)

Section StringsFacts.
Import GoStrings.

Lemma HasPrefix_nil (s : string) : HasPrefix s "" = true.
Proof. by destruct s. Qed.

Lemma HasPrefix_spec (s p : string) :
  HasPrefix s p = true ↔ ∃ r, s = p +:+ r.
Proof.
  revert s. induction p as [|c p IH]; intros s.
  - rewrite HasPrefix_nil. split; [eauto|done].
  - destruct s as [|d s]; simpl.
    + split; [done|]. intros [r Hr]. by rewrite bytes_app_cons in Hr.
    + rewrite andb_true_iff, Ascii.eqb_eq, IH. split.
      * intros [-> [r ->]]. by exists r.
      * intros [r Hr]. rewrite bytes_app_cons in Hr. injection Hr as -> ->. eauto.
Qed.

Lemma HasPrefix_app (p r : string) : HasPrefix (p +:+ r) p = true.
Proof. apply HasPrefix_spec. eauto. Qed.

Lemma HasPrefix_length (s p : string) :
  HasPrefix s p = true → String.length p ≤ String.length s.
Proof. intros [r ->]%HasPrefix_spec. rewrite bytes_length_app. lia. Qed.

Lemma Index_unfold (s t : string) :
  Index s t =
  if HasPrefix s t then Some 0
  else match s with
       | EmptyString => None
       | String _ s' => S <$> Index s' t
       end.
Proof. by destruct s. Qed.

Lemma Index_bound (s t : string) (i : nat) :
  Index s t = Some i → i + String.length t ≤ String.length s.
Proof.
  revert i. induction s as [|c s IH]; intros i; rewrite Index_unfold.
  - destruct (HasPrefix "" t) eqn:Hp; [|done].
    intros [= <-]. by apply HasPrefix_length in Hp.
  - destruct (HasPrefix (String c s) t) eqn:Hp.
    + intros [= <-]. by apply HasPrefix_length in Hp.
    + destruct (Index s t) as [j|] eqn:Hj; [|done].
      intros [= <-]. specialize (IH j eq_refl). simpl. lia.
Qed.

Lemma Index_prefix (s t : string) (i : nat) :
  Index s t = Some i → HasPrefix (drop i s) t = true.
Proof.
  revert i. induction s as [|c s IH]; intros i; rewrite Index_unfold.
  - destruct (HasPrefix "" t) eqn:Hp; [|done]. by intros [= <-].
  - destruct (HasPrefix (String c s) t) eqn:Hp.
    + by intros [= <-].
    + destruct (Index s t) as [j|] eqn:Hj; [|done].
      intros [= <-]. simpl. auto.
Qed.

(** [Index] finds every occurrence: it is [None] only when no suffix
    of [s] starts with [t]. *)
Lemma Index_None (s t : string) :
  Index s t = None ↔ ∀ i, HasPrefix (drop i s) t = false.
Proof.
  induction s as [|c s IH]; rewrite Index_unfold.
  - destruct (HasPrefix "" t) eqn:Hp.
    + split; [done|]. intros Hi. specialize (Hi 0). rewrite bytes_drop_0 in Hi. congruence.
    + split; [|done]. intros _ [|i]; done.
  - destruct (HasPrefix (String c s) t) eqn:Hp.
    + split; [done|]. intros Hi. specialize (Hi 0). rewrite bytes_drop_0 in Hi. congruence.
    + destruct (Index s t) as [j|] eqn:Hj.
      * split; [done|]. intros Hi.
        assert (Some j = None) as Hn; [|done].
        apply IH. intros i. apply (Hi (S i)).
      * split; [|done]. intros _ [|i]; [done|]. by apply IH.
Qed.

(** [Contains] is the substring relation. *)
Lemma Contains_spec (s t : string) :
  Contains s t = true ↔ ∃ pre post, s = pre +:+ t +:+ post.
Proof.
  unfold Contains. destruct (Index s t) as [i|] eqn:Hi.
  - split; [intros _|done].
    apply Index_prefix, HasPrefix_spec in Hi as [post Hpost].
    exists (take i s), post. by rewrite <- Hpost, bytes_take_drop.
  - split; [done|]. intros (pre & post & ->).
    rewrite Index_None in Hi. specialize (Hi (String.length pre)).
    rewrite bytes_drop_app_length, HasPrefix_app in Hi. done.
Qed.

End StringsFacts.

(** ** The literal matching engine *)

Lemma literal_match_bounds (re s : string) (pos : nat) (m : GoRegexp.Match) :
  Small.literal_match re s pos = Some m →
  pos ≤ GoRegexp.m_lo m ∧ GoRegexp.m_lo m ≤ GoRegexp.m_hi m ∧
  GoRegexp.m_hi m ≤ String.length s.
Proof.
  unfold Small.literal_match.
  destruct (String.length s <? pos) eqn:Hpos; [done|].
  apply Nat.ltb_ge in Hpos.
  destruct (GoStrings.Index (drop pos s) re) as [i|] eqn:Hi; [|done].
  intros [= <-]. simpl. apply Index_bound in Hi.
  rewrite bytes_length_drop in Hi. lia.
Qed.

Lemma literal_engine_in_range : matches_in_range (engine := literal_engine).
Proof. intros re s pos m. apply literal_match_bounds. Qed.

(** ** The sandbox: [absPath] *)

Example NewAgent_proj : Agent.NewAgent ∅ "/proj" = Some (proj_agent, proj_fs).
Proof. vm_compute. reflexivity. Qed.

(** C2, as amended: when [absPath] succeeds the path it returns is the
    cleaned join of the root and the cleaned input, and it continues
    the cleaned root at an element boundary: it is the cleaned root
    itself or the cleaned root followed by a separator and more, so a
    sibling such as [root2] is never inside [root]. *)
Theorem absPath_within_root (a : Agent.AutonomousCodingAgent) (rel full : string) :
  Agent.absPath a rel = Agent.Ok full →
  full = GoFilepath.Join [Agent.projectDir a; GoFilepath.Clean rel] ∧
  (full = GoFilepath.Clean (Agent.projectDir a) ∨
   strict_ancestor (GoFilepath.Clean (Agent.projectDir a)) full = true) ∧
  ∃ rest, full = GoFilepath.Clean (Agent.projectDir a) +:+ rest ∧
          (rest = "" ∨ GoStrings.HasPrefix rest "/" = true).
Proof.
  unfold Agent.absPath, strict_ancestor.
  destruct (_ || _ || _); [done|].
  set (j := GoFilepath.Join _). set (r := GoFilepath.Clean (Agent.projectDir a)).
  destruct (GoStrings.HasPrefix j (r +:+ "/")) eqn:Hp; simpl.
  - intros [= <-]. split; [done|]. split; [by right|].
    apply HasPrefix_spec in Hp as [t Ht]. exists ("/" +:+ t).
    rewrite Ht, bytes_app_assoc. split; [done|]. right. by apply HasPrefix_app.
  - destruct (String.eqb j r) eqn:He; simpl; [|done].
    apply eqb_eq in He. intros [= <-]. split; [done|]. split; [by left|].
    exists "". rewrite bytes_app_nil_r. auto.
Qed.

Lemma absPath_within_root_witness :
  Agent.absPath proj_agent "src/../main.py" = Agent.Ok "/proj/main.py" ∧
  ("/proj/main.py" = GoFilepath.Join ["/proj"; GoFilepath.Clean "src/../main.py"] ∧
   ("/proj/main.py" = GoFilepath.Clean "/proj" ∨
    strict_ancestor (GoFilepath.Clean "/proj") "/proj/main.py" = true) ∧
   ∃ rest, "/proj/main.py" = GoFilepath.Clean "/proj" +:+ rest ∧
           (rest = "" ∨ GoStrings.HasPrefix rest "/" = true)).
Proof.
  split; [vm_compute; reflexivity|].
  apply (absPath_within_root proj_agent "src/../main.py" "/proj/main.py").
  vm_compute; reflexivity.
Defined.

(** C2 as stated fails: the path [.] resolves to the root itself, of
    which the root is no strict ancestor. *)
Lemma absPath_root_not_strict :
  Agent.absPath proj_agent "." = Agent.Ok "/proj" ∧
  strict_ancestor (GoFilepath.Clean (Agent.projectDir proj_agent)) "/proj" = false.
Proof. split; vm_compute; reflexivity. Qed.

(** ** File tools: create, then read *)

Lemma WriteFile_inv (fs fs' : GoOs.FS) (name data : string) :
  GoOs.WriteFile fs name data = inl fs' →
  fs' = <[name := GoOs.File data]> fs ∧ GoOs.lookup fs name ≠ Some GoOs.Dir ∧
  is_empty name = false.
Proof.
  unfold GoOs.WriteFile, GoOs.open_create.
  destruct (GoOs.lookup fs name) as [[old|]|] eqn:Hl; try done.
  - intros [= <-]. split; [done|]. split; [done|].
    revert Hl. unfold GoOs.lookup.
    destruct (String.eqb name "/" || String.eqb name "."); [done|].
    by destruct (is_empty name).
  - unfold GoOs.parent_check. destruct (is_empty name); [done|].
    destruct (GoOs.parent_errno _ _ _ _); [done|]. by intros [= <-].
Qed.

Lemma ReadFile_written (fs : GoOs.FS) (name data : string) :
  GoOs.lookup fs name ≠ Some GoOs.Dir → is_empty name = false →
  GoOs.ReadFile (<[name := GoOs.File data]> fs) name = inl data.
Proof.
  unfold GoOs.ReadFile, GoOs.lookup.
  destruct (String.eqb name "/" || String.eqb name "."); [done|].
  intros _ ->. by rewrite lookup_insert_eq.
Qed.




(** ** The shell runner *)

(** C7, as amended: [runShell] of the tool-calling agent never
    reports an invocation failure.
    When the command ran cleanly the text is the trimmed combined
    output; when [CombinedOutput] returned an error -- a non-zero exit
    status or a failure to start the process alike -- the text holds
    the trimmed output and the text of the error. *)
Theorem runShell_never_fails `{GoLib} (env : Outside.Env) (a : Agent.AutonomousCodingAgent)
    (w : Outside.World) (cmd : string) :
  let c := fst (Outside.exec env (Outside.ticks w) (Agent.projectDir a)
                  ["bash"; "-c"; cmd] (Outside.fs w)) in
  fst (Agent.runShell env a w cmd) =
  Agent.Ok
    match Outside.Failure c with
    | None => TrimSpace (Outside.Output c)
    | Some (Outside.ExitError status) =>
        "Output:" +:+ newline +:+ TrimSpace (Outside.Output c) +:+ newline
        +:+ "ERROR: " +:+ status
    | Some (Outside.StartError reason) =>
        "Output:" +:+ newline +:+ TrimSpace (Outside.Output c) +:+ newline
        +:+ "ERROR: " +:+ reason
    end.
Proof.
  unfold Agent.runShell. simpl.
  destruct (Outside.exec env _ _ _ _) as [c fs']. simpl.
  destruct (Outside.Failure c) as [[status|reason]|]; reflexivity.
Qed.

(** C7 as stated fails.  In the tool-calling agent a failure to start
    the process is not a hard error either: it comes back as text with
    a nil error.  In [zug.go] a non-zero exit status is handed to the
    caller as an error, and the text is the output alone. *)
Lemma runShell_failures_not_as_stated :
  (Outside.Failure (fst (Outside.exec no_bash_env 0 "/proj" ["bash"; "-c"; "ls"] proj_fs))
   = Some (Outside.StartError
       ("exec: " +:+ Small.quote "bash" +:+ ": executable file not found in $PATH")) ∧
   Agent.is_Err (fst (Agent.runShell (lib := Small.lib) no_bash_env proj_agent proj_world "ls"))
   = false ∧
   fst (Agent.runShell (lib := Small.lib) no_bash_env proj_agent proj_world "ls")
   = Agent.Ok ("Output:" +:+ newline +:+ newline +:+ "ERROR: exec: "
               +:+ Small.quote "bash" +:+ ": executable file not found in $PATH")) ∧
  (Outside.Failure (fst (Outside.exec failing_env 0 "/proj" ["pytest"; "-q"] proj_fs))
   = Some (Outside.ExitError "exit status 1") ∧
   fst (Zug.runShell (lib := Small.lib) failing_env
          {| Zug.projectDir := "/proj"; Zug.context := [] |} proj_world "pytest -q")
   = Outside.Returned ("1 failed in 0.01s", Some (Outside.ExitError "exit status 1"))).
Proof. repeat split; vm_compute; reflexivity. Qed.

(** ** [updateFile] without a match *)

Section UpdateFile.
Context `{lib : GoLib} `{engine : GoRegexp.Engine}.

Lemma MatchString_false (re : GoRegexp.Regexp) (s : string) :
  GoRegexp.MatchString re s = false ↔ GoRegexp.doExecute re s 0 = None.
Proof.
  unfold GoRegexp.MatchString. rewrite bool_decide_eq_false.
  destruct (GoRegexp.doExecute re s 0) as [m|]; split; try done.
  all: try (intros Hn; exfalso; apply Hn; eauto).
  all: try (intros _ [? [=]]).
Qed.

Lemma ReplaceAllString_no_match (re : GoRegexp.Regexp) (src repl : string) :
  GoRegexp.doExecute re src 0 = None →
  GoRegexp.ReplaceAllString re src repl = src.
Proof.
  intros Hno. unfold GoRegexp.ReplaceAllString, GoRegexp.replaceAll. simpl.
  rewrite Hno. by destruct src.
Qed.

Lemma Count_not_found (s t : string) :
  GoStrings.Contains s t = false → GoStrings.Count s t = 0.
Proof.
  unfold GoStrings.Contains, GoStrings.Count.
  destruct (GoStrings.Index s t) eqn:Hi; [done|]. intros _.
  destruct t as [|c t]; [by rewrite Index_unfold, HasPrefix_nil in Hi|].
  simpl. by rewrite Hi.
Qed.

Lemma ReplaceAll_not_found (s old new : string) :
  GoStrings.Contains s old = false → GoStrings.ReplaceAll s old new = s.
Proof.
  intros Hc. unfold GoStrings.ReplaceAll.
  destruct (String.eqb old new); [done|]. by rewrite Count_not_found.
Qed.

Lemma nothing_replaced_not_updated (path : string) :
  Agent.nothing_replaced path ≠ Agent.updated path.
Proof. intros Heq. lazy in Heq. discriminate. Qed.

(** C3: when [find] neither matches the content as a compiled pattern
    nor occurs in it literally, [updateFile] returns the no-op
    descriptor, which differs from the success descriptor and is no
    error, writes nothing and leaves the world (so the file's bytes)
    as it was; and in every run [updateFile] either writes nothing and
    leaves the world as it was, or it has read a content that the
    replacement changed and its one write is that of the changed
    content to the file: a write is made only when the replacement
    changed the content. *)
Theorem updateFile_noop (a : Agent.AutonomousCodingAgent) (w : Outside.World)
    (path find replace : string) :
  (∀ full src,
     Agent.absPath a path = Agent.Ok full →
     GoOs.ReadFile (Outside.fs w) full = inl src →
     (∀ re, GoRegexp.Compile find = Some re → GoRegexp.MatchString re src = false) →
     GoStrings.Contains src find = false →
     Agent.updateFile a w path find replace = (Agent.Ok (Agent.nothing_replaced path), w) ∧
     Outside.writes (snd (Agent.updateFile a w path find replace)) = Outside.writes w ∧
     Agent.nothing_replaced path ≠ Agent.updated path) ∧
  (∀ r w',
     Agent.updateFile a w path find replace = (r, w') →
     w' = w ∨
     ∃ full src,
       Agent.absPath a path = Agent.Ok full ∧
       GoOs.ReadFile (Outside.fs w) full = inl src ∧
       Agent.replaced src find replace ≠ src ∧
       r = Agent.Ok (Agent.updated path) ∧
       w' = Outside.wrote w
              (<[full := GoOs.File (Agent.replaced src find replace)]> (Outside.fs w))
              full (Agent.replaced src find replace)) ∧
  (Outside.writes (snd (Agent.updateFile a w path find replace)) ≠ Outside.writes w →
   ∃ full src,
     Agent.absPath a path = Agent.Ok full ∧
     GoOs.ReadFile (Outside.fs w) full = inl src ∧
     Agent.replaced src find replace ≠ src ∧
     Outside.writes (snd (Agent.updateFile a w path find replace))
     = Outside.writes w ++ [(full, Agent.replaced src find replace)]).
Proof.
  assert (∀ r w',
     Agent.updateFile a w path find replace = (r, w') →
     w' = w ∨
     ∃ full src,
       Agent.absPath a path = Agent.Ok full ∧
       GoOs.ReadFile (Outside.fs w) full = inl src ∧
       Agent.replaced src find replace ≠ src ∧
       r = Agent.Ok (Agent.updated path) ∧
       w' = Outside.wrote w
              (<[full := GoOs.File (Agent.replaced src find replace)]> (Outside.fs w))
              full (Agent.replaced src find replace)) as Hrun.
  { intros r w'. unfold Agent.updateFile.
    destruct (Agent.absPath a path) as [full|e]; [|intros [= _ <-]; by left].
    destruct (GoOs.ReadFile _ full) as [src|e] eqn:Hr; [|intros [= _ <-]; by left].
    destruct (String.eqb _ src) eqn:Heq; [intros [= _ <-]; by left|].
    apply eqb_neq in Heq.
    destruct (GoOs.WriteFile _ _ _) as [fs1|e] eqn:Hw; [|intros [= _ <-]; by left].
    apply WriteFile_inv in Hw as [-> _]. intros [= <- <-].
    right. by exists full, src. }
  split; [|split; [exact Hrun|]].
  - intros full src Habs Hread Hre Hlit.
    assert (Agent.updateFile a w path find replace
            = (Agent.Ok (Agent.nothing_replaced path), w)) as ->.
    { unfold Agent.updateFile. rewrite Habs, Hread.
      assert (Agent.replaced src find replace = src) as ->.
      { unfold Agent.replaced. destruct (GoRegexp.Compile find) as [re|] eqn:Hc.
        - apply ReplaceAllString_no_match, MatchString_false. auto.
        - by apply ReplaceAll_not_found. }
      by rewrite String.eqb_refl. }
    split; [done|]. split; [done|]. apply nothing_replaced_not_updated.
  - intros Hwrites.
    destruct (Agent.updateFile a w path find replace) as [r w'] eqn:Hupd.
    destruct (Hrun r w' eq_refl) as [->|(full & src & Habs & Hread & Hne & _ & ->)]; [done|].
    by exists full, src.
Qed.

End UpdateFile.

(** [find] is the literal [TODO], the file holds no such text. *)
Lemma updateFile_noop_witness :
  let w := Outside.set_fs proj_world (<["/proj/a.txt" := GoOs.File "hello"]> proj_fs) in
  Agent.absPath proj_agent "a.txt" = Agent.Ok "/proj/a.txt" ∧
  GoOs.ReadFile (Outside.fs w) "/proj/a.txt" = inl "hello" ∧
  (∀ re, GoRegexp.Compile "TODO" = Some re → GoRegexp.MatchString re "hello" = false) ∧
  GoStrings.Contains "hello" "TODO" = false ∧
  Agent.updateFile (lib := Small.lib) proj_agent w "a.txt" "TODO" "done"
  = (Agent.Ok (Agent.nothing_replaced "a.txt"), w) ∧
  Outside.writes (snd (Agent.updateFile (lib := Small.lib) proj_agent w "a.txt" "TODO" "done"))
  = Outside.writes w ∧
  Agent.nothing_replaced "a.txt" ≠ Agent.updated "a.txt".
Proof.
  assert (∀ re, GoRegexp.Compile "TODO" = Some re → GoRegexp.MatchString re "hello" = false)
    as Hre by (intros re [= <-]; vm_compute; reflexivity).
  repeat (split; [first [exact Hre | vm_compute; reflexivity]|]).
  apply (proj1 (updateFile_noop (lib := Small.lib) proj_agent
     (Outside.set_fs proj_world (<["/proj/a.txt" := GoOs.File "hello"]> proj_fs))
     "a.txt" "TODO" "done") "/proj/a.txt" "hello");
    first [exact Hre | vm_compute; reflexivity].
Defined.

(** ** Classification of the test output *)

(** C8, as amended: in the tool-calling agent the test output
    classifies as passed exactly when its lower-cased text holds neither the failure marker [fail] nor the
    error marker [error] and holds the success marker [pass] or the
    no-tests marker [no tests ran]; in every other case it classifies
    as failed. *)
Theorem tests_passed_iff `{lib : GoLib} (testOutput : string) :
  (Agent.tests_passed testOutput = true ↔
     ¬ occurs "fail" (ToLower testOutput) ∧
     ¬ occurs "error" (ToLower testOutput) ∧
     (occurs "pass" (ToLower testOutput) ∨ occurs "no tests ran" (ToLower testOutput))) ∧
  (Agent.tests_passed testOutput = false ↔
     occurs "fail" (ToLower testOutput) ∨
     occurs "error" (ToLower testOutput) ∨
     (¬ occurs "pass" (ToLower testOutput) ∧ ¬ occurs "no tests ran" (ToLower testOutput))).
Proof.
  unfold Agent.tests_passed, occurs.
  rewrite <- !Contains_spec.
  destruct (GoStrings.Contains (ToLower testOutput) "fail"),
    (GoStrings.Contains (ToLower testOutput) "error"),
    (GoStrings.Contains (ToLower testOutput) "pass"),
    (GoStrings.Contains (ToLower testOutput) "no tests ran"); simpl;
    intuition (auto; discriminate).
Qed.

(** What the feedback loop does with the classification: a turn whose
    chat succeeded and which found the tests directory ends the loop
    when the output passed and otherwise goes on to the next turn with
    the instruction that embeds the output. *)
Lemma feedback_turn_classified `{lib : GoLib} `{engine : GoRegexp.Engine} (env : Outside.Env)
    (turns turn : nat) (a a1 : Agent.AutonomousCodingAgent) (w w1 : Outside.World)
    (instruction reply : string) :
  Agent.chat env a (Outside.emit w (Outside.Turn turn instruction)) instruction
    = (Agent.Ok reply, a1, w1) →
  GoOs.IsDir (Outside.fs w1) (GoFilepath.Join [Agent.projectDir a1; "tests"]) = true →
  ∃ testOutput w2,
    Agent.runShell env a1 w1 Agent.testCommand = (Agent.Ok testOutput, w2) ∧
    Agent.feedback_turns env (S turns) turn a w instruction =
      if Agent.tests_passed testOutput then (Agent.TestsPassed, a1, w2)
      else Agent.feedback_turns env turns (S turn) a1 w2 (Agent.fix_instruction testOutput).
Proof.
  intros Hchat Hdir. cbn [Agent.feedback_turns]. rewrite Hchat, Hdir.
  unfold Agent.runShell.
  destruct (Outside.exec env _ _ _ _) as [c fs'].
  destruct (Outside.Failure c); eexists _, _; (split; [reflexivity|]); reflexivity.
Qed.

(** ** What a run leaves in the trace *)

Lemma silent_appended (d : list Outside.Event) : silent d → appended d = [].
Proof.
  unfold silent. induction d as [|[] d IH]; simpl; first [done | auto].
Qed.

Lemma silent_requested (d : list Outside.Event) : silent d → requested d = [].
Proof.
  unfold silent. induction d as [|[] d IH]; simpl; first [done | auto].
Qed.

Lemma silent_turns (d : list Outside.Event) : silent d → turns_begun d = [].
Proof.
  unfold silent. induction d as [|[] d IH]; simpl; first [done | auto].
Qed.

Lemma silent_app (d1 d2 : list Outside.Event) : silent d1 → silent d2 → silent (d1 ++ d2).
Proof. unfold silent. rewrite forallb_app. by intros -> ->. Qed.

Lemma appended_app (t1 t2 : list Outside.Event) :
  appended (t1 ++ t2) = appended t1 ++ appended t2.
Proof. apply omap_app. Qed.

Lemma requested_app (t1 t2 : list Outside.Event) :
  requested (t1 ++ t2) = requested t1 ++ requested t2.
Proof. apply omap_app. Qed.

Lemma turns_begun_app (t1 t2 : list Outside.Event) :
  turns_begun (t1 ++ t2) = turns_begun t1 ++ turns_begun t2.
Proof. apply omap_app. Qed.

Lemma extends_refl (w : Outside.World) : extends w w [].
Proof. unfold extends. by rewrite List.app_nil_r. Qed.

Lemma extends_trans (w1 w2 w3 : Outside.World) (d1 d2 : list Outside.Event) :
  extends w1 w2 d1 → extends w2 w3 d2 → extends w1 w3 (d1 ++ d2).
Proof. unfold extends. intros H1 ->. by rewrite H1, (assoc_L (++)). Qed.

Section Traces.
Context `{lib : GoLib} `{engine : GoRegexp.Engine} (env : Outside.Env).

Ltac tool_cases :=
  repeat match goal with
         | |- context [match ?x with _ => _ end] => destruct x eqn:?
         | |- context [if ?x then _ else _] => destruct x eqn:?
         end.

Lemma createFile_trace a w path content :
  Outside.trace (snd (Agent.createFile a w path content)) = Outside.trace w.
Proof. unfold Agent.createFile. tool_cases; reflexivity. Qed.

Lemma appendFile_trace a w path content :
  Outside.trace (snd (Agent.appendFile a w path content)) = Outside.trace w.
Proof. unfold Agent.appendFile. tool_cases; reflexivity. Qed.

Lemma updateFile_trace a w path find replace :
  Outside.trace (snd (Agent.updateFile a w path find replace)) = Outside.trace w.
Proof. unfold Agent.updateFile. tool_cases; reflexivity. Qed.

Lemma readFile_trace a w path :
  Outside.trace (snd (Agent.readFile a w path)) = Outside.trace w.
Proof. unfold Agent.readFile. tool_cases; reflexivity. Qed.

Lemma listFiles_trace a w :
  Outside.trace (snd (Agent.listFiles a w)) = Outside.trace w.
Proof. unfold Agent.listFiles. tool_cases; reflexivity. Qed.

Lemma runShell_trace a w cmd :
  Outside.trace (snd (Agent.runShell env a w cmd))
  = Outside.trace w ++ [Outside.Executed (Agent.projectDir a) ["bash"; "-c"; cmd]].
Proof. unfold Agent.runShell. tool_cases; reflexivity. Qed.

Lemma execTool_extends a w name jsonArgs :
  ∃ d, extends w (snd (Agent.execTool env a w name jsonArgs)) d ∧ silent d.
Proof.
  unfold Agent.execTool, extends.
  tool_cases;
    first [ exists []; split; [by rewrite List.app_nil_r|done]
          | exists []; split; [rewrite List.app_nil_r|done];
            first [apply createFile_trace | apply appendFile_trace
                  | apply updateFile_trace | apply readFile_trace
                  | apply listFiles_trace]
          | eexists; split; [apply runShell_trace|reflexivity] ].
Qed.

End Traces.

(** ** The sliding window *)

Lemma window_nil (max : nat) : window max [] [].
Proof. exists 0. simpl. auto. Qed.

Lemma window_app (max : nat) (c h ms : list GoOpenAI.ChatCompletionMessage) :
  window max c h → window max (c ++ ms) (h ++ ms).
Proof.
  intros (k & Hk & -> & Hmax). exists k. rewrite length_app.
  split; [lia|]. split.
  - by rewrite skipn_app, (proj2 (Nat.sub_0_le k (length h)) Hk).
  - destruct Hmax as [->|Hmax]; [by left|right].
    rewrite length_app. lia.
Qed.

Lemma window_trim (max : nat) (c h : list GoOpenAI.ChatCompletionMessage) :
  window max c h → max < length c →
  window max (skipn (length c - max) c) h ∧ length (skipn (length c - max) c) = max.
Proof.
  intros (k & Hk & -> & Hmax) Hlt. rewrite length_skipn in *. split.
  - exists (k + (length h - k - max)). split; [lia|]. split.
    + by rewrite skipn_skipn, (Nat.add_comm k).
    + right. rewrite length_skipn, length_skipn. lia.
  - rewrite length_skipn, length_skipn. lia.
Qed.

Lemma window_lastn (max : nat) (c h : list GoOpenAI.ChatCompletionMessage) :
  window max c h → length c ≤ max → c = lastn max h.
Proof.
  intros (k & Hk & -> & Hmax) Hle. unfold lastn. rewrite length_skipn in *.
  f_equal. lia.
Qed.

Lemma windowed_app (max : nat) (h : list GoOpenAI.ChatCompletionMessage)
    (t1 t2 : list Outside.Event) :
  windowed max h (t1 ++ t2) ↔ windowed max h t1 ∧ windowed max (h ++ appended t1) t2.
Proof.
  revert h. induction t1 as [|e t1 IH]; intros h.
  - simpl. rewrite List.app_nil_r. tauto.
  - destruct e; simpl; rewrite ?IH, <- ?(assoc_L (++)); simpl; tauto.
Qed.

Lemma windowed_no_requests (max : nat) (h : list GoOpenAI.ChatCompletionMessage)
    (t : list Outside.Event) :
  requested t = [] → windowed max h t.
Proof.
  revert h. induction t as [|e t IH]; intros h; [done|].
  destruct e; simpl; try done; auto.
Qed.

Lemma windowed_split (max : nat) (t pre post : list Outside.Event)
    (msgs : list GoOpenAI.ChatCompletionMessage) :
  windowed max [] t → t = pre ++ Outside.Requested msgs :: post →
  msgs = Agent.systemPrompt :: lastn max (appended pre).
Proof. intros Hw ->. apply windowed_app in Hw as [_ [Hm _]]. done. Qed.

(** ** The chat loop and the feedback loop, step by step *)

Section Loops.
Context `{lib : GoLib} `{engine : GoRegexp.Engine} (env : Outside.Env).

Lemma run_facts_trans max h c1 c2 d1 d2 :
  run_facts env max h c1 d1 → run_facts env max (h ++ appended d1) c2 d2 →
  run_facts env max h c2 (d1 ++ d2).
Proof.
  intros (_ & Hw1 & Ho1) (Hc2 & Hw2 & Ho2). unfold run_facts.
  rewrite appended_app, windowed_app, Forall_app, (assoc_L (++)). auto.
Qed.

Lemma run_facts_quiet max h c d :
  window max c h → appended d = [] → requested d = [] → run_facts env max h c d.
Proof.
  intros Hc Ha Hr. unfold run_facts. rewrite Ha, List.app_nil_r.
  split; [done|]. split; [|constructor]. by apply windowed_no_requests.
Qed.

Lemma set_ctx_ctx a : Agent.set_ctx a (Agent.ctx a) = a.
Proof. by destruct a. Qed.

Lemma run_tool_call_spec a w msgs call :
  ∃ m d w',
    Agent.run_tool_call env (a, w, msgs) call
    = (Agent.set_ctx a (Agent.ctx a ++ [m]), w', msgs ++ [m]) ∧
    GoOpenAI.Role m = GoOpenAI.ChatMessageRoleTool ∧
    extends w w' d ∧ appended d = [m] ∧ requested d = [] ∧ turns_begun d = [].
Proof.
  unfold Agent.run_tool_call.
  destruct (String.eqb _ _).
  - destruct (Agent.execTool env a w _ _) as [r w1] eqn:He.
    destruct (execTool_extends env a w (GoOpenAI.FunctionName call)
                (GoOpenAI.FunctionArguments call)) as (d & Hd & Hs).
    rewrite He in Hd. simpl in Hd.
    eexists _, (d ++ [Outside.Appended _]), _. split; [reflexivity|].
    split; [reflexivity|]. split.
    + unfold extends, Outside.emit. simpl. by rewrite Hd, (assoc_L (++)).
    + rewrite appended_app, requested_app, turns_begun_app.
      by rewrite silent_appended, silent_requested, silent_turns.
  - eexists _, [Outside.Appended _], _. split; [reflexivity|].
    repeat split; reflexivity.
Qed.

Lemma run_tool_calls_spec calls a w msgs :
  ∃ ms d w',
    fold_left (Agent.run_tool_call env) calls (a, w, msgs)
    = (Agent.set_ctx a (Agent.ctx a ++ ms), w', msgs ++ ms) ∧
    Forall (λ m, GoOpenAI.Role m = GoOpenAI.ChatMessageRoleTool) ms ∧
    extends w w' d ∧ appended d = ms ∧ requested d = [] ∧ turns_begun d = [].
Proof.
  revert a w msgs. induction calls as [|call calls IH]; intros a w msgs.
  - exists [], [], w. simpl. rewrite !List.app_nil_r, set_ctx_ctx.
    repeat split; try done. apply extends_refl.
  - cbn [fold_left].
    destruct (run_tool_call_spec a w msgs call)
      as (m & d1 & w1 & -> & Hm & He1 & Ha1 & Hr1 & Ht1).
    destruct (IH (Agent.set_ctx a (Agent.ctx a ++ [m])) w1 (msgs ++ [m]))
      as (ms & d2 & w2 & -> & Hms & He2 & Ha2 & Hr2 & Ht2).
    exists (m :: ms), (d1 ++ d2), w2. simpl.
    rewrite <- !(assoc_L (++)). simpl. split; [done|].
    split; [by constructor|]. split; [by eapply extends_trans|].
    rewrite appended_app, requested_app, turns_begun_app.
    by rewrite Ha1, Ha2, Hr1, Hr2, Ht1, Ht2.
Qed.

Lemma trim_ctx_spec a h :
  window (Agent.maxCtxMessages a) (Agent.ctx a) h →
  ∃ c', Agent.trim_ctx a
        = (Agent.set_ctx a c', bool_decide (Agent.maxCtxMessages a < length (Agent.ctx a))) ∧
        window (Agent.maxCtxMessages a) c' h ∧
        length c' ≤ Agent.maxCtxMessages a ∧
        (length (Agent.ctx a) ≤ Agent.maxCtxMessages a → c' = Agent.ctx a).
Proof.
  intros Hw. unfold Agent.trim_ctx.
  destruct (Agent.maxCtxMessages a <? length (Agent.ctx a)) eqn:Hlt.
  - apply Nat.ltb_lt in Hlt. rewrite bool_decide_eq_true_2 by done.
    destruct (window_trim _ _ _ Hw Hlt) as [Hw' Hlen].
    eexists. split; [reflexivity|]. split; [done|]. split; [lia|]. lia.
  - apply Nat.ltb_ge in Hlt. rewrite bool_decide_eq_false_2 by lia.
    exists (Agent.ctx a). rewrite set_ctx_ctx. auto.
Qed.

Lemma chat_step_spec step a w h msgs :
  at_loop_head a h msgs →
  match Agent.chat_step env step a w msgs with
  | Agent.Return r a' w' =>
      ∃ d, step_facts env a a' w w' h d ∧ length (requested d) = 1
  | Agent.Continue a' w' msgs' =>
      ∃ d, step_facts env a a' w w' h d ∧ length (requested d) = 1 ∧
           at_loop_head a' (h ++ appended d) msgs'
  end.
Proof.
  intros (Hw & -> & Hlen). unfold Agent.chat_step.
  pose proof (window_lastn _ _ _ Hw Hlen) as Hlast.
  set (req := Outside.Requested (Agent.systemPrompt :: Agent.ctx a)).
  assert (windowed (Agent.maxCtxMessages a) h [req]) as Hreq.
  { simpl. by rewrite <- Hlast. }
  destruct (Outside.CreateChatCompletion env _ _) as [resp|err] eqn:Hresp.
  2:{ exists [req]. split; [|done].
      split; [by rewrite set_ctx_ctx|]. split; [done|]. split; [|done].
      unfold run_facts. simpl. rewrite List.app_nil_r. auto. }
  destruct (GoOpenAI.Choices resp) as [|msg rest] eqn:Hch.
  { exists [req]. split; [|done].
    split; [by rewrite set_ctx_ctx|]. split; [done|]. split; [|done].
    unfold run_facts. simpl. rewrite List.app_nil_r. auto. }
  assert (origin env msg) as Hmsg.
  { right. right. eexists _, _, resp. split; [exact Hresp|]. by rewrite Hch. }
  assert (run_facts env (Agent.maxCtxMessages a) h (Agent.ctx a ++ [msg])
            [req; Outside.Appended msg]) as Hfacts.
  { unfold run_facts. simpl. split; [by apply window_app|].
    split; [by rewrite <- Hlast|]. by constructor. }
  unfold Agent.append_ctx.
  destruct (GoOpenAI.ToolCalls msg) as [|call calls] eqn:Htc.
  { destruct (String.eqb (GoOpenAI.Content msg) "");
      (exists [req; Outside.Appended msg]; split; [|done]);
      (split; [done|]); (split; [|done]);
      unfold extends; simpl; by rewrite <- (assoc_L (++)). }
  destruct (run_tool_calls_spec (call :: calls)
              (Agent.set_ctx a (Agent.ctx a ++ [msg]))
              (Outside.emit (Outside.tick (Outside.emit w req)) (Outside.Appended msg))
              ((Agent.systemPrompt :: Agent.ctx a) ++ [msg]))
    as (ms & d & w' & -> & Hms & He & Ha & Hr & Ht).
  simpl Agent.ctx in *.
  assert (run_facts env (Agent.maxCtxMessages a) h ((Agent.ctx a ++ [msg]) ++ ms)
            ([req; Outside.Appended msg] ++ d)) as Hfacts'.
  { eapply run_facts_trans; [exact Hfacts|].
    unfold run_facts. rewrite Ha. split; [apply window_app, Hfacts|].
    split; [by apply windowed_no_requests|].
    eapply Forall_impl; [exact Hms|]. intros m Hm. right. by left. }
  destruct (trim_ctx_spec
              (Agent.set_ctx (Agent.set_ctx a (Agent.ctx a ++ [msg]))
                 ((Agent.ctx a ++ [msg]) ++ ms))
              (h ++ appended ([req; Outside.Appended msg] ++ d)))
    as (c' & -> & Hw' & Hlen' & Hsame); [apply Hfacts'|].
  simpl in Hlen', Hsame, Hw'.
  exists ([req; Outside.Appended msg] ++ d).
  assert (extends w w' ([req; Outside.Appended msg] ++ d)) as Hext.
  { unfold extends in *. rewrite He. simpl. by rewrite <- !(assoc_L (++)). }
  assert (run_facts env (Agent.maxCtxMessages a) h c' ([req; Outside.Appended msg] ++ d))
    as Hfacts''.
  { destruct Hfacts' as (_ & ? & ?). by split. }
  split; [|split].
  - split; [done|]. split; [done|]. split; [done|].
    rewrite turns_begun_app, Ht. done.
  - rewrite requested_app, Hr. done.
  - split; [done|]. split; [|done]. simpl.
    case_bool_decide as Hb; [done|].
    rewrite Hsame by lia. by rewrite <- (assoc_L (++)).
Qed.

Lemma step_facts_refl a w h :
  window (Agent.maxCtxMessages a) (Agent.ctx a) h → step_facts env a a w w h [].
Proof.
  intros Hw. split; [by rewrite set_ctx_ctx|]. split; [apply extends_refl|].
  split; [|done]. unfold run_facts. simpl. rewrite List.app_nil_r. auto.
Qed.

Lemma step_facts_trans a a1 a2 w w1 w2 h d1 d2 :
  step_facts env a a1 w w1 h d1 →
  step_facts env a1 a2 w1 w2 (h ++ appended d1) d2 →
  step_facts env a a2 w w2 h (d1 ++ d2).
Proof.
  intros (Ha1 & He1 & Hf1 & Ht1) (Ha2 & He2 & Hf2 & Ht2).
  assert (Agent.maxCtxMessages a1 = Agent.maxCtxMessages a) as Hmax
    by (by rewrite Ha1).
  rewrite Hmax in Hf2.
  split; [by rewrite Ha2, Ha1|]. split; [by eapply extends_trans|].
  split; [by eapply run_facts_trans|].
  by rewrite turns_begun_app, Ht1, Ht2.
Qed.

Lemma chat_step_continues step a w msgs :
  always_tool_calls env →
  ∃ a' w' msgs', Agent.chat_step env step a w msgs = Agent.Continue a' w' msgs'.
Proof.
  intros Hall. unfold Agent.chat_step.
  destruct (Hall (Outside.ticks (Outside.emit w (Outside.Requested msgs))) msgs)
    as (msg & rest & -> & Htc).
  simpl GoOpenAI.Choices. unfold Agent.append_ctx.
  destruct (GoOpenAI.ToolCalls msg) as [|call calls]; [done|].
  destruct (fold_left _ _ _) as [[a1 w1] msgs1].
  destruct (Agent.trim_ctx a1) as [a2 b]. eauto.
Qed.

Lemma chat_loop_spec hops step a w h msgs r a' w' :
  at_loop_head a h msgs →
  Agent.chat_loop env hops step a w msgs = (r, a', w') →
  ∃ d, step_facts env a a' w w' h d ∧ length (requested d) ≤ hops ∧
       (always_tool_calls env →
        r = Agent.Err Agent.ErrTooManyToolInvocations ∧ length (requested d) = hops).
Proof.
  revert step a w h msgs. induction hops as [|hops IH]; intros step a w h msgs Hhead.
  - simpl. intros [= <- <- <-]. exists []. split; [apply step_facts_refl, Hhead|].
    split; [done|]. done.
  - cbn [Agent.chat_loop].
    pose proof (chat_step_spec step a w h msgs Hhead) as Hstep.
    destruct (Agent.chat_step env step a w msgs) as [r1 a1 w1|a1 w1 msgs1] eqn:Hs.
    + intros [= <- <- <-]. destruct Hstep as (d & Hd & Hn).
      exists d. split; [done|]. split; [lia|].
      intros Hall. destruct (chat_step_continues step a w msgs Hall) as (? & ? & ? & Hc).
      congruence.
    + destruct Hstep as (d1 & Hd1 & Hn1 & Hhead1). intros Hloop.
      destruct (IH _ _ _ _ _ Hhead1 Hloop) as (d2 & Hd2 & Hn2 & Hall2).
      exists (d1 ++ d2). split; [by eapply step_facts_trans|].
      rewrite requested_app, length_app. split; [lia|].
      intros Hall. destruct (Hall2 Hall) as [-> Hn]. split; [done|lia].
Qed.

Lemma chat_spec a w h userPrompt r a' w' :
  window (Agent.maxCtxMessages a) (Agent.ctx a) h →
  Agent.chat env a w userPrompt = (r, a', w') →
  ∃ d, step_facts env a a' w w' h d ∧ length (requested d) ≤ 10 ∧
       (always_tool_calls env →
        r = Agent.Err Agent.ErrTooManyToolInvocations ∧ length (requested d) = 10).
Proof.
  intros Hw. unfold Agent.chat, Agent.append_ctx.
  set (user := {| GoOpenAI.Role := GoOpenAI.ChatMessageRoleUser;
                  GoOpenAI.Content := userPrompt; GoOpenAI.Name := "";
                  GoOpenAI.FunctionCall_ := None;
                  GoOpenAI.ToolCallID := ""; GoOpenAI.ToolCalls := [] |}).
  destruct (trim_ctx_spec (Agent.set_ctx a (Agent.ctx a ++ [user])) (h ++ [user]))
    as (c1 & -> & Hw1 & Hlen1 & _); [by apply window_app|].
  simpl in Hw1, Hlen1. simpl Agent.set_ctx at 1.
  set (a1 := Agent.set_ctx _ c1).
  assert (step_facts env a a1 w (Outside.emit w (Outside.Appended user)) h [Outside.Appended user])
    as Hfirst.
  { split; [done|]. split; [done|]. split; [|done].
    split; [done|]. split; [done|]. repeat constructor. }
  intros Hloop.
  destruct (chat_loop_spec 10 0 a1 (Outside.emit w (Outside.Appended user)) (h ++ [user])
              (Agent.systemPrompt :: Agent.ctx a1) r a' w') as (d & Hd & Hn & Hall);
    [done|exact Hloop|].
  exists ([Outside.Appended user] ++ d). split; [by eapply step_facts_trans|].
  rewrite requested_app. simpl. auto.
Qed.

End Loops.

(** ** The hop budget of [chat] *)

(** C5: whatever the chat service replies, one call of [chat] sends at
    most 10 requests; and when every reply requests a tool call, the
    tenth request is the last and [chat] returns the error
    "too many tool invocations without a final answer". *)
Theorem chat_hop_bound `{lib : GoLib} `{engine : GoRegexp.Engine} (env : Outside.Env)
    (a a' : Agent.AutonomousCodingAgent) (w w' : Outside.World) (userPrompt : string)
    (r : Agent.result string) :
  Agent.chat env a w userPrompt = (r, a', w') →
  ∃ d, Outside.trace w' = Outside.trace w ++ d ∧
       length (requested d) ≤ 10 ∧
       ((∀ n msgs, ∃ msg rest,
           Outside.CreateChatCompletion env n msgs = inl {| GoOpenAI.Choices := msg :: rest |} ∧
           GoOpenAI.ToolCalls msg ≠ []) →
        r = Agent.Err Agent.ErrTooManyToolInvocations ∧ length (requested d) = 10).
Proof.
  intros Hchat.
  destruct (chat_spec env a w (Agent.ctx a) userPrompt r a' w') as (d & Hd & Hn & Hall);
    [|exact Hchat|].
  { exists 0. simpl. auto with lia. }
  exists d. split; [apply Hd|]. split; [done|]. exact Hall.
Qed.

Lemma chat_hop_bound_witness :
  let run := Agent.chat (lib := Small.lib) tool_loop_env proj_agent proj_world "list the files" in
  (∀ n msgs, ∃ msg rest,
     Outside.CreateChatCompletion tool_loop_env n msgs
       = inl {| GoOpenAI.Choices := msg :: rest |} ∧
     GoOpenAI.ToolCalls msg ≠ []) ∧
  fst (fst run) = Agent.Err Agent.ErrTooManyToolInvocations ∧
  length (requested (Outside.trace (snd run))) = 10 ∧
  ∃ d, Outside.trace (snd run) = Outside.trace proj_world ++ d ∧
       length (requested d) ≤ 10 ∧
       ((∀ n msgs, ∃ msg rest,
           Outside.CreateChatCompletion tool_loop_env n msgs
             = inl {| GoOpenAI.Choices := msg :: rest |} ∧
           GoOpenAI.ToolCalls msg ≠ []) →
        fst (fst run) = Agent.Err Agent.ErrTooManyToolInvocations ∧
        length (requested d) = 10).
Proof.
  intros run.
  split; [intros n msgs; eexists _, []; split; [reflexivity|discriminate]|].
  split; [vm_compute; reflexivity|].
  split; [vm_compute; reflexivity|].
  apply (chat_hop_bound (lib := Small.lib) tool_loop_env proj_agent (snd (fst run))
           proj_world (snd run) "list the files" (fst (fst run))).
  subst run. by destruct (Agent.chat _ _ _ _) as [[r a'] w'].
Defined.

(** ** The turn budget of [feedbackLoop] *)

Section Feedback.
Context `{lib : GoLib} `{engine : GoRegexp.Engine} (env : Outside.Env).

Lemma feedback_turns_spec turns turn a w h instruction o a' w' :
  window (Agent.maxCtxMessages a) (Agent.ctx a) h →
  Agent.feedback_turns env turns turn a w instruction = (o, a', w') →
  ∃ d, a' = Agent.set_ctx a (Agent.ctx a') ∧ extends w w' d ∧
       run_facts env (Agent.maxCtxMessages a) h (Agent.ctx a') d ∧
       length (turns_begun d) ≤ turns ∧
       (o = Agent.Exhausted → length (turns_begun d) = turns).
Proof.
  revert turn a w h instruction.
  induction turns as [|turns IH]; intros turn a w h instruction Hw.
  - simpl. intros [= <- <- <-]. exists [].
    destruct (step_facts_refl env a w h Hw) as (? & ? & ? & _). auto.
  - cbn [Agent.feedback_turns].
    set (w0 := Outside.emit w (Outside.Turn turn instruction)).
    destruct (Agent.chat env a w0 instruction) as [[r a1] w1] eqn:Hchat.
    destruct (chat_spec env a w0 h instruction r a1 w1 Hw Hchat)
      as (d1 & (Ha1 & He1 & Hf1 & Ht1) & _).
    set (t0 := [Outside.Turn turn instruction]).
    assert (extends w w1 (t0 ++ d1)) as Hext1.
    { eapply extends_trans; [|exact He1]. done. }
    assert (run_facts env (Agent.maxCtxMessages a) h (Agent.ctx a1) (t0 ++ d1)) as Hfacts1.
    { eapply run_facts_trans; [by apply (run_facts_quiet env _ _ _ _ Hw)|].
      simpl. by rewrite List.app_nil_r. }
    assert (length (turns_begun (t0 ++ d1)) = 1) as Hturn1.
    { by rewrite turns_begun_app, Ht1. }
    destruct r as [assistantReply|e].
    2:{ intros [= <- <- <-]. exists (t0 ++ d1).
        split; [done|]. split; [done|]. split; [done|]. split; [lia|done]. }
    destruct (GoOs.IsDir _ _).
    2:{ intros [= <- <- <-]. exists (t0 ++ d1).
        split; [done|]. split; [done|]. split; [done|]. split; [lia|done]. }
    destruct (Agent.runShell env a1 w1 Agent.testCommand) as [rs w2] eqn:Hsh.
    pose proof (runShell_trace env a1 w1 Agent.testCommand) as Htr.
    rewrite Hsh in Htr. simpl in Htr.
    set (x := [Outside.Executed (Agent.projectDir a1) ["bash"; "-c"; Agent.testCommand]])
      in Htr.
    assert (extends w w2 ((t0 ++ d1) ++ x)) as Hext2 by (by eapply extends_trans).
    assert (run_facts env (Agent.maxCtxMessages a) h (Agent.ctx a1) ((t0 ++ d1) ++ x))
      as Hfacts2.
    { eapply run_facts_trans; [exact Hfacts1|].
      apply run_facts_quiet; [apply Hfacts1|done..]. }
    assert (length (turns_begun ((t0 ++ d1) ++ x)) = 1) as Hturn2.
    { rewrite turns_begun_app, length_app, Hturn1. done. }
    destruct (Agent.tests_passed _).
    { intros [= <- <- <-]. exists ((t0 ++ d1) ++ x).
      split; [done|]. split; [done|]. split; [done|]. split; [lia|done]. }
    intros Hrest.
    assert (Agent.maxCtxMessages a1 = Agent.maxCtxMessages a) as Hmax by (by rewrite Ha1).
    assert (window (Agent.maxCtxMessages a1) (Agent.ctx a1)
              (h ++ appended ((t0 ++ d1) ++ x))) as Hw3
      by (rewrite Hmax; apply Hfacts2).
    destruct (IH _ _ _ _ _ Hw3 Hrest) as (d3 & Ha3 & He3 & Hf3 & Hn3 & Hex3).
    rewrite Hmax in Hf3.
    exists (((t0 ++ d1) ++ x) ++ d3). split; [by rewrite Ha3, Ha1|].
    split; [by eapply extends_trans|]. split; [by eapply run_facts_trans|].
    rewrite turns_begun_app, length_app, Hturn2. split; [lia|].
    intros Ho. specialize (Hex3 Ho). lia.
Qed.



End Feedback.





(** ** The conversation history *)

Lemma length_lastn {A} (n : nat) (l : list A) : length (lastn n l) = n `min` length l.
Proof. unfold lastn. rewrite length_skipn. lia. Qed.

(** C4, as amended: in a run of the program ([NewAgent], then
    [feedbackLoop]) every request sent to the chat service carries the
    system prompt followed by the last 40 messages appended before it,
    in their order -- exactly 40 of them once more than 40 were
    appended; the stored history is the appended messages without some
    oldest ones, and every stored message is a user or tool message of
    the agent or a reply of the service: the system prompt is put in
    front of each request and is not stored.  (The stored history
    itself is trimmed only before a request, so it can hold more than
    40 messages when [chat] returns.) *)
Theorem requests_carry_window `{lib : GoLib} `{engine : GoRegexp.Engine} (env : Outside.Env)
    (fs0 fs1 : GoOs.FS) (dir initialTask : string)
    (a a' : Agent.AutonomousCodingAgent) (w' : Outside.World) (o : Agent.Outcome) :
  Agent.NewAgent fs0 dir = Some (a, fs1) →
  Agent.feedbackLoop env a {| Outside.fs := fs1; Outside.ticks := 0; Outside.trace := []; Outside.writes := [] |}
    initialTask = (o, a', w') →
  (∀ pre msgs post,
     Outside.trace w' = pre ++ Outside.Requested msgs :: post →
     msgs = Agent.systemPrompt :: lastn 40 (appended pre) ∧
     (40 < length (appended pre) → length msgs = 41)) ∧
  (∃ k, Agent.ctx a' = skipn k (appended (Outside.trace w'))) ∧
  Forall (origin env) (appended (Outside.trace w')).
Proof.
  unfold Agent.NewAgent, Agent.feedbackLoop.
  destruct (GoOs.MkdirAll fs0 dir) as [fs|e]; [|done]. intros [= <- <-] Hrun.
  set (a := {| Agent.projectDir := dir; Agent.ctx := []; Agent.maxCtxMessages := 40 |}) in *.
  assert (window (Agent.maxCtxMessages a) (Agent.ctx a) []) as Hnil by apply window_nil.
  destruct (feedback_turns_spec env 10 0 a _ [] initialTask o a' w' Hnil Hrun)
    as (d & _ & He & (Hwin & Hreq & Horigin) & _).
  unfold extends in He. simpl in He, Hwin, Hreq. subst d.
  split; [|split; [|done]].
  - intros pre msgs post Hsplit.
    pose proof (windowed_split 40 _ pre post msgs Hreq Hsplit) as ->.
    split; [done|]. intros Hlong. simpl. rewrite length_lastn. lia.
  - destruct Hwin as (k & _ & -> & _). by exists k.
Qed.

Lemma requests_carry_window_witness :
  let run := Agent.feedbackLoop (lib := Small.lib) burst_env proj_agent proj_world "go" in
  Agent.NewAgent ∅ "/proj" = Some (proj_agent, proj_fs) ∧
  length (appended (Outside.trace (snd run))) = 42 ∧
  map length (requested (Outside.trace (snd run))) = [2; 41] ∧
  (∀ pre msgs post,
     Outside.trace (snd run) = pre ++ Outside.Requested msgs :: post →
     msgs = Agent.systemPrompt :: lastn 40 (appended pre) ∧
     (40 < length (appended pre) → length msgs = 41)) ∧
  (∃ k, Agent.ctx (snd (fst run)) = skipn k (appended (Outside.trace (snd run)))) ∧
  Forall (origin burst_env) (appended (Outside.trace (snd run))).
Proof.
  intros run.
  split; [vm_compute; reflexivity|]. split; [vm_compute; reflexivity|].
  split; [vm_compute; reflexivity|].
  apply (requests_carry_window (lib := Small.lib) burst_env ∅ proj_fs "/proj"
           "go" proj_agent (snd (fst run)) (snd run) (fst (fst run)));
    [vm_compute; reflexivity|].
  subst run. by destruct (Agent.feedbackLoop _ _ _ _) as [[o a'] w'].
Defined.

(** C4 as stated fails: after this run 42 messages were appended and
    the stored history holds 41 of them, not the last 40. *)
Lemma history_exceeds_window :
  let run := Agent.feedbackLoop (lib := Small.lib) burst_env proj_agent proj_world "go" in
  fst (fst run) = Agent.NoTestsDirectory ∧
  length (appended (Outside.trace (snd run))) = 42 ∧
  length (Agent.ctx (snd (fst run))) = 41 ∧
  Agent.ctx (snd (fst run)) ≠ lastn 40 (appended (Outside.trace (snd run))).
Proof.
  intros run.
  split; [vm_compute; reflexivity|]. split; [vm_compute; reflexivity|].
  split; [vm_compute; reflexivity|].
  intros Heq. apply (f_equal length) in Heq. vm_compute in Heq. discriminate.
Qed.

(** ** The sandbox rejects escapes *)

Lemma scan_back_ge (out : string) (dotdot w : nat) :
  dotdot ≤ w → dotdot ≤ GoFilepath.scan_back out dotdot w.
Proof.
  induction w as [|w IH]; intros Hle; [simpl; lia|].
  cbn [GoFilepath.scan_back].
  destruct (dotdot <? S w) eqn:Hlt; simpl; [|lia].
  apply Nat.ltb_lt in Hlt. destruct (negb _); [|lia]. apply IH. lia.
Qed.

Lemma HasPrefix_take (out p : string) (w : nat) :
  GoStrings.HasPrefix out p = true → String.length p ≤ w →
  GoStrings.HasPrefix (take w out) p = true.
Proof.
  intros [r ->]%HasPrefix_spec Hw. apply HasPrefix_spec.
  exists (take (w - String.length p) r).
  revert w Hw. induction p as [|c p IH]; intros w Hw.
  - by rewrite Nat.sub_0_r.
  - destruct w as [|w]; [simpl in Hw; lia|].
    rewrite !bytes_app_cons. simpl. f_equal. apply IH. simpl in Hw. lia.
Qed.

Lemma HasPrefix_app_l (out p t : string) :
  GoStrings.HasPrefix out p = true → GoStrings.HasPrefix (out +:+ t) p = true.
Proof.
  intros [r ->]%HasPrefix_spec. apply HasPrefix_spec. exists (r +:+ t).
  by rewrite bytes_app_assoc.
Qed.

(** In a rooted path the output of [Clean] keeps its leading slash. *)
Lemma Clean_loop_rooted (fuel : nat) (rest out : string) :
  GoStrings.HasPrefix out "/" = true →
  GoStrings.HasPrefix (GoFilepath.Clean_loop fuel true rest out 1) "/" = true.
Proof.
  revert rest out. induction fuel as [|fuel IH]; intros rest out Hout; [done|].
  cbn [GoFilepath.Clean_loop]. destruct rest as [|c rest1]; [done|].
  destruct (GoFilepath.IsPathSeparator c); [by apply IH|].
  destruct (GoFilepath.is_dot c && GoFilepath.at_element_end rest1); [by apply IH|].
  destruct (GoFilepath.is_dot c && _).
  - destruct (1 <? String.length out) eqn:Hlen.
    + apply IH, HasPrefix_take; [done|]. apply Nat.ltb_lt in Hlen.
      apply (scan_back_ge out 1). lia.
    + simpl. by apply IH.
  - destruct (GoFilepath.copy_element (String c rest1)) as [e rest'].
    apply IH. destruct (_ || _); repeat apply HasPrefix_app_l; done.
Qed.

Lemma Clean_rooted (rel : string) :
  GoStrings.HasPrefix rel "/" = true → GoFilepath.IsAbs (GoFilepath.Clean rel) = true.
Proof.
  intros [r ->]%HasPrefix_spec. unfold GoFilepath.IsAbs, GoFilepath.Clean.
  rewrite bytes_app_cons, bytes_app_nil_l.
  change (GoFilepath.IsPathSeparator "/") with true. cbv iota.
  pose proof (Clean_loop_rooted (String.length (String "/" r)) r "/" eq_refl) as Hp.
  destruct (GoFilepath.Clean_loop _ true r "/" 1); [done|]. exact Hp.
Qed.

Lemma escapes_app (out t : string) : escapes out → escapes (out +:+ "/" +:+ t).
Proof.
  intros [->|Hp]; right; [apply HasPrefix_spec; by exists t|]. by apply HasPrefix_app_l.
Qed.

Lemma escapes_take (out : string) (w : nat) : escapes out → 2 ≤ w → escapes (take w out).
Proof.
  intros [->|Hp] Hw.
  - left. destruct w as [|[|w]]; [lia..|by destruct w].
  - destruct (decide (w = 2)) as [->|Hne].
    + left. apply HasPrefix_spec in Hp as [r ->]. reflexivity.
    + right. apply HasPrefix_take; [done|simpl; lia].
Qed.

Lemma escapes_length (out : string) : escapes out → 2 ≤ String.length out.
Proof.
  intros [->|Hp]; [done|]. apply HasPrefix_length in Hp. simpl in Hp. lia.
Qed.

(** Once the output of [Clean] begins with a parent-directory element
    that backtracking may not cross, it keeps it. *)
Lemma Clean_loop_escapes (fuel : nat) (rest out : string) (dotdot : nat) :
  escapes out → 2 ≤ dotdot →
  escapes (GoFilepath.Clean_loop fuel false rest out dotdot).
Proof.
  revert rest out dotdot.
  induction fuel as [|fuel IH]; intros rest out dotdot Hout Hdd; [done|].
  cbn [GoFilepath.Clean_loop]. destruct rest as [|c rest1]; [done|].
  pose proof (escapes_length out Hout) as Hlen.
  destruct (GoFilepath.IsPathSeparator c); [by apply IH|].
  destruct (GoFilepath.is_dot c && GoFilepath.at_element_end rest1); [by apply IH|].
  destruct (GoFilepath.is_dot c && _).
  - cbv zeta. destruct (dotdot <? String.length out) eqn:Hlt.
    + apply Nat.ltb_lt in Hlt. apply IH; [|done]. apply escapes_take; [done|].
      pose proof (scan_back_ge out dotdot (String.length out - 1)). lia.
    + simpl negb. cbv iota.
      rewrite (proj2 (Nat.ltb_lt 0 (String.length out))) by lia.
      apply IH.
      * rewrite bytes_app_assoc. by apply escapes_app.
      * rewrite !bytes_length_app. simpl. lia.
  - destruct (GoFilepath.copy_element (String c rest1)) as [e rest'].
    apply IH; [|done]. simpl orb.
    destruct (String.length out =? 0) eqn:H0; [apply Nat.eqb_eq in H0; lia|].
    simpl negb. cbv iota. rewrite bytes_app_assoc. by apply escapes_app.
Qed.

(** A path that begins with a parent-directory element cleans to one
    that does. *)
Lemma Clean_leading_parent (rel : string) :
  rel = ".." ∨ GoStrings.HasPrefix rel "../" = true → escapes (GoFilepath.Clean rel).
Proof.
  intros [->|[r ->]%HasPrefix_spec]; [by left|].
  assert (GoFilepath.Clean ("../" +:+ r)
          = let out := GoFilepath.Clean_loop (S (S (String.length r))) false
                         (String "/" r) ".." 2 in
            if is_empty out then "." else out) as -> by reflexivity.
  cbv zeta.
  pose proof (Clean_loop_escapes (S (S (String.length r))) (String "/" r) ".." 2
                (or_introl eq_refl) (le_n _)) as He.
  pose proof (escapes_length _ He).
  destruct (GoFilepath.Clean_loop _ false _ ".." 2); [simpl in *; lia|]. exact He.
Qed.

(** C1, as amended: a path with an absolute prefix, a path that begins
    with a parent-directory element, and more generally a path whose
    cleaned form is the parent directory or begins with a
    parent-directory element, is refused by [absPath] whatever the
    project directory is, and with it by every file tool, which then
    leaves the world as it is.  (A parent-directory element that
    cleaning cancels, as in [a/../b], is not refused.) *)
Theorem absPath_rejects_escapes `{lib : GoLib} `{engine : GoRegexp.Engine}
    (a : Agent.AutonomousCodingAgent) (rel : string) :
  GoStrings.HasPrefix rel "/" = true ∨
  (rel = ".." ∨ GoStrings.HasPrefix rel "../" = true) ∨
  escapes (GoFilepath.Clean rel) →
  Agent.absPath a rel = Agent.Err (Agent.ErrInvalidPath rel) ∧
  ∀ w content find replace,
    Agent.createFile a w rel content = (Agent.Err (Agent.ErrInvalidPath rel), w) ∧
    Agent.appendFile a w rel content = (Agent.Err (Agent.ErrInvalidPath rel), w) ∧
    Agent.updateFile a w rel find replace = (Agent.Err (Agent.ErrInvalidPath rel), w) ∧
    Agent.readFile a w rel = (Agent.Err (Agent.ErrInvalidPath rel), w).
Proof.
  intros Hbad.
  assert (Agent.absPath a rel = Agent.Err (Agent.ErrInvalidPath rel)) as Habs.
  { unfold Agent.absPath.
    destruct Hbad as [Habs|Hup].
    - by rewrite (Clean_rooted rel Habs).
    - assert (escapes (GoFilepath.Clean rel)) as [Hup'|Hup'].
      { destruct Hup as [Hup|Hup]; [by apply Clean_leading_parent|done]. }
      + rewrite Hup'. done.
      + change (".." +:+ "/") with "../". rewrite Hup'. by rewrite orb_true_r. }
  split; [done|]. intros w content find replace.
  unfold Agent.createFile, Agent.appendFile, Agent.updateFile, Agent.readFile.
  by rewrite Habs.
Qed.

Lemma absPath_rejects_escapes_witness :
  (GoStrings.HasPrefix "src/../../etc/passwd" "/" = true ∨
   ("src/../../etc/passwd" = ".." ∨
    GoStrings.HasPrefix "src/../../etc/passwd" "../" = true) ∨
   escapes (GoFilepath.Clean "src/../../etc/passwd")) ∧
  GoFilepath.Clean "src/../../etc/passwd" = "../etc/passwd" ∧
  Agent.absPath proj_agent "src/../../etc/passwd"
  = Agent.Err (Agent.ErrInvalidPath "src/../../etc/passwd") ∧
  ∀ w content find replace,
    Agent.createFile proj_agent w "src/../../etc/passwd" content
    = (Agent.Err (Agent.ErrInvalidPath "src/../../etc/passwd"), w) ∧
    Agent.appendFile proj_agent w "src/../../etc/passwd" content
    = (Agent.Err (Agent.ErrInvalidPath "src/../../etc/passwd"), w) ∧
    Agent.updateFile (lib := Small.lib) proj_agent w "src/../../etc/passwd" find replace
    = (Agent.Err (Agent.ErrInvalidPath "src/../../etc/passwd"), w) ∧
    Agent.readFile proj_agent w "src/../../etc/passwd"
    = (Agent.Err (Agent.ErrInvalidPath "src/../../etc/passwd"), w).
Proof.
  split; [right; right; right; vm_compute; reflexivity|].
  split; [vm_compute; reflexivity|].
  apply (absPath_rejects_escapes (lib := Small.lib) proj_agent "src/../../etc/passwd").
  right; right; right; vm_compute; reflexivity.
Defined.

(** C1 as stated fails: [a/../b] holds a parent-directory element and
    resolves, to a file of the project. *)
Lemma absPath_accepts_inner_parent :
  has_parent_segment "a/../b" = true ∧
  Agent.absPath proj_agent "a/../b" = Agent.Ok "/proj/b".
Proof. split; vm_compute; reflexivity. Qed.

(** ** [updateFile] with an empty [find] *)

Lemma rune_width_bounds (s : string) :
  s ≠ "" → 1 ≤ GoUtf8.rune_width s ∧ GoUtf8.rune_width s ≤ String.length s.
Proof.
  intros Hs. destruct s as [|s0 t]; [done|].
  unfold GoUtf8.rune_width, GoUtf8.DecodeRuneInString.
  destruct (GoUtf8.first _) as [[[sz lo] hi]|]; [|simpl; lia].
  destruct (String.length _ <? sz); [simpl; lia|].
  destruct t as [|s1 t1]; [simpl; lia|].
  destruct (negb _); [simpl; lia|]. destruct (sz <=? 2); [simpl; lia|].
  destruct t1 as [|s2 t2]; [simpl; lia|].
  destruct (negb _); [simpl; lia|]. destruct (sz <=? 3); [simpl; lia|].
  destruct t2 as [|s3 t3]; [simpl; lia|].
  destruct (negb _); simpl; lia.
Qed.

Lemma after_each_rune_S (fuel : nat) (E s : string) :
  s ≠ "" →
  after_each_rune (S fuel) E s
  = take (GoUtf8.rune_width s) s +:+ E
    +:+ after_each_rune fuel E (drop (GoUtf8.rune_width s) s).
Proof. by destruct s. Qed.

Lemma length_drop_rune (s : string) :
  s ≠ "" → String.length (drop (GoUtf8.rune_width s) s) < String.length s.
Proof.
  intros Hs. destruct (rune_width_bounds s Hs). rewrite bytes_length_drop.
  destruct s; [done|]. simpl in *. lia.
Qed.

Lemma after_each_rune_fuel (f1 f2 : nat) (E s : string) :
  String.length s ≤ f1 → String.length s ≤ f2 →
  after_each_rune f1 E s = after_each_rune f2 E s.
Proof.
  revert f2 s. induction f1 as [|f1 IH]; intros f2 s H1 H2.
  - assert (s = "") as -> by (apply bytes_length_0; lia). by destruct f2.
  - destruct (decide (s = "")) as [->|Hs]; [by destruct f2|].
    pose proof (length_drop_rune s Hs).
    destruct f2 as [|f2]; [destruct s; [done|simpl in H2; lia]|].
    rewrite !after_each_rune_S by done. f_equal. f_equal. apply IH; lia.
Qed.

Lemma after_each_rune_unfold (E s : string) :
  s ≠ "" →
  after_each_rune (String.length s) E s
  = take (GoUtf8.rune_width s) s +:+ E
    +:+ after_each_rune (String.length (drop (GoUtf8.rune_width s) s)) E
          (drop (GoUtf8.rune_width s) s).
Proof.
  intros Hs. pose proof (length_drop_rune s Hs).
  destruct (String.length s) as [|n] eqn:Hn; [lia|].
  rewrite after_each_rune_S by done. f_equal. f_equal.
  apply after_each_rune_fuel; lia.
Qed.

Lemma length_after_each_rune (fuel : nat) (E s : string) :
  String.length s ≤ fuel →
  String.length s ≤ String.length (after_each_rune fuel E s).
Proof.
  revert s. induction fuel as [|fuel IH]; intros s Hlen; [simpl; lia|].
  destruct (decide (s = "")) as [->|Hs]; [simpl; lia|].
  pose proof (length_drop_rune s Hs). destruct (rune_width_bounds s Hs).
  rewrite after_each_rune_S by done.
  rewrite !bytes_length_app, bytes_length_take.
  assert (String.length (drop (GoUtf8.rune_width s) s) ≤ fuel) as Hd by lia.
  specialize (IH _ Hd). rewrite bytes_length_drop in IH. lia.
Qed.

Lemma after_each_rune_nothing (fuel : nat) (s : string) :
  String.length s ≤ fuel → after_each_rune fuel "" s = s.
Proof.
  revert s. induction fuel as [|fuel IH]; intros s Hlen.
  - assert (s = "") as -> by (apply bytes_length_0; lia). done.
  - destruct (decide (s = "")) as [->|Hs]; [done|].
    pose proof (length_drop_rune s Hs).
    rewrite after_each_rune_S by done. rewrite IH by lia.
    by rewrite bytes_app_nil_l, bytes_take_drop.
Qed.

(** Inserting a non-empty text changes the content; inserting the
    empty text does not. *)
Lemma inserted_changes (E s : string) : E ≠ "" → inserted E s ≠ s.
Proof.
  intros HE Heq. apply (f_equal String.length) in Heq.
  unfold inserted in Heq. rewrite bytes_length_app in Heq.
  pose proof (length_after_each_rune (String.length s) E s (le_n _)).
  destruct E; [done|]. simpl in Heq. lia.
Qed.

Lemma inserted_nothing (s : string) : inserted "" s = s.
Proof. unfold inserted. by rewrite bytes_app_nil_l, after_each_rune_nothing. Qed.

Section EmptyFind.
Context `{lib : GoLib} `{engine : GoRegexp.Engine}.

Lemma group_empty_match pos n a b :
  GoRegexp.group (empty_match pos) n = Some (a, b) → a = pos ∧ b = pos.
Proof. destruct n as [|k]; simpl; [by intros [= <- <-]|]. by destruct k. Qed.

Lemma named_group_empty_match names i name pos a b :
  GoRegexp.named_group names i name (empty_match pos) = Some (a, b) → a = pos ∧ b = pos.
Proof.
  revert i. induction names as [|namei names IH]; intros i; [done|].
  cbn [GoRegexp.named_group].
  destruct (String.eqb name namei).
  - destruct (GoRegexp.group (empty_match pos) i) as [[a' b']|] eqn:Hg.
    + intros [= <- <-]. by apply group_empty_match in Hg.
    + apply IH.
  - apply IH.
Qed.

Lemma found_at_empty_match (found : option (nat * nat)) pos (dst src : string) :
  (∀ a b, found = Some (a, b) → a = pos ∧ b = pos) →
  match found with
  | Some (a, b) => dst +:+ slice a b src
  | None => dst
  end = dst.
Proof.
  intros Hf. destruct found as [[a b]|]; [|done].
  destruct (Hf a b eq_refl) as [-> ->]. by rewrite slice_same, bytes_app_nil_r.
Qed.

Lemma expand_loop_empty_match fuel re dst template src pos :
  GoRegexp.expand_loop fuel re dst template src (empty_match pos)
  = dst +:+ GoRegexp.expand_loop fuel re "" template "" (empty_match 0).
Proof.
  revert dst template src pos.
  induction fuel as [|fuel IH]; intros dst template src pos; [done|].
  cbn [GoRegexp.expand_loop].
  destruct (GoStrings.Cut template "$") as [[before after]|]; [|done].
  cbv zeta. rewrite bytes_app_nil_l.
  destruct (GoStrings.HasPrefix after "$").
  { rewrite IH, (IH (before +:+ "$") _ "" 0). by rewrite !bytes_app_assoc. }
  destruct (GoRegexp.extract after) as [[[name num] rest]|].
  2:{ rewrite IH, (IH (before +:+ "$") _ "" 0). by rewrite !bytes_app_assoc. }
  rewrite (found_at_empty_match _ pos)
    by (intros a b; destruct num; [apply group_empty_match|apply named_group_empty_match]).
  rewrite (found_at_empty_match _ 0)
    by (intros a b; destruct num; [apply group_empty_match|apply named_group_empty_match]).
  rewrite IH, (IH before _ "" 0). by rewrite !bytes_app_assoc.
Qed.

Lemma expand_empty_match re dst template src pos :
  GoRegexp.expand re dst template src (empty_match pos) = dst +:+ expansion re template.
Proof. apply expand_loop_empty_match. Qed.

(** A template without a dollar sign expands to itself. *)
Lemma expansion_plain re template :
  GoStrings.Contains template "$" = false → expansion re template = template.
Proof.
  unfold GoStrings.Contains, expansion, GoRegexp.expand. cbn [GoRegexp.expand_loop].
  unfold GoStrings.Cut. by destruct (GoStrings.Index template "$").
Qed.

(** The loop of [replaceAll] for the empty pattern, after the match at
    [l]: the rest of the source with the expansion after each rune. *)
Lemma replaceAll_loop_empty re src E :
  (∀ s p, p ≤ String.length s → GoRegexp.doExecute re s p = Some (empty_match p)) →
  ∀ n l fuel buf,
    String.length (drop l src) = n → n ≠ 0 → n < fuel →
    GoRegexp.replaceAll_loop fuel re src (λ dst m, dst +:+ E)
      l (l + GoUtf8.rune_width (drop l src)) buf
    = buf +:+ after_each_rune n E (drop l src).
Proof.
  intros Hmatch n. induction n as [n IH] using lt_wf_ind.
  intros l fuel buf Hn Hn0 Hfuel.
  assert (drop l src ≠ "") as Hrest by (intros Hr; rewrite Hr in Hn; simpl in Hn; lia).
  destruct (rune_width_bounds _ Hrest) as [Hw1 Hw2].
  set (w := GoUtf8.rune_width (drop l src)) in *.
  pose proof Hn as Hn'. rewrite bytes_length_drop in Hn', Hw2.
  destruct fuel as [|fuel]; [lia|].
  cbn [GoRegexp.replaceAll_loop].
  rewrite (proj2 (Nat.leb_le (l + w) (String.length src))) by lia.
  rewrite Hmatch by lia. cbv zeta. simpl GoRegexp.m_lo. simpl GoRegexp.m_hi.
  rewrite (proj2 (Nat.ltb_lt l (l + w))) by lia. cbv iota. simpl orb. cbv iota.
  assert (slice l (l + w) src = take w (drop l src)) as ->.
  { unfold slice. f_equal. lia. }
  rewrite <- Hn. rewrite after_each_rune_unfold by done. fold w.
  rewrite bytes_drop_drop.
  destruct (decide (drop (l + w) src = "")) as [Hend|Hmore].
  - rewrite Hend. simpl GoUtf8.rune_width. rewrite Nat.add_0_r.
    rewrite Nat.ltb_irrefl. rewrite (proj2 (Nat.ltb_lt (l + w) (l + w + 1))) by lia.
    destruct fuel as [|fuel]; [simpl; by rewrite Hend, !bytes_app_assoc|].
    cbn [GoRegexp.replaceAll_loop].
    assert (String.length src ≤ l + w) as Hle.
    { apply (f_equal String.length) in Hend. rewrite bytes_length_drop in Hend.
      simpl in Hend. lia. }
    rewrite (proj2 (Nat.leb_gt (l + w + 1) (String.length src))) by lia.
    rewrite Hend. simpl. by rewrite !bytes_app_assoc.
  - destruct (rune_width_bounds _ Hmore) as [Hv1 Hv2].
    rewrite (proj2 (Nat.ltb_lt (l + w) (l + w + _))) by lia.
    rewrite (IH (String.length (drop (l + w) src))).
    + by rewrite !bytes_app_assoc.
    + rewrite bytes_length_drop. lia.
    + done.
    + intros H0. apply bytes_length_0 in H0. done.
    + rewrite bytes_length_drop. lia.
Qed.

Lemma replaceAll_loop_S fuel re src repl lastMatchEnd searchPos buf :
  GoRegexp.replaceAll_loop (S fuel) re src repl lastMatchEnd searchPos buf
  = if searchPos <=? String.length src then
      match GoRegexp.doExecute re src searchPos with
      | None => buf +:+ drop lastMatchEnd src
      | Some a =>
          GoRegexp.replaceAll_loop fuel re src repl (GoRegexp.m_hi a)
            (if GoRegexp.m_hi a <? searchPos + GoUtf8.rune_width (drop searchPos src)
             then searchPos + GoUtf8.rune_width (drop searchPos src)
             else if GoRegexp.m_hi a <? searchPos + 1 then searchPos + 1
                  else GoRegexp.m_hi a)
            (if (lastMatchEnd <? GoRegexp.m_hi a) || (GoRegexp.m_lo a =? 0)
             then repl (buf +:+ slice lastMatchEnd (GoRegexp.m_lo a) src) a
             else buf +:+ slice lastMatchEnd (GoRegexp.m_lo a) src)
      end
    else buf +:+ drop lastMatchEnd src.
Proof. reflexivity. Qed.

(** With the empty pattern, [ReplaceAllString] inserts the expansion
    of the template at every rune boundary of the source. *)
Lemma ReplaceAllString_empty re src repl :
  (∀ s p, p ≤ String.length s → GoRegexp.doExecute re s p = Some (empty_match p)) →
  GoRegexp.ReplaceAllString re src repl = inserted (expansion re repl) src.
Proof.
  intros Hmatch. unfold GoRegexp.ReplaceAllString, GoRegexp.replaceAll, inserted.
  assert (∀ fuel l s b,
            GoRegexp.replaceAll_loop fuel re src
              (λ dst m, GoRegexp.expand re dst repl src m) l s b
            = GoRegexp.replaceAll_loop fuel re src
                (λ dst m, dst +:+ expansion re repl) l s b) as Hrepl.
  { induction fuel as [|fuel IH]; intros l s b; [done|].
    cbn [GoRegexp.replaceAll_loop].
    destruct (s <=? String.length src) eqn:Hs; [|done]. apply Nat.leb_le in Hs.
    rewrite Hmatch by done. cbv zeta. rewrite expand_empty_match. apply IH. }
  rewrite Hrepl, replaceAll_loop_S. simpl (0 <=? _).
  rewrite Hmatch by lia. simpl GoRegexp.m_lo. simpl GoRegexp.m_hi.
  rewrite slice_same, bytes_app_nil_l. simpl orb. cbv iota.
  rewrite bytes_drop_0.
  destruct (decide (src = "")) as [->|Hsrc].
  - simpl. by rewrite bytes_app_nil_r.
  - destruct (rune_width_bounds _ Hsrc) as [Hw1 Hw2].
    rewrite (proj2 (Nat.ltb_lt 0 (0 + _))) by lia.
    pose proof (replaceAll_loop_empty re src (expansion re repl)
                  Hmatch (String.length src) 0 (S (String.length src))
                  (expansion re repl)) as Hloop.
    rewrite bytes_drop_0 in Hloop. apply Hloop; [done| |lia].
    intros H0. by apply bytes_length_0 in H0.
Qed.

End EmptyFind.

(** A member that is absent from the JSON object leaves its field at
    the zero value, the empty string. *)
Lemma decode_members_absent fields members acc saved p saved' f :
  GoJson.decode_members fields members acc saved = (p, saved') →
  (∀ k v, (k, v) ∈ members → GoJson.field_for fields k ≠ Some f) →
  GoJson.get p f = GoJson.get acc f.
Proof.
  revert acc saved. induction members as [|[key v] rest IH]; intros acc saved.
  - by intros [= <- _].
  - cbn [GoJson.decode_members]. intros Hdec Habsent.
    assert (∀ k v', (k, v') ∈ rest → GoJson.field_for fields k ≠ Some f) as Hrest
      by (intros k v' Hin; apply (Habsent k v'); by right).
    destruct (GoJson.field_for fields key) as [g|] eqn:Hfield;
      [|by apply (IH _ _ Hdec)].
    assert (g ≠ f) as Hg.
    { intros ->. apply (Habsent key v); [by left|done]. }
    destruct v; try by apply (IH _ _ Hdec).
    rewrite (IH _ _ Hdec Hrest). simpl.
    by rewrite (proj2 (String.eqb_neq g f) Hg).
Qed.

Lemma decode_struct_absent fields members p f :
  GoJson.decode_struct fields (GoJson.Object members) = inl p →
  (∀ k v, (k, v) ∈ members → GoJson.field_for fields k ≠ Some f) →
  GoJson.get p f = "".
Proof.
  unfold GoJson.decode_struct.
  destruct (GoJson.decode_members fields members [] None) as [p' [e|]] eqn:Hdec; [done|].
  intros [= <-] Habsent. by rewrite (decode_members_absent _ _ _ _ _ _ _ Hdec Habsent).
Qed.

(** What [updateFile] does with an empty [find] -- also when the
    arguments of [update_file] hold no [find] member, which decodes to
    the empty string and is not refused -- for any engine in which the
    empty pattern compiles and matches at every position: the new
    content is the old one with the expansion of [replace] inserted at
    the start, between every two runes and at the end.  A [replace]
    without a dollar sign expands to itself.  When the expansion is
    not empty the file is changed and written; when it is empty (a
    [replace] made of references to groups, such as [$1]) nothing
    changes and the no-op descriptor comes back. *)
Lemma updateFile_empty_find `{lib : GoLib} `{engine : GoRegexp.Engine} (env : Outside.Env)
    (a : Agent.AutonomousCodingAgent) (w : Outside.World) (re : GoRegexp.Regexp)
    (path replace full src : string) :
  empty_pattern re →
  Agent.absPath a path = Agent.Ok full →
  GoOs.ReadFile (Outside.fs w) full = inl src →
  Agent.replaced src "" replace = inserted (expansion re replace) src ∧
  (GoStrings.Contains replace "$" = false → expansion re replace = replace) ∧
  (expansion re replace ≠ "" →
   inserted (expansion re replace) src ≠ src ∧
   Agent.updateFile a w path "" replace
   = (Agent.Ok (Agent.updated path),
      Outside.wrote w
        (<[full := GoOs.File (inserted (expansion re replace) src)]> (Outside.fs w))
        full (inserted (expansion re replace) src))) ∧
  (expansion re replace = "" →
   Agent.updateFile a w path "" replace = (Agent.Ok (Agent.nothing_replaced path), w)) ∧
  (∀ jsonArgs p,
     Unmarshal ["path"; "find"; "replace"] jsonArgs = inl p →
     GoJson.get p "path" = path → TrimSpace path ≠ "" →
     GoJson.get p "find" = "" → GoJson.get p "replace" = replace →
     Agent.execTool env a w "update_file" jsonArgs
     = Agent.updateFile a w path "" replace) ∧
  (∀ jsonArgs members p,
     json_parse jsonArgs = inl (GoJson.Object members) →
     (∀ k v, (k, v) ∈ members →
        GoJson.field_for ["path"; "find"; "replace"] k ≠ Some "find") →
     Unmarshal ["path"; "find"; "replace"] jsonArgs = inl p →
     GoJson.get p "find" = "").
Proof.
  intros [Hcompile Hmatch] Habs Hread.
  assert (Agent.replaced src "" replace = inserted (expansion re replace) src) as Hrep.
  { unfold Agent.replaced. rewrite Hcompile. by apply ReplaceAllString_empty. }
  split; [done|]. split; [apply expansion_plain|].
  split; [|split; [|split]].
  - intros HE. pose proof (inserted_changes _ src HE) as Hne. split; [done|].
    unfold Agent.updateFile. rewrite Habs, Hread, Hrep.
    rewrite (proj2 (String.eqb_neq _ _) Hne).
    unfold GoOs.WriteFile, GoOs.open_create.
    unfold GoOs.ReadFile in Hread.
    destruct (GoOs.lookup (Outside.fs w) full) as [[old|]|]; done.
  - intros HE. unfold Agent.updateFile.
    rewrite Habs, Hread, Hrep, HE, inserted_nothing. by rewrite String.eqb_refl.
  - intros jsonArgs p Hp Hpath Htrim Hfind Hreplace.
    unfold Agent.execTool. simpl. rewrite Hp, Hpath, Hfind, Hreplace.
    by rewrite (proj2 (String.eqb_neq _ _) Htrim).
  - intros jsonArgs members p Hparse Habsent. unfold Unmarshal. rewrite Hparse.
    intros Hdec. by apply (decode_struct_absent _ _ _ _ Hdec).
Qed.

Lemma literal_engine_empty_pattern : empty_pattern (engine := literal_engine) "".
Proof.
  split; [done|]. intros src pos Hpos. simpl. unfold Small.literal_match.
  rewrite (proj2 (Nat.ltb_ge _ _) Hpos).
  rewrite Index_unfold, HasPrefix_nil. unfold empty_match. f_equal. f_equal; simpl; lia.
Qed.

Lemma updateFile_empty_find_witness :
  empty_pattern (engine := literal_engine) "" ∧
  Agent.absPath proj_agent "a.txt" = Agent.Ok "/proj/a.txt" ∧
  GoOs.ReadFile (Outside.fs ab_world) "/proj/a.txt" = inl "ab" ∧
  inserted (expansion (lib := Small.lib) (engine := literal_engine) "" "-") "ab" = "-a-b-" ∧
  Agent.execTool (lib := Small.lib) no_bash_env proj_agent ab_world "update_file"
    (update_arguments "a.txt" "-")
  = (Agent.Ok (Agent.updated "a.txt"),
     Outside.wrote ab_world (<["/proj/a.txt" := GoOs.File "-a-b-"]> (Outside.fs ab_world))
       "/proj/a.txt" "-a-b-") ∧
  Agent.replaced (lib := Small.lib) "ab" "" "-"
  = inserted (expansion (lib := Small.lib) (engine := literal_engine) "" "-") "ab".
Proof.
  split; [exact literal_engine_empty_pattern|].
  split; [vm_compute; reflexivity|]. split; [vm_compute; reflexivity|].
  split; [vm_compute; reflexivity|]. split; [vm_compute; reflexivity|].
  apply (updateFile_empty_find (lib := Small.lib) (engine := literal_engine) no_bash_env
           proj_agent ab_world "" "a.txt" "-" "/proj/a.txt" "ab");
    [exact literal_engine_empty_pattern|vm_compute; reflexivity..].
Defined.

(** C10, the failing input: [update_file] on a file that holds [ab],
    with arguments that hold no [find] member and the non-empty
    [replace] text [$1].  The note at the [Find] field of [execTool]
    says that an empty [find] means replacing the entire content when
    [replace] is not empty, and the claim says that the file is
    modified; the code expands [$1] to nothing at every match of the
    empty pattern, finds the content unchanged, writes nothing and
    returns the no-op descriptor: the file still holds [ab].  With the
    [replace] text [-] the code writes [-a-b-], not the [-] that
    replacing the entire content would give. *)
Lemma updateFile_empty_find_group_reference :
  GoOs.ReadFile (Outside.fs ab_world) "/proj/a.txt" = inl "ab" ∧
  Agent.updateFile (lib := Small.lib) proj_agent ab_world "a.txt" "" "$1"
  = (Agent.Ok (Agent.nothing_replaced "a.txt"), ab_world) ∧
  Agent.execTool (lib := Small.lib) no_bash_env proj_agent ab_world "update_file"
    (update_arguments "a.txt" "$1")
  = (Agent.Ok (Agent.nothing_replaced "a.txt"), ab_world) ∧
  fst (Agent.readFile proj_agent
         (snd (Agent.execTool (lib := Small.lib) no_bash_env proj_agent ab_world
                 "update_file" (update_arguments "a.txt" "$1"))) "a.txt")
  = Agent.Ok "ab" ∧
  fst (Agent.readFile proj_agent
         (snd (Agent.execTool (lib := Small.lib) no_bash_env proj_agent ab_world
                 "update_file" (update_arguments "a.txt" "-"))) "a.txt")
  = Agent.Ok "-a-b-".
Proof. repeat split; vm_compute; reflexivity. Qed.

(** ** The bounded loops never run out of fuel *)

Lemma copy_element_length (rest : string) :
  String.length (snd (GoFilepath.copy_element rest)) ≤ String.length rest.
Proof.
  induction rest as [|c rest IH]; [done|]. cbn [GoFilepath.copy_element].
  destruct (GoFilepath.IsPathSeparator c); [done|].
  destruct (GoFilepath.copy_element rest) as [e r]. simpl in *. lia.
Qed.

(** [Clean]: any fuel of at least the length of the unread input
    gives the same result. *)
Lemma Clean_loop_fuel (f1 f2 : nat) (rooted : bool) (rest out : string) (dotdot : nat) :
  String.length rest ≤ f1 → String.length rest ≤ f2 →
  GoFilepath.Clean_loop f1 rooted rest out dotdot
  = GoFilepath.Clean_loop f2 rooted rest out dotdot.
Proof.
  revert f2 rest out dotdot.
  induction f1 as [|f1 IH]; intros f2 rest out dotdot H1 H2.
  - assert (rest = "") as -> by (apply bytes_length_0; lia). by destruct f2.
  - destruct rest as [|c rest1]; [by destruct f2|].
    destruct f2 as [|f2]; [simpl in H2; lia|].
    simpl in H1, H2. cbn [GoFilepath.Clean_loop].
    destruct (GoFilepath.IsPathSeparator c) eqn:Hsep; [apply IH; lia|].
    destruct (GoFilepath.is_dot c && GoFilepath.at_element_end rest1); [apply IH; lia|].
    destruct (GoFilepath.is_dot c && _).
    + assert (String.length (drop 1 rest1) ≤ String.length rest1) as Hd
        by (rewrite bytes_length_drop; lia).
      cbv zeta.
      destruct (dotdot <? String.length out); [apply IH; lia|].
      destruct (negb rooted); apply IH; lia.
    + pose proof (copy_element_length rest1) as Hc.
      cbn [GoFilepath.copy_element]. rewrite Hsep.
      destruct (GoFilepath.copy_element rest1) as [e r]. simpl in Hc.
      apply IH; lia.
Qed.

(** [Clean] writes no more than it reads, and less when the path
    ends with a separator. *)
Lemma copy_element_spec (rest : string) :
  String.length (fst (GoFilepath.copy_element rest))
  + String.length (snd (GoFilepath.copy_element rest)) = String.length rest ∧
  GoFilepath.at_element_end (snd (GoFilepath.copy_element rest)) = true ∧
  (trailing_separator rest = true →
   trailing_separator (snd (GoFilepath.copy_element rest)) = true).
Proof.
  induction rest as [|c rest (Hlen & Hend & Htrail)]; [done|].
  cbn [GoFilepath.copy_element].
  destruct (GoFilepath.IsPathSeparator c) eqn:Hsep.
  - split; [done|]. split; [simpl; by rewrite Hsep|done].
  - destruct (GoFilepath.copy_element rest) as [e r]. simpl in *.
    split; [lia|]. split; [done|].
    destruct rest as [|c1 rest1]; [by rewrite Hsep|done].
Qed.

Lemma Clean_loop_length (fuel : nat) (rooted : bool) (rest out : string) (dotdot c : nat) :
  String.length rest ≤ fuel →
  String.length out ≤ c →
  (GoFilepath.at_element_end rest = false → has_room rooted out c) →
  String.length (GoFilepath.Clean_loop fuel rooted rest out dotdot)
  ≤ c + String.length rest ∧
  ((rest = "" → has_room rooted out c) →
   trailing_separator rest = true ∨ rest = "" →
   has_room rooted (GoFilepath.Clean_loop fuel rooted rest out dotdot)
     (c + String.length rest)).
Proof.
  revert rest out dotdot c.
  induction fuel as [|fuel IH]; intros rest out dotdot c Hfuel Hout Hroom.
  { assert (rest = "") as -> by (apply bytes_length_0; lia). simpl.
    split; [lia|]. intros Hr _. rewrite Nat.add_0_r. by apply Hr. }
  destruct rest as [|c0 rest1].
  { simpl. split; [lia|]. intros Hr _. rewrite Nat.add_0_r. by apply Hr. }
  assert (has_room rooted out (S c)) as Hnext by (right; lia).
  cbn [GoFilepath.Clean_loop]. simpl in Hfuel.
  destruct (GoFilepath.IsPathSeparator c0) eqn:Hsep.
  { destruct (IH rest1 out dotdot (S c)) as [Hlen Htrail]; [lia|lia|done|].
    simpl. split; [lia|]. intros _ Hlast.
    replace (c + S (String.length rest1)) with (S c + String.length rest1) by lia.
    apply Htrail; [done|].
    destruct rest1 as [|c1 rest2]; [by right|]. left. by destruct Hlast. }
  destruct (GoFilepath.is_dot c0 && GoFilepath.at_element_end rest1) eqn:Hdot.
  { destruct (IH rest1 out dotdot (S c)) as [Hlen Htrail]; [lia|lia|done|].
    simpl. split; [lia|]. intros _ Hlast.
    replace (c + S (String.length rest1)) with (S c + String.length rest1) by lia.
    apply Htrail; [done|].
    destruct rest1 as [|c1 rest2]; [|left; by destruct Hlast].
    destruct Hlast as [Hlast|]; [|done]. simpl in Hlast. congruence. }
  destruct (GoFilepath.is_dot c0 &&
            match rest1 with
            | String c2 rest2 => GoFilepath.is_dot c2 && GoFilepath.at_element_end rest2
            | EmptyString => false
            end) eqn:Hdotdot.
  { destruct rest1 as [|c1 rest2]; [by destruct (GoFilepath.is_dot c0)|].
    apply andb_prop in Hdotdot as [_ Hdotdot].
    apply andb_prop in Hdotdot as [Hdot1 Hend].
    assert (GoFilepath.IsPathSeparator c1 = false) as Hsep1.
    { revert Hdot1. unfold GoFilepath.is_dot, GoFilepath.IsPathSeparator.
      destruct (Ascii.eqb_spec c1 "."); [|done]. by subst. }
    change (drop 1 (String c1 rest2)) with rest2. cbv zeta. simpl in Hfuel |- *.
    assert (∀ out2 dd,
              String.length out2 ≤ S (S c) →
              String.length (GoFilepath.Clean_loop fuel rooted rest2 out2 dd)
              ≤ c + S (S (String.length rest2)) ∧
              (trailing_separator (String c0 (String c1 rest2)) = true →
               has_room rooted (GoFilepath.Clean_loop fuel rooted rest2 out2 dd)
                 (c + S (S (String.length rest2))))) as Hstep.
    { intros out2 dd Hout2.
      destruct (IH rest2 out2 dd (S (S c))) as [Hlen Htrail];
        [lia|lia|by rewrite Hend|].
      split; [lia|]. intros Hlast.
      replace (c + S (S (String.length rest2))) with (S (S c) + String.length rest2)
        by lia.
      destruct rest2 as [|c2 rest3]; [simpl in Hlast; congruence|].
      apply Htrail; [done|by left]. }
    assert (∀ out2 dd,
              String.length out2 ≤ S (S c) →
              String.length (GoFilepath.Clean_loop fuel rooted rest2 out2 dd)
              ≤ c + S (S (String.length rest2)) ∧
              ((String c0 (String c1 rest2) = "" → has_room rooted out c) →
               trailing_separator (String c0 (String c1 rest2)) = true ∨
               String c0 (String c1 rest2) = "" →
               has_room rooted (GoFilepath.Clean_loop fuel rooted rest2 out2 dd)
                 (c + S (S (String.length rest2))))) as Hgo.
    { intros out2 dd Hout2. destruct (Hstep out2 dd Hout2) as [Hlen Htrail].
      split; [done|]. intros _ [Hlast|]; [by apply Htrail|done]. }
    destruct (dotdot <? String.length out) eqn:Hback.
    - apply Hgo. rewrite bytes_length_take. lia.
    - destruct rooted; cbn [negb]; [apply Hgo; lia|].
      apply Hgo. rewrite !bytes_length_app.
      destruct (0 <? String.length out) eqn:Hpos; rewrite ?bytes_length_app; simpl.
      + apply Nat.ltb_lt in Hpos.
        destruct Hroom as [Hroom|Hroom]; [by simpl; rewrite Hsep| |lia].
        unfold needs_separator in Hroom. simpl in Hroom.
        apply negb_false_iff, Nat.eqb_eq in Hroom. lia.
      + apply Nat.ltb_ge in Hpos. lia. }
  cbv zeta. fold (needs_separator rooted out).
  pose proof (copy_element_spec (String c0 rest1)) as (Hlen & Hend & Htrail).
  destruct (GoFilepath.copy_element (String c0 rest1)) as [e rest'] eqn:Hcopy.
  cbn [fst snd] in Hlen, Hend, Htrail.
  assert (1 ≤ String.length e) as He.
  { revert Hcopy. cbn [GoFilepath.copy_element]. rewrite Hsep.
    destruct (GoFilepath.copy_element rest1) as [e1 r1]. intros [= <- _]. simpl. lia. }
  assert (String.length ((if needs_separator rooted out then out +:+ "/" else out) +:+ e)
          ≤ c + String.length e) as Hnew.
  { rewrite bytes_length_app.
    destruct (needs_separator rooted out) eqn:Hneed; [|lia].
    rewrite bytes_length_app. simpl.
    destruct Hroom as [Hroom|Hroom]; [by simpl; rewrite Hsep|congruence|lia]. }
  destruct (IH rest' ((if needs_separator rooted out then out +:+ "/" else out) +:+ e)
              dotdot (c + String.length e)) as [Hlen' Htrail'];
    [simpl in Hlen; lia|done|by rewrite Hend|].
  split; [simpl in *; lia|]. intros _ [Hlast|]; [|done].
  replace (c + String.length (String c0 rest1))
    with (c + String.length e + String.length rest') by (simpl in *; lia).
  specialize (Htrail Hlast).
  apply Htrail'; [|by left]. intros ->. done.
Qed.

Lemma Clean_trailing_separator (q : string) :
  trailing_separator q = true →
  GoFilepath.Clean q = "/" ∨ GoFilepath.Clean q = "." ∨
  String.length (GoFilepath.Clean q) < String.length q.
Proof.
  intros Ht. destruct q as [|c0 q1]; [done|]. unfold GoFilepath.Clean.
  destruct (GoFilepath.IsPathSeparator c0) eqn:Hsep.
  - destruct (Clean_loop_length (String.length (String c0 q1)) true q1 "/" 1 1)
      as [Hlen Hroom]; [simpl; lia|done|by left|].
    pose proof (Clean_loop_rooted (String.length (String c0 q1)) q1 "/" eq_refl) as Hp.
    destruct (GoFilepath.Clean_loop _ true q1 "/" 1) as [|o0 out1] eqn:Hout; [done|].
    cbn [is_empty]. destruct Hroom as [Hroom|Hroom].
    + intros _. by left.
    + destruct q1 as [|c1 q2]; [by right|by left].
    + left. unfold needs_separator in Hroom. simpl in Hroom.
      rewrite orb_false_r in Hroom. apply negb_false_iff, Nat.eqb_eq in Hroom.
      destruct out1; [|done]. simpl in Hp.
      destruct (Ascii.eqb_spec o0 "/"); [by subst|done].
    + right; right. simpl in *. lia.
  - destruct (Clean_loop_length (String.length (String c0 q1)) false (String c0 q1) "" 0 0)
      as [Hlen Hroom]; [done|done|by left|].
    destruct (GoFilepath.Clean_loop _ false (String c0 q1) "" 0) as [|o0 out1] eqn:Hout;
      [by right; left|].
    cbn [is_empty]. destruct Hroom as [Hroom|Hroom]; [done|by left|done|].
    right; right. simpl in *. lia.
Qed.

Lemma Clean_length (path : string) :
  path ≠ "" → String.length (GoFilepath.Clean path) ≤ String.length path.
Proof.
  destruct path as [|c0 q1]; [done|]. intros _. unfold GoFilepath.Clean.
  destruct (GoFilepath.IsPathSeparator c0).
  - destruct (Clean_loop_length (String.length (String c0 q1)) true q1 "/" 1 1)
      as [Hlen _]; [simpl; lia|done|by left|].
    destruct (GoFilepath.Clean_loop _ true q1 "/" 1); simpl in *; lia.
  - destruct (Clean_loop_length (String.length (String c0 q1)) false (String c0 q1) "" 0 0)
      as [Hlen _]; [done|done|by left|].
    destruct (GoFilepath.Clean_loop _ false (String c0 q1) "" 0); simpl in *; lia.
Qed.

Lemma last_separator_end_spec (path : string) :
  GoFilepath.last_separator_end path ≤ String.length path ∧
  (0 < GoFilepath.last_separator_end path →
   trailing_separator (take (GoFilepath.last_separator_end path) path) = true).
Proof.
  induction path as [|c path [Hle Htrail]]; [simpl; split; lia|].
  cbn [GoFilepath.last_separator_end]. cbv zeta.
  destruct (0 <? GoFilepath.last_separator_end path) eqn:Hk.
  - apply Nat.ltb_lt in Hk. specialize (Htrail Hk). split; [simpl; lia|]. intros _.
    cbn [take]. destruct (take _ path); [done|exact Htrail].
  - destruct (GoFilepath.IsPathSeparator c) eqn:Hsep; [|simpl; split; lia].
    split; [simpl; lia|]. intros _. simpl. exact Hsep.
Qed.

(** [Dir]: the root, the current directory, or a name shorter than
    the path. *)
Lemma Dir_shorter (name : string) :
  GoFilepath.Dir name = "/" ∨ GoFilepath.Dir name = "." ∨
  String.length (GoFilepath.Dir name) < String.length name.
Proof.
  unfold GoFilepath.Dir. destruct (last_separator_end_spec name) as [Hle Htrail].
  destruct (GoFilepath.last_separator_end name) as [|k] eqn:Hk.
  - rewrite bytes_take_0. by right; left.
  - destruct (Clean_trailing_separator (take (S k) name)) as [H|[H|H]];
      [apply Htrail; lia|by left|by right; left|].
    right; right. rewrite bytes_length_take in H. lia.
Qed.

(** The search for the nearest ancestor that exists ends at the root
    or at the current directory at the latest. *)
Lemma parent_errno_fuel (f1 f2 : nat) (fs : GoOs.FS) (name : string) (near : bool) :
  String.length name < f1 → String.length name < f2 →
  GoOs.parent_errno f1 fs name near = GoOs.parent_errno f2 fs name near.
Proof.
  revert f2 name near. induction f1 as [|f1 IH]; intros f2 name near H1 H2; [lia|].
  destruct f2 as [|f2]; [lia|]. cbn [GoOs.parent_errno]. cbv zeta.
  destruct (GoOs.lookup fs (GoFilepath.Dir name)) as [[data|]|] eqn:Hl; try done.
  destruct (Dir_shorter name) as [H|[H|H]].
  - rewrite H in Hl. done.
  - rewrite H in Hl. done.
  - apply IH; lia.
Qed.

(** [RuneCountInString]: every rune takes at least one byte. *)
Lemma RuneCount_loop_fuel (f1 f2 : nat) (s : string) :
  String.length s ≤ f1 → String.length s ≤ f2 →
  GoUtf8.RuneCount_loop f1 s = GoUtf8.RuneCount_loop f2 s.
Proof.
  revert f2 s. induction f1 as [|f1 IH]; intros f2 s H1 H2.
  - assert (s = "") as -> by (apply bytes_length_0; lia). by destruct f2.
  - destruct s as [|c s1]; [by destruct f2|].
    destruct f2 as [|f2]; [simpl in H2; lia|].
    cbn [GoUtf8.RuneCount_loop]. f_equal.
    assert (String c s1 ≠ "") as Hd by done. apply length_drop_rune in Hd.
    apply IH; lia.
Qed.

(** [Count]: every occurrence found takes at least one byte away. *)
Lemma Count_loop_fuel (f1 f2 : nat) (s substr : string) :
  substr ≠ "" → String.length s < f1 → String.length s < f2 →
  GoStrings.Count_loop f1 s substr = GoStrings.Count_loop f2 s substr.
Proof.
  intros Hsub. revert f2 s. induction f1 as [|f1 IH]; intros f2 s H1 H2; [lia|].
  destruct f2 as [|f2]; [lia|]. cbn [GoStrings.Count_loop].
  destruct (GoStrings.Index s substr) as [i|] eqn:Hi; [|done].
  f_equal. apply Index_bound in Hi.
  apply IH; rewrite bytes_length_drop; destruct substr; try done; simpl in *; lia.
Qed.

(** [MkdirAll]: the parent is shorter than the path. *)
Lemma skip_trailing_separators_le (path : string) (i : nat) :
  GoOs.skip_trailing_separators path i ≤ i.
Proof.
  induction i as [|i IH]; [done|]. cbn [GoOs.skip_trailing_separators].
  destruct (index i path) as [c|]; [|done].
  destruct (GoFilepath.IsPathSeparator c); lia.
Qed.

Lemma scan_element_le (path : string) (j : nat) : GoOs.scan_element path j ≤ j.
Proof.
  induction j as [|j IH]; [done|]. cbn [GoOs.scan_element].
  destruct (index j path) as [c|]; [|done].
  destruct (GoFilepath.IsPathSeparator c); lia.
Qed.

Lemma MkdirAll_rec_fuel (f1 f2 : nat) (fs : GoOs.FS) (path : string) :
  String.length path ≤ f1 → String.length path ≤ f2 →
  GoOs.MkdirAll_rec f1 fs path = GoOs.MkdirAll_rec f2 fs path.
Proof.
  assert (∀ f fs, GoOs.MkdirAll_rec f fs "" = GoOs.Mkdir fs "") as Hempty.
  { intros [|f] fs'; reflexivity. }
  revert f2 fs path. induction f1 as [|f1 IH]; intros f2 fs path H1 H2.
  - assert (path = "") as -> by (apply bytes_length_0; lia). by rewrite !Hempty.
  - destruct f2 as [|f2].
    { assert (path = "") as -> by (apply bytes_length_0; lia). by rewrite !Hempty. }
    cbn [GoOs.MkdirAll_rec].
    destruct (GoOs.lookup fs path) as [[data|]|]; try done. cbv zeta.
    set (j := GoOs.scan_element path _).
    assert (j ≤ String.length path) as Hj.
    { unfold j.
      pose proof (scan_element_le path
                    (GoOs.skip_trailing_separators path (String.length path))).
      pose proof (skip_trailing_separators_le path (String.length path)). lia. }
    destruct (1 <? j) eqn:Hlt; [|done].
    apply Nat.ltb_lt in Hlt.
    rewrite (IH f2 fs (take (j - 1) path)); [done| |];
      rewrite bytes_length_take; lia.
Qed.

Section Fuel.
Context `{lib : GoLib} `{engine : GoRegexp.Engine}.

(** The name scan of [extract]: every rune takes at least one byte. *)
Lemma name_len_fuel (f1 f2 : nat) (str : string) :
  String.length str ≤ f1 → String.length str ≤ f2 →
  GoRegexp.name_len f1 str = GoRegexp.name_len f2 str.
Proof.
  revert f2 str. induction f1 as [|f1 IH]; intros f2 str H1 H2.
  - assert (str = "") as -> by (apply bytes_length_0; lia). by destruct f2.
  - destruct str as [|c s1]; [by destruct f2|].
    destruct f2 as [|f2]; [simpl in H2; lia|].
    cbn [GoRegexp.name_len].
    assert (String c s1 ≠ "") as Hd by done. apply length_drop_rune in Hd.
    unfold GoUtf8.rune_width in Hd.
    destruct (GoUtf8.DecodeRuneInString (String c s1)) as [rune size].
    destruct (GoRegexp.is_name_rune rune); [|done].
    f_equal. cbn [snd String.length] in Hd, H1, H2. apply IH; lia.
Qed.

Lemma Cut_shorter (s sep before after : string) :
  sep ≠ "" → GoStrings.Cut s sep = Some (before, after) →
  String.length after < String.length s.
Proof.
  intros Hsep. unfold GoStrings.Cut.
  destruct (GoStrings.Index s sep) as [i|] eqn:Hi; [|done].
  intros [= _ <-]. apply Index_bound in Hi. rewrite bytes_length_drop.
  destruct sep; [done|]. simpl in *. lia.
Qed.

Lemma extract_shorter (str name rest : string) (num : option N) :
  GoRegexp.extract str = Some (name, num, rest) →
  String.length rest ≤ String.length str.
Proof.
  unfold GoRegexp.extract. destruct str as [|c0 str1]; [done|].
  set (str := if Ascii.eqb c0 "{" then _ else _).
  assert (String.length str ≤ String.length (String c0 str1)) as Hstr.
  { unfold str. destruct (Ascii.eqb c0 "{"); simpl; lia. }
  destruct (_ =? 0); [done|].
  match goal with |- context [match ?x with Some _ => _ | None => None end] =>
    destruct x as [i'|]; [|done] end.
  intros [= _ _ <-]. rewrite bytes_length_drop. lia.
Qed.

(** [expand]: any fuel above the length of the template gives the
    same result. *)
Lemma expand_loop_fuel (f1 f2 : nat) re (dst template src : string) m :
  String.length template < f1 → String.length template < f2 →
  GoRegexp.expand_loop f1 re dst template src m
  = GoRegexp.expand_loop f2 re dst template src m.
Proof.
  revert f2 dst template.
  induction f1 as [|f1 IH]; intros f2 dst template H1 H2; [lia|].
  destruct f2 as [|f2]; [lia|]. cbn [GoRegexp.expand_loop].
  destruct (GoStrings.Cut template "$") as [[before after]|] eqn:Hcut; [|done].
  apply Cut_shorter in Hcut; [|done]. cbv zeta.
  destruct (GoStrings.HasPrefix after "$").
  { apply IH; rewrite bytes_length_drop; lia. }
  destruct (GoRegexp.extract after) as [[[name num] rest]|] eqn:Hex; [|apply IH; lia].
  apply extract_shorter in Hex. apply IH; lia.
Qed.

(** [replaceAll]: the search position grows in every round, so any
    fuel that covers the positions left gives the same result; the
    [len(src) + 2] rounds of [replaceAll] do. *)
Lemma replaceAll_loop_fuel (f1 f2 : nat) re (src : string) repl
    (lastMatchEnd searchPos : nat) (buf : string) :
  matches_in_range →
  String.length src + 2 ≤ f1 + searchPos → String.length src + 2 ≤ f2 + searchPos →
  GoRegexp.replaceAll_loop f1 re src repl lastMatchEnd searchPos buf
  = GoRegexp.replaceAll_loop f2 re src repl lastMatchEnd searchPos buf.
Proof.
  intros Hbounds. revert f2 lastMatchEnd searchPos buf.
  induction f1 as [|f1 IH]; intros f2 lastMatchEnd searchPos buf H1 H2.
  - destruct f2 as [|f2]; [done|]. rewrite replaceAll_loop_S.
    by rewrite (proj2 (Nat.leb_gt searchPos (String.length src))) by lia.
  - rewrite replaceAll_loop_S.
    destruct f2 as [|f2].
    { by rewrite (proj2 (Nat.leb_gt searchPos (String.length src))) by lia. }
    rewrite replaceAll_loop_S.
    destruct (searchPos <=? String.length src); [|done].
    destruct (GoRegexp.doExecute re src searchPos) as [a|] eqn:Ha; [|done].
    destruct (Hbounds _ _ _ _ Ha) as (Hlo & Hhi & _).
    match goal with |- context [GoRegexp.replaceAll_loop f1 _ _ _ _ ?p _] =>
      assert (searchPos < p) as Hgrow end.
    { destruct (GoRegexp.m_hi a <? searchPos + GoUtf8.rune_width (drop searchPos src))
        eqn:E1; [apply Nat.ltb_lt in E1; lia|].
      destruct (GoRegexp.m_hi a <? searchPos + 1) eqn:E2;
        [lia|apply Nat.ltb_ge in E2; lia]. }
    apply IH; lia.
Qed.

End Fuel.

(** ** The other variants

    What [zug.go] and the port do where the tool-calling agent has a
    sandbox, a turn budget and the markers of a passing run. *)

Section ZugFacts.
Context `{lib : GoLib}.
Variable env : Outside.Env.

(** [runShell] of [zug.go] hands the error of the command
    to its caller, next to the output. *)
Lemma Zug_runShell_returns_error a w cmd name args :
  Fields cmd = name :: args →
  fst (Zug.runShell env a w cmd)
  = let c := fst (Outside.exec env (Outside.ticks w) (Zug.projectDir a) (name :: args)
                    (Outside.fs w)) in
    Outside.Returned (Outside.Output c, Outside.Failure c).
Proof.
  intros Hf. unfold Zug.runShell. rewrite Hf. simpl.
  by destruct (Outside.exec env _ _ _ _) as [c fs'].
Qed.

(** One round with a service that answers in text and tests that
    fail: the loop goes on, one request later. *)
Lemma Zug_round_again a w instruction :
  always_text env → Fields Zug.testCommand ≠ [] →
  commands_fail env (Zug.projectDir a) Zug.tests_passed →
  GoOs.IsDir (Outside.fs w) (GoFilepath.Join [Zug.projectDir a; "tests"]) = true →
  ∃ a1 w1 instruction1,
    Zug.feedback_round env a w instruction = Zug.Again a1 w1 instruction1 ∧
    Zug.projectDir a1 = Zug.projectDir a ∧
    GoOs.IsDir (Outside.fs w1) (GoFilepath.Join [Zug.projectDir a; "tests"]) = true ∧
    length (requested (Outside.trace w1)) = S (length (requested (Outside.trace w))).
Proof.
  intros Htext Hfields Hfail Hdir.
  unfold Zug.feedback_round, Zug.askModel.
  cbn [Outside.ticks Outside.emit].
  destruct (Htext (Outside.ticks w)
              ([Zug.systemMessage] ++ Zug.context a ++
               [ {| GoOpenAI.Role := GoOpenAI.ChatMessageRoleUser;
                    GoOpenAI.Content := instruction; GoOpenAI.Name := "";
                    GoOpenAI.FunctionCall_ := None; GoOpenAI.ToolCallID := "";
                    GoOpenAI.ToolCalls := [] |} ]))
    as (msg & rest & -> & Hcall).
  cbn [GoOpenAI.Choices]. rewrite Hcall.
  cbn [Zug.projectDir Zug.set_context Outside.fs Outside.emit Outside.tick].
  rewrite Hdir. unfold Zug.runShell.
  destruct (Fields Zug.testCommand) as [|name args] eqn:Hf; [done|].
  cbn [Outside.ticks Outside.emit Outside.tick Outside.fs Zug.projectDir].
  destruct (Hfail (S (Outside.ticks w)) (name :: args) (Outside.fs w)) as [Hjudge Hkeep].
  destruct (Outside.exec env _ _ _ _) as [c fs'].
  simpl in Hjudge, Hkeep. rewrite Hjudge.
  eexists _, _, _. split; [reflexivity|]. split; [done|]. split; [by apply Hkeep|].
  cbn [Outside.trace Outside.tick Outside.set_fs Outside.emit].
  unfold requested. rewrite !omap_app, !length_app. simpl. lia.
Qed.

(** The feedback loop of [zug.go] has no turn budget:
    while the tests fail it begins round after round, each with a
    request to the chat service. *)
Theorem Zug_feedbackLoop_unbounded (n : nat) a w instruction :
  always_text env → Fields Zug.testCommand ≠ [] →
  commands_fail env (Zug.projectDir a) Zug.tests_passed →
  GoOs.IsDir (Outside.fs w) (GoFilepath.Join [Zug.projectDir a; "tests"]) = true →
  ∃ a' w' instruction',
    Zug.feedback_rounds env n a w instruction = Zug.Again a' w' instruction' ∧
    length (requested (Outside.trace w')) = length (requested (Outside.trace w)) + n.
Proof.
  intros Htext Hfields. revert a w instruction.
  induction n as [|n IH]; intros a w instruction Hfail Hdir.
  - eexists _, _, _. split; [reflexivity|]. lia.
  - destruct (Zug_round_again a w instruction Htext Hfields Hfail Hdir)
      as (a1 & w1 & i1 & Hround & Hproj & Hdir1 & Hreq).
    cbn [Zug.feedback_rounds]. rewrite Hround.
    rewrite <- Hproj in Hfail, Hdir1.
    destruct (IH a1 w1 i1 Hfail Hdir1) as (a' & w' & i' & Hrounds & Hlen).
    eexists _, _, _. split; [exact Hrounds|]. lia.
Qed.

(** X20: so [feedbackLoop] of [zug.go] does not return then: while
    the model answers in text and every test run prints a text with
    [failed] in it, the loop ends in no outcome at all. *)
Theorem Zug_feedbackLoop_diverges a w instruction o a' w' :
  always_text env → Fields Zug.testCommand ≠ [] →
  commands_fail env (Zug.projectDir a) Zug.tests_passed →
  GoOs.IsDir (Outside.fs w) (GoFilepath.Join [Zug.projectDir a; "tests"]) = true →
  ¬ Zug.feedbackLoop env a w instruction o a' w'.
Proof.
  intros Htext Hfields Hfail Hdir Hloop.
  induction Hloop as [a w instruction o a' w' Hdone
                     |a w instruction a1 w1 i1 o a' w' Hagain Hloop IH].
  - destruct (Zug_round_again a w instruction Htext Hfields Hfail Hdir)
      as (a1 & w1 & i1 & Hround & _). congruence.
  - destruct (Zug_round_again a w instruction Htext Hfields Hfail Hdir)
      as (a2 & w2 & i2 & Hround & Hproj & Hdir2 & _).
    rewrite Hround in Hagain. injection Hagain as -> -> ->.
    rewrite <- Hproj in Hfail, Hdir2. by apply IH.
Qed.

(** The loop and its rounds agree: [feedbackLoop] returns what some
    number of rounds returns. *)
Lemma Zug_feedbackLoop_rounds a w instruction o a' w' :
  Zug.feedbackLoop env a w instruction o a' w' ↔
  ∃ n, Zug.feedback_rounds env n a w instruction = Zug.Done o a' w'.
Proof.
  split.
  - induction 1 as [a w instruction o a' w' Hdone
                   |a w instruction a1 w1 i1 o a' w' Hagain _ [n IH]].
    + exists 1. cbn [Zug.feedback_rounds]. by rewrite Hdone.
    + exists (S n). cbn [Zug.feedback_rounds]. by rewrite Hagain.
  - intros [n Hn]. revert a w instruction Hn.
    induction n as [|n IH]; intros a w instruction Hn; [done|].
    cbn [Zug.feedback_rounds] in Hn.
    destruct (Zug.feedback_round env a w instruction) as [o1 a1 w1|a1 w1 i1] eqn:Hround.
    + injection Hn as -> -> ->. by apply Zug.feedbackLoop_done.
    + eapply Zug.feedbackLoop_again; [exact Hround|]. by apply IH.
Qed.

End ZugFacts.

Section ZugPortFacts.
Context `{lib : GoLib}.
Variable env : Outside.Env.

(** [runShell] of the port returns an error when the
    command fails, and the two output streams one after the other. *)
Lemma ZugPort_runShell_returns_error a w cmdStr name args err :
  Fields cmdStr = name :: args →
  Outside.Failure (fst (Outside.exec env (Outside.ticks w) (ZugPort.ProjectDir a) (name :: args)
                          (Outside.fs w))) = Some err →
  ∃ out stderr,
    fst (ZugPort.runShell env a w cmdStr)
    = Outside.Returned (out, Some (ZugPort.ErrRunningCommand cmdStr err stderr)).
Proof.
  intros Hf. unfold ZugPort.runShell. rewrite Hf. simpl.
  destruct (Outside.exec env _ _ _ _) as [c fs']. simpl. intros ->. by eexists _, _.
Qed.

Lemma ZugPort_round_again instruction a w currentInstruction :
  service_down env →
  ∃ a1 w1 instruction1,
    ZugPort.feedback_round env instruction a w currentInstruction
    = ZugPort.Again a1 w1 instruction1 ∧
    length (requested (Outside.trace w1)) = S (length (requested (Outside.trace w))).
Proof.
  intros Hdown. unfold ZugPort.feedback_round, ZugPort.askModel.
  cbn [Outside.ticks Outside.emit].
  destruct (Hdown (Outside.ticks w)
              ([ZugPort.systemMessage] ++ ZugPort.Context a ++
               [ {| GoOpenAI.Role := GoOpenAI.ChatMessageRoleUser;
                    GoOpenAI.Content := currentInstruction; GoOpenAI.Name := "";
                    GoOpenAI.FunctionCall_ := None; GoOpenAI.ToolCallID := "";
                    GoOpenAI.ToolCalls := [] |} ]))
    as (err & ->).
  destruct (5 <? length (ZugPort.Context a)); eexists _, _, _; (split; [reflexivity|]);
    cbn [Outside.trace Outside.tick Outside.emit];
    unfold requested; rewrite omap_app, length_app; simpl; lia.
Qed.

(** The feedback loop of the port goes on after every
    error of the chat service: with the service down it sends request
    after request. *)
Theorem ZugPort_feedbackLoop_unbounded (n : nat) instruction a w currentInstruction :
  service_down env →
  ∃ a' w' instruction',
    ZugPort.feedback_rounds env n instruction a w currentInstruction
    = ZugPort.Again a' w' instruction' ∧
    length (requested (Outside.trace w')) = length (requested (Outside.trace w)) + n.
Proof.
  intros Hdown. revert a w currentInstruction.
  induction n as [|n IH]; intros a w currentInstruction.
  - eexists _, _, _. split; [reflexivity|]. lia.
  - destruct (ZugPort_round_again instruction a w currentInstruction Hdown)
      as (a1 & w1 & i1 & Hround & Hreq).
    cbn [ZugPort.feedback_rounds]. rewrite Hround.
    destruct (IH a1 w1 i1) as (a' & w' & i' & Hrounds & Hlen).
    eexists _, _, _. split; [exact Hrounds|]. lia.
Qed.

(** X21: so [feedbackLoop] of the port does not return while the
    chat service is down: every error sends it into the next round. *)
Theorem ZugPort_feedbackLoop_diverges instruction a w currentInstruction o a' w' :
  service_down env →
  ¬ ZugPort.feedbackLoop env instruction a w currentInstruction o a' w'.
Proof.
  intros Hdown Hloop.
  induction Hloop as [a w i o a' w' Hdone|a w i a1 w1 i1 o a' w' Hagain Hloop IH].
  - destruct (ZugPort_round_again instruction a w i Hdown) as (a1 & w1 & i1 & Hround & _).
    congruence.
  - exact IH.
Qed.

End ZugPortFacts.

(** C8 as stated fails on the two other variants: an empty output,
    which holds no success marker, passes both, and an output with
    the error marker passes [zug.go]; the tool-calling agent takes
    neither for a passing run. *)
Lemma tests_passed_variants_differ :
  (Zug.tests_passed (lib := Small.lib) "" = true ∧
   ZugPort.tests_passed (lib := Small.lib) "" = true ∧
   Agent.tests_passed (lib := Small.lib) "" = false ∧
   ¬ (occurs "pass" (ToLower (GoLib := Small.lib) "") ∨
      occurs "no tests ran" (ToLower (GoLib := Small.lib) ""))) ∧
  (Zug.tests_passed (lib := Small.lib) "1 error in 0.10s" = true ∧
   Agent.tests_passed (lib := Small.lib) "1 error in 0.10s" = false ∧
   occurs "error" (ToLower (GoLib := Small.lib) "1 error in 0.10s")).
Proof.
  split.
  - split; [vm_compute; reflexivity|]. split; [vm_compute; reflexivity|].
    split; [vm_compute; reflexivity|].
    unfold occurs. rewrite <- !Contains_spec. vm_compute. by intros [|].
  - split; [vm_compute; reflexivity|]. split; [vm_compute; reflexivity|].
    unfold occurs. rewrite <- Contains_spec. vm_compute. reflexivity.
Qed.

(** [zug.go] has no sandbox: a path with a parent
    segment names a file outside of the project directory. *)
Example Zug_createFile_outside :
  let a := {| Zug.projectDir := "project"; Zug.context := [] |} in
  let w := {| Outside.fs := <["project" := GoOs.Dir]> ∅; Outside.ticks := 0;
              Outside.trace := []; Outside.writes := [] |} in
  let '(r, w') := Zug.createFile a w "../notes.txt" "x" in
  r = inl "File created: notes.txt" ∧
  GoOs.ReadFile (Outside.fs w') "notes.txt" = inl "x".
Proof. vm_compute. by split. Qed.

(** [zug.go] indexes the choices of a reply without
    looking at their number. *)
Example Zug_askModel_panics :
  let env := {| Outside.CreateChatCompletion := λ _ _, inl {| GoOpenAI.Choices := [] |};
                Outside.exec := quiet_bash "" None |} in
  let a := {| Zug.projectDir := "project"; Zug.context := [] |} in
  fst (fst (Zug.askModel (lib := Small.lib) env a proj_world "task"))
  = Outside.Panicked Outside.index_out_of_range.
Proof. reflexivity. Qed.


(** * More of the agent

    Properties of the functions of the three variants beyond the
    claims of the specification. *)

(** ** The file system under the tools *)

Lemma lookup_insert_other (fs : GoOs.FS) (name q : string) (n : GoOs.node) :
  q ≠ name → GoOs.lookup (<[name := n]> fs) q = GoOs.lookup fs q.
Proof.
  intros Hq. unfold GoOs.lookup.
  destruct (String.eqb q "/" || String.eqb q "."); [done|].
  destruct (is_empty q); [done|]. by rewrite lookup_insert_ne.
Qed.

Lemma lookup_insert_same (fs : GoOs.FS) (name : string) (n : GoOs.node) :
  GoOs.lookup fs name ≠ Some GoOs.Dir → is_empty name = false →
  GoOs.lookup (<[name := n]> fs) name = Some n.
Proof.
  unfold GoOs.lookup.
  destruct (String.eqb name "/" || String.eqb name "."); [done|].
  intros _ ->. by rewrite lookup_insert_eq.
Qed.


Lemma Mkdir_inv (fs fs' : GoOs.FS) (name : string) :
  GoOs.Mkdir fs name = inl fs' →
  fs' = <[name := GoOs.Dir]> fs ∧ GoOs.lookup fs name = None ∧ is_empty name = false.
Proof.
  unfold GoOs.Mkdir, GoOs.parent_check.
  destruct (GoOs.lookup fs name); [done|].
  destruct (is_empty name); [done|].
  destruct (GoOs.parent_errno _ _ _ _); [done|]. by intros [= <-].
Qed.

Lemma bytes_take_take (n m : nat) (s : string) : take n (take m s) = take (n `min` m) s.
Proof.
  revert m s. induction n as [|n IH]; intros m s; [done|].
  destruct m as [|m]; [done|]. destruct s as [|c s]; [done|].
  simpl. by rewrite IH.
Qed.

(** [MkdirAll]: when it succeeds the path is a directory, and the
    only change is that names that were not there, all of them
    prefixes of the path, are directories now. *)
Lemma MkdirAll_rec_spec (fuel : nat) (fs fs' : GoOs.FS) (path : string) :
  GoOs.MkdirAll_rec fuel fs path = inl fs' →
  GoOs.IsDir fs' path = true ∧
  ∀ q, GoOs.lookup fs' q = GoOs.lookup fs q ∨
       (GoOs.lookup fs q = None ∧ GoOs.lookup fs' q = Some GoOs.Dir ∧
        ∃ k, q = take k path).
Proof.
  assert (∀ fs fs' path, GoOs.Mkdir fs path = inl fs' →
          GoOs.IsDir fs' path = true ∧
          ∀ q, GoOs.lookup fs' q = GoOs.lookup fs q ∨
               (GoOs.lookup fs q = None ∧ GoOs.lookup fs' q = Some GoOs.Dir ∧
                ∃ k, q = take k path)) as Hmk.
  { clear. intros fs fs' path (-> & Hnone & Hname)%Mkdir_inv.
    assert (GoOs.lookup (<[path := GoOs.Dir]> fs) path = Some GoOs.Dir) as Hnew.
    { apply lookup_insert_same; [by rewrite Hnone|done]. }
    split; [unfold GoOs.IsDir; by rewrite Hnew|].
    intros q. destruct (decide (q = path)) as [->|Hq].
    - right. split; [done|]. split; [done|].
      exists (String.length path). by rewrite bytes_take_ge.
    - left. by apply lookup_insert_other. }
  revert fs fs' path. induction fuel as [|fuel IH]; intros fs fs' path.
  { apply Hmk. }
  cbn [GoOs.MkdirAll_rec].
  destruct (GoOs.lookup fs path) as [[data|]|] eqn:Hl; [done| |].
  { intros [= <-]. split; [unfold GoOs.IsDir; by rewrite Hl|]. by left. }
  cbv zeta. set (j := GoOs.scan_element path _).
  assert (∀ fs1, (∀ q, GoOs.lookup fs1 q = GoOs.lookup fs q ∨
                       (GoOs.lookup fs q = None ∧ GoOs.lookup fs1 q = Some GoOs.Dir ∧
                        ∃ k, q = take k path)) →
          match GoOs.Mkdir fs1 path with
          | inl fs2 => inl fs2
          | inr e => if GoOs.IsDir fs1 path then inl fs1 else inr e
          end = inl fs' →
          GoOs.IsDir fs' path = true ∧
          ∀ q, GoOs.lookup fs' q = GoOs.lookup fs q ∨
               (GoOs.lookup fs q = None ∧ GoOs.lookup fs' q = Some GoOs.Dir ∧
                ∃ k, q = take k path)) as Hlast.
  { intros fs1 H1.
    destruct (GoOs.Mkdir fs1 path) as [fs2|e] eqn:Hm.
    - intros [= <-]. destruct (Hmk _ _ _ Hm) as [Hdir H2]. split; [done|].
      intros q. destruct (H2 q) as [E2|(N2 & D2 & K2)].
      + rewrite E2. apply H1.
      + destruct (H1 q) as [E1|(N1 & D1 & K1)]; [|congruence].
        right. by rewrite <- E1.
    - destruct (GoOs.IsDir fs1 path) eqn:Hd; [|done]. by intros [= <-]. }
  destruct (1 <? j) eqn:Hj.
  - destruct (GoOs.MkdirAll_rec fuel fs (take (j - 1) path)) as [fs1|e] eqn:Hrec; [|done].
    apply IH in Hrec as [_ H1]. apply Hlast.
    intros q. destruct (H1 q) as [E1|(N1 & D1 & k & K1)]; [by left|].
    right. split; [done|]. split; [done|].
    exists (k `min` (j - 1)). by rewrite <- bytes_take_take.
  - apply Hlast. by left.
Qed.


(** ** [NewAgent] *)

(** X1: when [NewAgent] returns, the project directory is a directory
    of the file system, whatever was there before is still there, and
    the agent starts with an empty history and a window of 40
    messages. *)
Theorem NewAgent_makes_project_dir (fs0 fs1 : GoOs.FS) (dir : string)
    (a : Agent.AutonomousCodingAgent) :
  Agent.NewAgent fs0 dir = Some (a, fs1) →
  Agent.projectDir a = dir ∧ Agent.ctx a = [] ∧ Agent.maxCtxMessages a = 40 ∧
  GoOs.IsDir fs1 dir = true ∧
  ∀ q n, GoOs.lookup fs0 q = Some n → GoOs.lookup fs1 q = Some n.
Proof.
  unfold Agent.NewAgent, GoOs.MkdirAll.
  destruct (GoOs.MkdirAll_rec _ fs0 dir) as [fs|e] eqn:Hmk; [|done].
  intros [= <- <-]. apply MkdirAll_rec_spec in Hmk as [Hdir Hkeep].
  repeat (split; [done|]). intros q n Hq.
  destruct (Hkeep q) as [->|(Hnone & _)]; [done|congruence].
Qed.

Lemma NewAgent_makes_project_dir_witness :
  Agent.NewAgent (<["/etc" := GoOs.Dir]> ∅) "/srv/work/project"
  = Some ({| Agent.projectDir := "/srv/work/project"; Agent.ctx := [];
             Agent.maxCtxMessages := 40 |},
          <["/srv/work/project" := GoOs.Dir]>
            (<["/srv/work" := GoOs.Dir]>
               (<["/srv" := GoOs.Dir]> (<["/etc" := GoOs.Dir]> ∅)))) ∧
  (Agent.projectDir {| Agent.projectDir := "/srv/work/project"; Agent.ctx := [];
                       Agent.maxCtxMessages := 40 |} = "/srv/work/project" ∧
   Agent.ctx {| Agent.projectDir := "/srv/work/project"; Agent.ctx := [];
                Agent.maxCtxMessages := 40 |} = [] ∧
   Agent.maxCtxMessages {| Agent.projectDir := "/srv/work/project"; Agent.ctx := [];
                           Agent.maxCtxMessages := 40 |} = 40 ∧
   GoOs.IsDir (<["/srv/work/project" := GoOs.Dir]>
                 (<["/srv/work" := GoOs.Dir]>
                    (<["/srv" := GoOs.Dir]> (<["/etc" := GoOs.Dir]> ∅))))
     "/srv/work/project" = true ∧
   ∀ q n, GoOs.lookup (<["/etc" := GoOs.Dir]> ∅) q = Some n →
          GoOs.lookup (<["/srv/work/project" := GoOs.Dir]>
                         (<["/srv/work" := GoOs.Dir]>
                            (<["/srv" := GoOs.Dir]> (<["/etc" := GoOs.Dir]> ∅)))) q
          = Some n).
Proof.
  assert (Agent.NewAgent (<["/etc" := GoOs.Dir]> ∅) "/srv/work/project"
          = Some ({| Agent.projectDir := "/srv/work/project"; Agent.ctx := [];
                     Agent.maxCtxMessages := 40 |},
                  <["/srv/work/project" := GoOs.Dir]>
                    (<["/srv/work" := GoOs.Dir]>
                       (<["/srv" := GoOs.Dir]> (<["/etc" := GoOs.Dir]> ∅))))) as Hrun.
  { vm_compute. reflexivity. }
  split; [exact Hrun|].
  exact (NewAgent_makes_project_dir _ _ _ _ Hrun).
Defined.

(** ** The file tools *)


Section FileTools.
Context `{lib : GoLib} `{engine : GoRegexp.Engine}.


End FileTools.


Section FileToolsFrame.
Context `{lib : GoLib} `{engine : GoRegexp.Engine}.


(** X4: [updateFile] then [readFile].  When [updateFile] answers
    without an error, [readFile] could read the file before, the
    answer is the success descriptor exactly when the replacement
    changed what was read (the no-op descriptor otherwise), and
    [readFile] afterwards returns what was read with the replacement
    made. *)
Theorem updateFile_then_readFile (a : Agent.AutonomousCodingAgent) (w : Outside.World)
    (path find replace msg : string) :
  fst (Agent.updateFile a w path find replace) = Agent.Ok msg →
  ∃ src,
    fst (Agent.readFile a w path) = Agent.Ok src ∧
    msg = (if String.eqb (Agent.replaced src find replace) src
           then Agent.nothing_replaced path else Agent.updated path) ∧
    (msg = Agent.updated path ↔ Agent.replaced src find replace ≠ src) ∧
    Agent.readFile a (snd (Agent.updateFile a w path find replace)) path
    = (Agent.Ok (Agent.replaced src find replace),
       snd (Agent.updateFile a w path find replace)).
Proof.
  unfold Agent.readFile, Agent.updateFile.
  destruct (Agent.absPath a path) as [full|e]; [|done].
  destruct (GoOs.ReadFile (Outside.fs w) full) as [src|e] eqn:Hread; [|done].
  cbv zeta. intros Hrun. exists src. split; [done|]. revert Hrun.
  destruct (String.eqb (Agent.replaced src find replace) src) eqn:Heq.
  - apply eqb_eq in Heq. simpl. intros [= <-]. rewrite Hread, Heq.
    split; [done|]. split; [|done].
    split; [|done]. intros H. exfalso.
    by apply (nothing_replaced_not_updated path).
  - apply eqb_neq in Heq.
    destruct (GoOs.WriteFile (Outside.fs w) full _) as [fs1|e] eqn:Hw; [|done].
    simpl. intros [= <-]. split; [done|]. split; [done|].
    apply WriteFile_inv in Hw as (-> & Hnodir & Hname).
    by rewrite ReadFile_written.
Qed.

End FileToolsFrame.


Lemma updateFile_then_readFile_witness :
  fst (Agent.updateFile (lib := Small.lib) proj_agent ab_world "a.txt" "b" "c")
  = Agent.Ok (Agent.updated "a.txt") ∧
  Agent.replaced (lib := Small.lib) "ab" "b" "c" = "ac" ∧
  ∃ src,
    fst (Agent.readFile proj_agent ab_world "a.txt") = Agent.Ok src ∧
    Agent.updated "a.txt"
    = (if String.eqb (Agent.replaced (lib := Small.lib) src "b" "c") src
       then Agent.nothing_replaced "a.txt" else Agent.updated "a.txt") ∧
    (Agent.updated "a.txt" = Agent.updated "a.txt" ↔
     Agent.replaced (lib := Small.lib) src "b" "c" ≠ src) ∧
    Agent.readFile proj_agent
      (snd (Agent.updateFile (lib := Small.lib) proj_agent ab_world "a.txt" "b" "c")) "a.txt"
    = (Agent.Ok (Agent.replaced (lib := Small.lib) src "b" "c"),
       snd (Agent.updateFile (lib := Small.lib) proj_agent ab_world "a.txt" "b" "c")).
Proof.
  assert (fst (Agent.updateFile (lib := Small.lib) proj_agent ab_world "a.txt" "b" "c")
          = Agent.Ok (Agent.updated "a.txt")) as Hrun by (vm_compute; reflexivity).
  split; [exact Hrun|]. split; [vm_compute; reflexivity|].
  exact (updateFile_then_readFile (lib := Small.lib) proj_agent ab_world
           "a.txt" "b" "c" _ Hrun).
Defined.

(** ** The tools offered and the tools handled *)

Section Dispatch.
Context `{lib : GoLib} `{engine : GoRegexp.Engine} (env : Outside.Env).

Ltac dispatch_cases :=
  repeat match goal with
         | |- context [match ?x with _ => _ end] => destruct x eqn:?
         | |- context [if ?x then _ else _] => destruct x eqn:?
         end.

Lemma absPath_cases (a : Agent.AutonomousCodingAgent) (rel : string) :
  (∃ full, Agent.absPath a rel = Agent.Ok full) ∨
  Agent.absPath a rel = Agent.Err (Agent.ErrInvalidPath rel) ∨
  Agent.absPath a rel = Agent.Err (Agent.ErrEscapesProjectDir rel).
Proof. unfold Agent.absPath. dispatch_cases; eauto. Qed.

Lemma file_tools_known (a : Agent.AutonomousCodingAgent) (w : Outside.World)
    (path content find replace name : string) :
  fst (Agent.createFile a w path content) ≠ Agent.Err (Agent.ErrUnknownTool name) ∧
  fst (Agent.appendFile a w path content) ≠ Agent.Err (Agent.ErrUnknownTool name) ∧
  fst (Agent.updateFile a w path find replace) ≠ Agent.Err (Agent.ErrUnknownTool name) ∧
  fst (Agent.readFile a w path) ≠ Agent.Err (Agent.ErrUnknownTool name) ∧
  fst (Agent.listFiles a w) ≠ Agent.Err (Agent.ErrUnknownTool name) ∧
  fst (Agent.runShell env a w path) ≠ Agent.Err (Agent.ErrUnknownTool name).
Proof.
  unfold Agent.createFile, Agent.appendFile, Agent.updateFile, Agent.readFile,
    Agent.listFiles, Agent.runShell.
  destruct (absPath_cases a path) as [[full ->] | [ -> | -> ]];
    repeat split; dispatch_cases; simpl; discriminate.
Qed.

(** X5: [execTool] handles exactly the tools that [toolDefs] offers.
    For an offered name it never answers that the tool is unknown; for
    any other name that is its answer, and the world stays as it is. *)
Theorem execTool_handles_offered_tools (a : Agent.AutonomousCodingAgent) (w : Outside.World)
    (name jsonArgs : string) :
  offered_tools
  = ["create_file"; "append_file"; "update_file"; "read_file"; "list_files"; "run_shell"] ∧
  (name ∈ offered_tools ↔
   fst (Agent.execTool env a w name jsonArgs) ≠ Agent.Err (Agent.ErrUnknownTool name)) ∧
  (name ∉ offered_tools ↔
   Agent.execTool env a w name jsonArgs = (Agent.Err (Agent.ErrUnknownTool name), w)).
Proof.
  split; [reflexivity|].
  assert (name ∈ offered_tools →
          fst (Agent.execTool env a w name jsonArgs)
          ≠ Agent.Err (Agent.ErrUnknownTool name)) as Hin.
  { unfold offered_tools. cbn [map Agent.toolDefs Agent.DefName Agent.Function_].
    rewrite !elem_of_cons, elem_of_nil.
    intros [->|[->|[->|[->|[->|[->|[]]]]]]]; unfold Agent.execTool; cbn [String.eqb Ascii.eqb Bool.eqb orb];
      repeat match goal with
             | |- context [match ?x with _ => _ end] =>
                 lazymatch x with
                 | Agent.createFile _ _ _ _ => fail
                 | Agent.appendFile _ _ _ _ => fail
                 | Agent.updateFile _ _ _ _ _ => fail
                 | Agent.readFile _ _ _ => fail
                 | Agent.listFiles _ _ => fail
                 | Agent.runShell _ _ _ _ => fail
                 | _ => destruct x eqn:?
                 end
             | |- context [if ?x then _ else _] => destruct x eqn:?
             end;
      try (simpl; discriminate);
      eapply file_tools_known.
    all: exact "". }
  assert (name ∉ offered_tools →
          Agent.execTool env a w name jsonArgs
          = (Agent.Err (Agent.ErrUnknownTool name), w)) as Hout.
  { unfold offered_tools. cbn [map Agent.toolDefs Agent.DefName Agent.Function_].
    rewrite !not_elem_of_cons.
    intros (H1 & H2 & H3 & H4 & H5 & H6 & _). unfold Agent.execTool.
    by rewrite !(proj2 (eqb_neq _ _)). }
  split; split; [exact Hin| |exact Hout|].
  - intros Hknown. destruct (decide (name ∈ offered_tools)) as [|Hno]; [done|].
    apply Hout in Hno. rewrite Hno in Hknown. done.
  - intros Hrun Hyes. apply Hin in Hyes. by rewrite Hrun in Hyes.
Qed.

End Dispatch.

(** ** Arguments without a path *)

Lemma EqualFold_refl (s : string) : GoJson.EqualFold s s = true.
Proof.
  induction s as [|c s IH]; [done|]. simpl. rewrite IH.
  by rewrite (proj2 (Ascii.eqb_eq _ _) eq_refl).
Qed.

Lemma field_for_folds (fields : list string) (key f : string) :
  GoJson.field_for fields key = Some f → GoJson.EqualFold key f = true.
Proof.
  unfold GoJson.field_for.
  destruct (List.find (String.eqb key) fields) as [g|] eqn:Hexact.
  - intros [= <-]. apply List.find_some in Hexact as [_ Heq].
    apply eqb_eq in Heq as ->. apply EqualFold_refl.
  - intros Hfold. by apply List.find_some in Hfold as [_ Heq].
Qed.

Section MissingPath.
Context `{lib : GoLib} `{engine : GoRegexp.Engine} (env : Outside.Env).

(** X6: a call of a file tool whose arguments are a JSON object
    without a [path] member (in any spelling of upper and lower case)
    is refused, with the complaint about the empty path or, when
    another member has the wrong type, about the arguments, and the
    world stays as it is. *)
Theorem execTool_refuses_missing_path (a : Agent.AutonomousCodingAgent) (w : Outside.World)
    (name jsonArgs : string) (members : list (string * GoJson.Value)) :
  TrimSpace "" = "" →
  name ∈ ["create_file"; "append_file"; "update_file"; "read_file"] →
  json_parse jsonArgs = inl (GoJson.Object members) →
  (∀ k v, (k, v) ∈ members → GoJson.EqualFold k "path" = false) →
  ∃ e, Agent.execTool env a w name jsonArgs = (Agent.Err e, w) ∧
       (e = Agent.ErrEmptyPath name jsonArgs ∨
        ∃ cause, e = Agent.ErrInvalidJSON name cause jsonArgs).
Proof.
  intros Htrim Hname Hparse Hnone.
  assert (∀ fields p, Unmarshal fields jsonArgs = inl p →
          String.eqb (TrimSpace (GoJson.get p "path")) "" = true) as Hblank.
  { intros fields p. unfold Unmarshal. rewrite Hparse. intros Hdec.
    rewrite (decode_struct_absent fields members p "path" Hdec).
    - by rewrite Htrim.
    - intros k v Hin Hfield. apply field_for_folds in Hfield.
      by rewrite (Hnone k v Hin) in Hfield. }
  rewrite !elem_of_cons, elem_of_nil in Hname.
  destruct Hname as [->|[->|[->|[->|[]]]]]; unfold Agent.execTool;
    cbn [String.eqb Ascii.eqb Bool.eqb orb];
    match goal with |- context [Unmarshal ?fields jsonArgs] =>
      destruct (Unmarshal fields jsonArgs) as [p|cause] eqn:Hu;
        [rewrite (Hblank _ _ Hu)|]
    end; eauto.
Qed.

End MissingPath.

Lemma execTool_refuses_missing_path_witness :
  TrimSpace (GoLib := Small.lib) "" = "" ∧
  "create_file" ∈ ["create_file"; "append_file"; "update_file"; "read_file"] ∧
  json_parse (GoLib := Small.lib) (content_arguments "print(1)")
  = inl (GoJson.Object [("content", GoJson.Str "print(1)")]) ∧
  (∀ k v, (k, v) ∈ [("content", GoJson.Str "print(1)")] →
          GoJson.EqualFold k "path" = false) ∧
  Agent.execTool (lib := Small.lib) no_bash_env proj_agent proj_world "create_file"
    (content_arguments "print(1)")
  = (Agent.Err (Agent.ErrEmptyPath "create_file" (content_arguments "print(1)")),
     proj_world) ∧
  ∃ e, Agent.execTool (lib := Small.lib) no_bash_env proj_agent proj_world "create_file"
         (content_arguments "print(1)") = (Agent.Err e, proj_world) ∧
       (e = Agent.ErrEmptyPath "create_file" (content_arguments "print(1)") ∨
        ∃ cause, e = Agent.ErrInvalidJSON "create_file" cause (content_arguments "print(1)")).
Proof.
  assert (∀ k v, (k, v) ∈ [("content", GoJson.Str "print(1)")] →
                 GoJson.EqualFold k "path" = false) as Hnone.
  { intros k v [= -> _]%list_elem_of_singleton. reflexivity. }
  split; [reflexivity|]. split; [by left|]. split; [vm_compute; reflexivity|].
  split; [exact Hnone|]. split; [vm_compute; reflexivity|].
  apply (execTool_refuses_missing_path (lib := Small.lib) no_bash_env proj_agent proj_world
           "create_file" (content_arguments "print(1)")
           [("content", GoJson.Str "print(1)")]);
    [reflexivity|by left|vm_compute; reflexivity|exact Hnone].
Defined.

(** ** Tool calls and their answers *)

Lemma executed_app (t1 t2 : list Outside.Event) :
  executed (t1 ++ t2) = executed t1 ++ executed t2.
Proof. apply omap_app. Qed.

Section Answers.
Context `{lib : GoLib} `{engine : GoRegexp.Engine} (env : Outside.Env).

Lemma execTool_commands a w name jsonArgs :
  ∃ d, extends w (snd (Agent.execTool env a w name jsonArgs)) d ∧ silent d ∧
       Forall (bash_in (Agent.projectDir a)) (executed d).
Proof.
  unfold Agent.execTool, extends.
  repeat match goal with
         | |- context [match ?x with _ => _ end] => destruct x eqn:?
         | |- context [if ?x then _ else _] => destruct x eqn:?
         end;
    first [ exists []; split; [by rewrite List.app_nil_r|by split]
          | exists []; split; [rewrite List.app_nil_r|by split];
            first [apply createFile_trace | apply appendFile_trace
                  | apply updateFile_trace | apply readFile_trace
                  | apply listFiles_trace]
          | eexists; split; [apply runShell_trace|split; [reflexivity|]];
            repeat constructor; by eexists ].
Qed.

Lemma run_tool_call_answer a w msgs call :
  ∃ m d w',
    Agent.run_tool_call env (a, w, msgs) call
    = (Agent.set_ctx a (Agent.ctx a ++ [m]), w', msgs ++ [m]) ∧
    answers call m ∧ extends w w' d ∧ appended d = [m] ∧ requested d = [] ∧
    turns_begun d = [] ∧ Forall (bash_in (Agent.projectDir a)) (executed d).
Proof.
  unfold Agent.run_tool_call.
  destruct (String.eqb _ _).
  - destruct (Agent.execTool env a w _ _) as [r w1] eqn:He.
    destruct (execTool_commands a w (GoOpenAI.FunctionName call)
                (GoOpenAI.FunctionArguments call)) as (d & Hd & Hs & Hb).
    rewrite He in Hd. simpl in Hd.
    eexists _, (d ++ [Outside.Appended _]), _. split; [reflexivity|].
    split; [by repeat split|]. split.
    + unfold extends, Outside.emit. simpl. by rewrite Hd, (assoc_L (++)).
    + rewrite appended_app, requested_app, turns_begun_app, executed_app.
      rewrite silent_appended, silent_requested, silent_turns by done.
      simpl. by rewrite List.app_nil_r.
  - eexists _, [Outside.Appended _], _. split; [reflexivity|].
    split; [by repeat split|]. repeat split; try reflexivity. constructor.
Qed.

Lemma run_tool_calls_answer calls a w msgs :
  ∃ ms d w',
    fold_left (Agent.run_tool_call env) calls (a, w, msgs)
    = (Agent.set_ctx a (Agent.ctx a ++ ms), w', msgs ++ ms) ∧
    Forall2 answers calls ms ∧ extends w w' d ∧ appended d = ms ∧ requested d = [] ∧
    turns_begun d = [] ∧ Forall (bash_in (Agent.projectDir a)) (executed d).
Proof.
  revert a w msgs. induction calls as [|call calls IH]; intros a w msgs.
  - exists [], [], w. simpl. rewrite !List.app_nil_r, set_ctx_ctx.
    repeat split; try done. apply extends_refl.
  - cbn [fold_left].
    destruct (run_tool_call_answer a w msgs call)
      as (m & d1 & w1 & -> & Hm & He1 & Ha1 & Hr1 & Ht1 & Hb1).
    destruct (IH (Agent.set_ctx a (Agent.ctx a ++ [m])) w1 (msgs ++ [m]))
      as (ms & d2 & w2 & -> & Hms & He2 & Ha2 & Hr2 & Ht2 & Hb2).
    exists (m :: ms), (d1 ++ d2), w2. simpl.
    rewrite <- !(assoc_L (++)). simpl. split; [done|].
    split; [by constructor|]. split; [by eapply extends_trans|].
    rewrite appended_app, requested_app, turns_begun_app, executed_app.
    rewrite Ha1, Ha2, Hr1, Hr2, Ht1, Ht2. repeat split; try done.
    by apply Forall_app.
Qed.

(** X7: every tool call of a reply gets its answer.  When the reply
    of the chat service requests tool calls, the step does not end the
    chat; it stores the reply and after it one tool message for each
    call, in the order of the calls, that carries the id and the
    function name of its call -- whether the tool succeeded, failed or
    is of a type the agent does not support. *)
Theorem tool_calls_answered_in_order (step : nat) (a : Agent.AutonomousCodingAgent)
    (w : Outside.World) (msgs rest : list GoOpenAI.ChatCompletionMessage)
    (msg : GoOpenAI.ChatCompletionMessage) :
  Outside.CreateChatCompletion env (Outside.ticks w) msgs
  = inl {| GoOpenAI.Choices := msg :: rest |} →
  GoOpenAI.ToolCalls msg ≠ [] →
  ∃ a' w' msgs' ms d,
    Agent.chat_step env step a w msgs = Agent.Continue a' w' msgs' ∧
    Outside.trace w' = Outside.trace w ++ d ∧
    appended d = msg :: ms ∧
    Forall2 answers (GoOpenAI.ToolCalls msg) ms ∧
    requested d = [msgs].
Proof.
  intros Hresp Hcalls. unfold Agent.chat_step.
  cbn [Outside.ticks Outside.emit]. rewrite Hresp. cbn [GoOpenAI.Choices].
  unfold Agent.append_ctx.
  destruct (GoOpenAI.ToolCalls msg) as [|call calls] eqn:Htc; [done|].
  destruct (run_tool_calls_answer (call :: calls)
              (Agent.set_ctx a (Agent.ctx a ++ [msg]))
              (Outside.emit (Outside.tick (Outside.emit w (Outside.Requested msgs)))
                 (Outside.Appended msg))
              (msgs ++ [msg]))
    as (ms & d & w' & -> & Hms & He & Ha & Hr & Ht & Hb).
  destruct (Agent.trim_ctx _) as [a2 trimmed].
  eexists _, _, _, ms, ([Outside.Requested msgs; Outside.Appended msg] ++ d).
  split; [reflexivity|]. split.
  { rewrite He. simpl. by rewrite <- !(assoc_L (++)). }
  rewrite appended_app, requested_app, Ha, Hr. by repeat split.
Qed.

End Answers.

Lemma tool_calls_answered_in_order_witness :
  Outside.CreateChatCompletion tool_loop_env (Outside.ticks proj_world) [Agent.systemPrompt]
  = inl {| GoOpenAI.Choices :=
             [ {| GoOpenAI.Role := "assistant"; GoOpenAI.Content := "";
                  GoOpenAI.Name := ""; GoOpenAI.FunctionCall_ := None;
                  GoOpenAI.ToolCallID := "";
                  GoOpenAI.ToolCalls := [list_files_call] |} ] |} ∧
  [list_files_call] ≠ [] ∧
  ∃ a' w' msgs' ms d,
    Agent.chat_step (lib := Small.lib) tool_loop_env 0 proj_agent proj_world
      [Agent.systemPrompt] = Agent.Continue a' w' msgs' ∧
    Outside.trace w' = Outside.trace proj_world ++ d ∧
    appended d
    = {| GoOpenAI.Role := "assistant"; GoOpenAI.Content := "";
         GoOpenAI.Name := ""; GoOpenAI.FunctionCall_ := None;
         GoOpenAI.ToolCallID := "";
         GoOpenAI.ToolCalls := [list_files_call] |} :: ms ∧
    Forall2 answers [list_files_call] ms ∧
    requested d = [[Agent.systemPrompt]].
Proof.
  split; [reflexivity|]. split; [done|].
  apply (tool_calls_answered_in_order (lib := Small.lib) tool_loop_env 0 proj_agent
           proj_world [Agent.systemPrompt] []); [reflexivity|done].
Defined.

(** ** What a chat leaves behind *)

Section ChatFacts.
Context `{lib : GoLib} `{engine : GoRegexp.Engine} (env : Outside.Env).

Lemma keeps_config_trans a a1 a2 w w1 w2 :
  keeps_config a a1 w w1 → keeps_config a1 a2 w1 w2 → keeps_config a a2 w w2.
Proof.
  intros (Hp1 & Hm1 & d1 & He1 & Hb1) (Hp2 & Hm2 & d2 & He2 & Hb2).
  split; [congruence|]. split; [congruence|].
  exists (d1 ++ d2). split; [by eapply extends_trans|].
  rewrite executed_app. apply Forall_app. split; [done|]. by rewrite <- Hp1.
Qed.

Lemma trim_ctx_last a :
  Agent.projectDir (Agent.trim_ctx a).1 = Agent.projectDir a ∧
  Agent.maxCtxMessages (Agent.trim_ctx a).1 = Agent.maxCtxMessages a.
Proof. unfold Agent.trim_ctx. by destruct (_ <? _). Qed.

Lemma chat_step_more step a w msgs :
  match Agent.chat_step env step a w msgs with
  | Agent.Return r a' w' => keeps_config a a' w w' ∧ final_reply r a'
  | Agent.Continue a' w' _ => keeps_config a a' w w'
  end.
Proof.
  unfold Agent.chat_step.
  set (req := Outside.Requested msgs).
  assert (∀ a', Agent.projectDir a' = Agent.projectDir a →
                Agent.maxCtxMessages a' = Agent.maxCtxMessages a →
                keeps_config a a' w (Outside.tick (Outside.emit w req))) as Hquiet.
  { intros a' Hp Hm. split; [done|]. split; [done|]. exists [req]. split; [done|]. constructor. }
  destruct (Outside.CreateChatCompletion env _ _) as [resp|err].
  2:{ split; [by apply Hquiet|]. by intros reply. }
  destruct (GoOpenAI.Choices resp) as [|msg rest].
  { split; [by apply Hquiet|]. by intros reply. }
  unfold Agent.append_ctx.
  assert (keeps_config a (Agent.set_ctx a (Agent.ctx a ++ [msg])) w
            (Outside.emit (Outside.tick (Outside.emit w req)) (Outside.Appended msg)))
    as Hstored.
  { split; [done|]. split; [done|]. exists [req; Outside.Appended msg].
    split; [|constructor]. unfold extends. simpl. by rewrite <- (assoc_L (++)). }
  destruct (GoOpenAI.ToolCalls msg) as [|call calls] eqn:Htc.
  { destruct (String.eqb (GoOpenAI.Content msg) "") eqn:Hc.
    - split; [done|]. by intros reply.
    - split; [done|]. intros reply [= <-]. split; [by apply eqb_neq|].
      exists msg. simpl. by rewrite last_snoc. }
  destruct (run_tool_calls_answer env (call :: calls)
              (Agent.set_ctx a (Agent.ctx a ++ [msg]))
              (Outside.emit (Outside.tick (Outside.emit w req)) (Outside.Appended msg))
              (msgs ++ [msg]))
    as (ms & d & w' & -> & _ & He & _ & _ & _ & Hb).
  pose proof (trim_ctx_last
                (Agent.set_ctx (Agent.set_ctx a (Agent.ctx a ++ [msg]))
                   (Agent.ctx (Agent.set_ctx a (Agent.ctx a ++ [msg])) ++ ms))) as [Hp Hm].
  destruct (Agent.trim_ctx _) as [a2 trimmed]. simpl in Hp, Hm.
  eapply keeps_config_trans; [exact Hstored|].
  split; [done|]. split; [done|]. by exists d.
Qed.

Lemma chat_loop_more hops step a w msgs :
  keeps_config a (Agent.chat_loop env hops step a w msgs).1.2
    w (Agent.chat_loop env hops step a w msgs).2 ∧
  final_reply (Agent.chat_loop env hops step a w msgs).1.1
    (Agent.chat_loop env hops step a w msgs).1.2.
Proof.
  revert step a w msgs. induction hops as [|hops IH]; intros step a w msgs.
  { simpl. split; [|by intros reply].
    split; [done|]. split; [done|]. exists []. split; [apply extends_refl|constructor]. }
  cbn [Agent.chat_loop].
  pose proof (chat_step_more step a w msgs) as Hstep.
  destruct (Agent.chat_step env step a w msgs) as [r a1 w1|a1 w1 msgs1]; [done|].
  destruct (IH (S step) a1 w1 msgs1) as [Hk Hf].
  split; [by eapply keeps_config_trans|done].
Qed.

Lemma chat_more a w userPrompt :
  keeps_config a (Agent.chat env a w userPrompt).1.2 w (Agent.chat env a w userPrompt).2 ∧
  final_reply (Agent.chat env a w userPrompt).1.1 (Agent.chat env a w userPrompt).1.2.
Proof.
  unfold Agent.chat, Agent.append_ctx.
  set (user := {| GoOpenAI.Role := GoOpenAI.ChatMessageRoleUser;
                  GoOpenAI.Content := userPrompt; GoOpenAI.Name := "";
                  GoOpenAI.FunctionCall_ := None;
                  GoOpenAI.ToolCallID := ""; GoOpenAI.ToolCalls := [] |}).
  pose proof (trim_ctx_last (Agent.set_ctx a (Agent.ctx a ++ [user]))) as [Hp Hm].
  destruct (Agent.trim_ctx _) as [a1 trimmed]. simpl in Hp, Hm.
  destruct (chat_loop_more 10 0 a1 (Outside.emit w (Outside.Appended user))
              (Agent.systemPrompt :: Agent.ctx a1)) as [Hk Hf].
  split; [|done].
  eapply keeps_config_trans; [|exact Hk].
  split; [done|]. split; [done|]. exists [Outside.Appended user]. split; [done|constructor].
Qed.

(** X8: the reply of a chat.  When [chat] returns a reply, the reply
    is not empty and is the content of the last message of the stored
    history, an assistant message without tool calls. *)
Theorem chat_returns_last_message (a a' : Agent.AutonomousCodingAgent) (w w' : Outside.World)
    (userPrompt reply : string) :
  Agent.chat env a w userPrompt = (Agent.Ok reply, a', w') →
  reply ≠ "" ∧
  ∃ msg, last (Agent.ctx a') = Some msg ∧ GoOpenAI.Content msg = reply ∧
         GoOpenAI.ToolCalls msg = [].
Proof.
  intros Hrun. destruct (chat_more a w userPrompt) as [_ Hf].
  rewrite Hrun in Hf. by apply Hf.
Qed.

Lemma feedback_turns_more turns turn a w instruction :
  keeps_config a (Agent.feedback_turns env turns turn a w instruction).1.2
    w (Agent.feedback_turns env turns turn a w instruction).2.
Proof.
  revert turn a w instruction.
  induction turns as [|turns IH]; intros turn a w instruction.
  { split; [done|]. split; [done|]. exists []. split; [apply extends_refl|constructor]. }
  cbn [Agent.feedback_turns].
  assert (keeps_config a a w (Outside.emit w (Outside.Turn turn instruction))) as Hturn.
  { split; [done|]. split; [done|]. exists [Outside.Turn turn instruction].
    split; [done|constructor]. }
  destruct (chat_more a (Outside.emit w (Outside.Turn turn instruction)) instruction)
    as [Hchat _].
  destruct (Agent.chat env a _ instruction) as [[r a1] w1]. simpl in Hchat.
  pose proof (keeps_config_trans _ _ _ _ _ _ Hturn Hchat) as Hk1.
  destruct r as [assistantReply|e]; [|done].
  destruct (GoOs.IsDir _ _); [|done].
  assert (keeps_config a1 a1 w1 (Agent.runShell env a1 w1 Agent.testCommand).2) as Htest.
  { split; [done|]. split; [done|]. eexists. split; [apply runShell_trace|].
    repeat constructor. by eexists. }
  destruct (Agent.runShell env a1 w1 Agent.testCommand) as [r2 w2]. simpl in Htest.
  pose proof (keeps_config_trans _ _ _ _ _ _ Hk1 Htest) as Hk2.
  destruct (Agent.tests_passed _); [done|].
  eapply keeps_config_trans; [exact Hk2|apply IH].
Qed.

(** X9: where commands run.  Every command that a run of
    [feedbackLoop] executes -- for a [run_shell] call of the model or
    to run the tests -- is handed to [bash -c] with the project
    directory as its working directory; and the run changes neither
    the project directory nor the window size of the agent. *)
Theorem feedbackLoop_runs_bash_in_project (a a' : Agent.AutonomousCodingAgent)
    (w w' : Outside.World) (initialTask : string) (o : Agent.Outcome) :
  Agent.feedbackLoop env a w initialTask = (o, a', w') →
  Agent.projectDir a' = Agent.projectDir a ∧
  Agent.maxCtxMessages a' = Agent.maxCtxMessages a ∧
  ∃ d, Outside.trace w' = Outside.trace w ++ d ∧
       Forall (bash_in (Agent.projectDir a)) (executed d).
Proof.
  unfold Agent.feedbackLoop. intros Hrun.
  pose proof (feedback_turns_more 10 0 a w initialTask) as Hk.
  by rewrite Hrun in Hk.
Qed.

End ChatFacts.

Lemma chat_returns_last_message_witness :
  Agent.chat (lib := Small.lib) no_bash_env proj_agent proj_world "say hello"
  = (Agent.Ok "done",
     Agent.set_ctx proj_agent
       [user_message "say hello";
        {| GoOpenAI.Role := "assistant"; GoOpenAI.Content := "done";
           GoOpenAI.Name := ""; GoOpenAI.FunctionCall_ := None;
           GoOpenAI.ToolCallID := ""; GoOpenAI.ToolCalls := [] |}],
     (Agent.chat (lib := Small.lib) no_bash_env proj_agent proj_world "say hello").2) ∧
  "done" ≠ "" ∧
  ∃ msg,
    last (Agent.ctx
            (Agent.set_ctx proj_agent
               [user_message "say hello";
                {| GoOpenAI.Role := "assistant"; GoOpenAI.Content := "done";
                   GoOpenAI.Name := ""; GoOpenAI.FunctionCall_ := None;
                   GoOpenAI.ToolCallID := ""; GoOpenAI.ToolCalls := [] |}])) = Some msg ∧
    GoOpenAI.Content msg = "done" ∧ GoOpenAI.ToolCalls msg = [].
Proof.
  assert (Agent.chat (lib := Small.lib) no_bash_env proj_agent proj_world "say hello"
          = (Agent.Ok "done",
             Agent.set_ctx proj_agent
               [user_message "say hello";
                {| GoOpenAI.Role := "assistant"; GoOpenAI.Content := "done";
                   GoOpenAI.Name := ""; GoOpenAI.FunctionCall_ := None;
                   GoOpenAI.ToolCallID := ""; GoOpenAI.ToolCalls := [] |}],
             (Agent.chat (lib := Small.lib) no_bash_env proj_agent proj_world
                "say hello").2)) as Hrun.
  { vm_compute. reflexivity. }
  split; [exact Hrun|].
  exact (chat_returns_last_message (lib := Small.lib) no_bash_env _ _ _ _ _ _ Hrun).
Defined.

Lemma feedbackLoop_runs_bash_in_project_witness :
  let run := Agent.feedbackLoop (lib := Small.lib) failing_env proj_agent tests_world
               "make the tests pass" in
  executed (Outside.trace run.2)
  = replicate 10 ("/proj", ["bash"; "-c"; Agent.testCommand]) ∧
  Agent.projectDir run.1.2 = Agent.projectDir proj_agent ∧
  Agent.maxCtxMessages run.1.2 = Agent.maxCtxMessages proj_agent ∧
  ∃ d, Outside.trace run.2 = Outside.trace tests_world ++ d ∧
       Forall (bash_in (Agent.projectDir proj_agent)) (executed d).
Proof.
  intros run. split; [vm_compute; reflexivity|].
  apply (feedbackLoop_runs_bash_in_project (lib := Small.lib) failing_env proj_agent run.1.2
           tests_world run.2 "make the tests pass" run.1.1).
  subst run. by destruct (Agent.feedbackLoop _ _ _ _) as [[o a'] w'].
Defined.

(** ** A chat that fails, and the first turn of the feedback loop *)

Section FirstTurn.
Context `{lib : GoLib} `{engine : GoRegexp.Engine} (env : Outside.Env).

Lemma trim_ctx_lastn (a : Agent.AutonomousCodingAgent) :
  (Agent.trim_ctx a).1 = Agent.set_ctx a (lastn (Agent.maxCtxMessages a) (Agent.ctx a)).
Proof.
  unfold Agent.trim_ctx, lastn.
  destruct (Agent.maxCtxMessages a <? length (Agent.ctx a)) eqn:Hlt; [done|].
  apply Nat.ltb_ge in Hlt. simpl.
  replace (length (Agent.ctx a) - Agent.maxCtxMessages a) with 0 by lia.
  by rewrite set_ctx_ctx.
Qed.

(** The start of [chat] up to its first request. *)
Lemma chat_first_step (a : Agent.AutonomousCodingAgent) (w : Outside.World)
    (userPrompt : string) :
  Agent.chat env a w userPrompt
  = let a1 := Agent.set_ctx a (lastn (Agent.maxCtxMessages a)
                                 (Agent.ctx a ++ [user_message userPrompt])) in
    let w1 := Outside.emit w (Outside.Appended (user_message userPrompt)) in
    match Agent.chat_step env 0 a1 w1 (first_request a userPrompt) with
    | Agent.Return r a' w' => (r, a', w')
    | Agent.Continue a' w' msgs => Agent.chat_loop env 9 1 a' w' msgs
    end.
Proof.
  unfold Agent.chat, Agent.append_ctx. fold (user_message userPrompt).
  pose proof (trim_ctx_lastn (Agent.set_ctx a (Agent.ctx a ++ [user_message userPrompt])))
    as Htrim.
  destruct (Agent.trim_ctx _) as [a1 trimmed]. simpl in Htrim. subst a1.
  reflexivity.
Qed.

(** X10: no rollback.  When the first request of a chat fails, [chat]
    returns the error of step 1, and the prompt stays in the stored
    history as its last message (the history is the window of the
    former history with the prompt); the file system is untouched. *)
Theorem chat_failure_keeps_prompt (a : Agent.AutonomousCodingAgent) (w : Outside.World)
    (userPrompt err : string) :
  Outside.CreateChatCompletion env (Outside.ticks w) (first_request a userPrompt) = inr err →
  ∃ a' w',
    Agent.chat env a w userPrompt
    = (Agent.Err (Agent.ErrCreateChatCompletion 1 err), a', w') ∧
    Agent.ctx a'
    = lastn (Agent.maxCtxMessages a) (Agent.ctx a ++ [user_message userPrompt]) ∧
    (0 < Agent.maxCtxMessages a → last (Agent.ctx a') = Some (user_message userPrompt)) ∧
    Outside.fs w' = Outside.fs w ∧
    requested (Outside.trace w') = requested (Outside.trace w) ++ [first_request a userPrompt].
Proof.
  intros Hfail. rewrite chat_first_step. cbv zeta. unfold Agent.chat_step.
  cbn [Outside.ticks Outside.emit]. rewrite Hfail.
  eexists _, _. split; [reflexivity|]. split; [done|]. split.
  - intros Hmax. simpl. unfold lastn. rewrite length_app. simpl.
    rewrite drop_app_le by lia. apply last_snoc.
  - split; [done|]. simpl. unfold requested. rewrite !omap_app. simpl.
    by rewrite List.app_nil_r.
Qed.

(** X11: a task without tests.  When the model answers the first
    request with a text and no tool call, and the project has no
    [tests] directory, [feedbackLoop] ends after this one turn with
    that outcome: one request made, no command run, the file system
    untouched, and the history holds the task and the answer. *)
Theorem feedbackLoop_without_tests (a : Agent.AutonomousCodingAgent) (w : Outside.World)
    (initialTask : string) (msg : GoOpenAI.ChatCompletionMessage)
    (rest : list GoOpenAI.ChatCompletionMessage) :
  Outside.CreateChatCompletion env (Outside.ticks w) (first_request a initialTask)
  = inl {| GoOpenAI.Choices := msg :: rest |} →
  GoOpenAI.ToolCalls msg = [] → GoOpenAI.Content msg ≠ "" →
  GoOs.IsDir (Outside.fs w) (GoFilepath.Join [Agent.projectDir a; "tests"]) = false →
  ∃ a' w',
    Agent.feedbackLoop env a w initialTask = (Agent.NoTestsDirectory, a', w') ∧
    Agent.ctx a'
    = lastn (Agent.maxCtxMessages a) (Agent.ctx a ++ [user_message initialTask]) ++ [msg] ∧
    Outside.fs w' = Outside.fs w ∧
    Outside.trace w'
    = Outside.trace w ++
      [Outside.Turn 0 initialTask; Outside.Appended (user_message initialTask);
       Outside.Requested (first_request a initialTask); Outside.Appended msg].
Proof.
  intros Hresp Hcalls Hcontent Hdir.
  unfold Agent.feedbackLoop. cbn [Agent.feedback_turns].
  rewrite chat_first_step. cbv zeta. unfold Agent.chat_step, Agent.append_ctx.
  cbn [Outside.ticks Outside.emit]. rewrite Hresp. cbn [GoOpenAI.Choices].
  rewrite Hcalls, (proj2 (eqb_neq _ _) Hcontent).
  cbn [Agent.projectDir Agent.set_ctx Outside.fs Outside.emit Outside.tick].
  rewrite Hdir. eexists _, _. split; [reflexivity|]. split; [done|]. split; [done|].
  simpl. by rewrite <- !(assoc_L (++)).
Qed.

(** X12: a task whose tests pass.  When the model answers the first
    request with a text and no tool call, the project has a [tests]
    directory and the output of the test run classifies as passed,
    [feedbackLoop] ends after this one turn with that outcome, having
    run one command: the test command, by [bash -c], in the project
    directory. *)
Theorem feedbackLoop_tests_pass (a : Agent.AutonomousCodingAgent) (w : Outside.World)
    (initialTask : string) (msg : GoOpenAI.ChatCompletionMessage)
    (rest : list GoOpenAI.ChatCompletionMessage) :
  Outside.CreateChatCompletion env (Outside.ticks w) (first_request a initialTask)
  = inl {| GoOpenAI.Choices := msg :: rest |} →
  GoOpenAI.ToolCalls msg = [] → GoOpenAI.Content msg ≠ "" →
  GoOs.IsDir (Outside.fs w) (GoFilepath.Join [Agent.projectDir a; "tests"]) = true →
  (let c := (Outside.exec env (S (Outside.ticks w)) (Agent.projectDir a)
               ["bash"; "-c"; Agent.testCommand] (Outside.fs w)).1 in
   Outside.Failure c = None ∧ Agent.tests_passed (TrimSpace (Outside.Output c)) = true) →
  ∃ a' w',
    Agent.feedbackLoop env a w initialTask = (Agent.TestsPassed, a', w') ∧
    requested (Outside.trace w')
    = requested (Outside.trace w) ++ [first_request a initialTask] ∧
    executed (Outside.trace w')
    = executed (Outside.trace w)
      ++ [(Agent.projectDir a, ["bash"; "-c"; Agent.testCommand])].
Proof.
  intros Hresp Hcalls Hcontent Hdir Htests.
  unfold Agent.feedbackLoop. cbn [Agent.feedback_turns].
  rewrite chat_first_step. cbv zeta. unfold Agent.chat_step, Agent.append_ctx.
  cbn [Outside.ticks Outside.emit]. rewrite Hresp. cbn [GoOpenAI.Choices].
  rewrite Hcalls, (proj2 (eqb_neq _ _) Hcontent).
  cbn [Agent.projectDir Agent.set_ctx Outside.fs Outside.emit Outside.tick].
  rewrite Hdir. unfold Agent.runShell.
  cbn [Outside.ticks Outside.emit Outside.tick Outside.fs Agent.projectDir Agent.set_ctx].
  cbv zeta in Htests.
  destruct (Outside.exec env _ _ _ _) as [c fs']. simpl in Htests.
  destruct Htests as [-> ->].
  eexists _, _. split; [reflexivity|].
  cbn [Outside.trace Outside.tick Outside.set_fs Outside.emit].
  unfold requested, executed. rewrite !omap_app. simpl.
  by rewrite !List.app_nil_r.
Qed.

End FirstTurn.

Lemma chat_failure_keeps_prompt_witness :
  Outside.CreateChatCompletion down_env (Outside.ticks proj_world)
    (first_request proj_agent "add a test") = inr "connection refused" ∧
  ∃ a' w',
    Agent.chat (lib := Small.lib) down_env proj_agent proj_world "add a test"
    = (Agent.Err (Agent.ErrCreateChatCompletion 1 "connection refused"), a', w') ∧
    Agent.ctx a'
    = lastn (Agent.maxCtxMessages proj_agent)
        (Agent.ctx proj_agent ++ [user_message "add a test"]) ∧
    (0 < Agent.maxCtxMessages proj_agent →
     last (Agent.ctx a') = Some (user_message "add a test")) ∧
    Outside.fs w' = Outside.fs proj_world ∧
    requested (Outside.trace w')
    = requested (Outside.trace proj_world) ++ [first_request proj_agent "add a test"].
Proof.
  split; [reflexivity|].
  apply (chat_failure_keeps_prompt (lib := Small.lib) down_env proj_agent proj_world
           "add a test" "connection refused").
  reflexivity.
Defined.

Lemma feedbackLoop_without_tests_witness :
  Outside.CreateChatCompletion no_bash_env (Outside.ticks proj_world)
    (first_request proj_agent "write a.txt") = plain_reply ∧
  GoOs.IsDir (Outside.fs proj_world) (GoFilepath.Join [Agent.projectDir proj_agent; "tests"])
  = false ∧
  ∃ a' w',
    Agent.feedbackLoop (lib := Small.lib) no_bash_env proj_agent proj_world "write a.txt"
    = (Agent.NoTestsDirectory, a', w') ∧
    Agent.ctx a'
    = lastn (Agent.maxCtxMessages proj_agent)
        (Agent.ctx proj_agent ++ [user_message "write a.txt"])
      ++ [ {| GoOpenAI.Role := "assistant"; GoOpenAI.Content := "done";
              GoOpenAI.Name := ""; GoOpenAI.FunctionCall_ := None;
              GoOpenAI.ToolCallID := ""; GoOpenAI.ToolCalls := [] |} ] ∧
    Outside.fs w' = Outside.fs proj_world ∧
    Outside.trace w'
    = Outside.trace proj_world ++
      [Outside.Turn 0 "write a.txt"; Outside.Appended (user_message "write a.txt");
       Outside.Requested (first_request proj_agent "write a.txt");
       Outside.Appended
         {| GoOpenAI.Role := "assistant"; GoOpenAI.Content := "done";
            GoOpenAI.Name := ""; GoOpenAI.FunctionCall_ := None;
            GoOpenAI.ToolCallID := ""; GoOpenAI.ToolCalls := [] |}].
Proof.
  split; [reflexivity|]. split; [vm_compute; reflexivity|].
  apply (feedbackLoop_without_tests (lib := Small.lib) no_bash_env proj_agent proj_world
           "write a.txt" _ []);
    [reflexivity|reflexivity|discriminate|vm_compute; reflexivity].
Defined.

Lemma feedbackLoop_tests_pass_witness :
  Outside.CreateChatCompletion passing_env (Outside.ticks tests_world)
    (first_request proj_agent "fix the bug") = plain_reply ∧
  GoOs.IsDir (Outside.fs tests_world) (GoFilepath.Join [Agent.projectDir proj_agent; "tests"])
  = true ∧
  Agent.tests_passed (lib := Small.lib)
    (TrimSpace (GoLib := Small.lib) "2 passed in 0.02s") = true ∧
  ∃ a' w',
    Agent.feedbackLoop (lib := Small.lib) passing_env proj_agent tests_world "fix the bug"
    = (Agent.TestsPassed, a', w') ∧
    requested (Outside.trace w')
    = requested (Outside.trace tests_world) ++ [first_request proj_agent "fix the bug"] ∧
    executed (Outside.trace w')
    = executed (Outside.trace tests_world)
      ++ [(Agent.projectDir proj_agent, ["bash"; "-c"; Agent.testCommand])].
Proof.
  split; [reflexivity|]. split; [vm_compute; reflexivity|].
  split; [vm_compute; reflexivity|].
  apply (feedbackLoop_tests_pass (lib := Small.lib) passing_env proj_agent tests_world
           "fix the bug"
           {| GoOpenAI.Role := "assistant"; GoOpenAI.Content := "done";
              GoOpenAI.Name := ""; GoOpenAI.FunctionCall_ := None;
              GoOpenAI.ToolCallID := ""; GoOpenAI.ToolCalls := [] |} []);
    [reflexivity|reflexivity|discriminate|vm_compute; reflexivity|].
  split; [reflexivity|vm_compute; reflexivity].
Defined.

(** ** More of [zug.go] and of the port *)

Section ZugMore.
Context `{lib : GoLib}.
Variable env : Outside.Env.

Lemma Zug_createFile_trace a w relPath content :
  Outside.trace (Zug.createFile a w relPath content).2 = Outside.trace w.
Proof.
  unfold Zug.createFile.
  destruct (GoOs.MkdirAll _ _); [|done]. by destruct (GoOs.WriteFile _ _ _).
Qed.

Lemma Zug_appendFile_trace a w relPath content :
  Outside.trace (Zug.appendFile a w relPath content).2 = Outside.trace w.
Proof. unfold Zug.appendFile. by destruct (GoOs.AppendString _ _ _). Qed.

(** X13: what [askModel] of [zug.go] sends and what it keeps.  Every
    call sends one request: the system message, the stored history and
    the prompt.  It stores at most the reply of the model: the prompt
    is not kept, and nothing is ever dropped from the history. *)
Theorem Zug_askModel_sends_and_stores (a : Zug.AutonomousCodingAgent) (w : Outside.World)
    (prompt : string) :
  let request := [Zug.systemMessage] ++ Zug.context a ++ [user_message prompt] in
  let run := Zug.askModel env a w prompt in
  requested (Outside.trace run.2) = requested (Outside.trace w) ++ [request] ∧
  Zug.projectDir run.1.2 = Zug.projectDir a ∧
  match Outside.CreateChatCompletion env (Outside.ticks w) request with
  | inl {| GoOpenAI.Choices := choice :: _ |} =>
      Zug.context run.1.2 = Zug.context a ++ [choice]
  | _ => Zug.context run.1.2 = Zug.context a
  end.
Proof.
  cbv zeta. unfold Zug.askModel. fold (user_message prompt).
  cbn [Outside.ticks Outside.emit].
  destruct (Outside.CreateChatCompletion env _ _) as [[[|choice rest]]|err];
    cbn [GoOpenAI.Choices];
    try (split; [|done]; simpl; unfold requested; rewrite omap_app; reflexivity).
  assert (requested (Outside.trace
            (Outside.emit (Outside.tick (Outside.emit w (Outside.Requested
               ([Zug.systemMessage] ++ Zug.context a ++ [user_message prompt]))))
               (Outside.Appended choice)))
          = requested (Outside.trace w)
            ++ [[Zug.systemMessage] ++ Zug.context a ++ [user_message prompt]]) as Hreq.
  { simpl. unfold requested. rewrite !omap_app. simpl. by rewrite List.app_nil_r. }
  destruct (GoOpenAI.FunctionCall_ choice) as [call|]; [|by split].
  destruct (Unmarshal _ _) as [args|e]; [|by split].
  destruct (String.eqb _ "create_file").
  { pose proof (Zug_createFile_trace (Zug.set_context a (Zug.context a ++ [choice]))
                  (Outside.emit (Outside.tick (Outside.emit w (Outside.Requested
                     ([Zug.systemMessage] ++ Zug.context a ++ [user_message prompt]))))
                     (Outside.Appended choice))
                  (GoJson.get args "path") (GoJson.get args "content")) as Ht.
    destruct (Zug.createFile _ _ _ _) as [r w1]. cbn [fst snd] in Ht |- *.
    by rewrite Ht, Hreq. }
  destruct (String.eqb _ "append_file"); [|by split].
  pose proof (Zug_appendFile_trace (Zug.set_context a (Zug.context a ++ [choice]))
                (Outside.emit (Outside.tick (Outside.emit w (Outside.Requested
                   ([Zug.systemMessage] ++ Zug.context a ++ [user_message prompt]))))
                   (Outside.Appended choice))
                (GoJson.get args "path") (GoJson.get args "content")) as Ht.
  destruct (Zug.appendFile _ _ _ _) as [r w1]. cbn [fst snd] in Ht |- *.
  by rewrite Ht, Hreq.
Qed.

(** X14: [createFile] of [zug.go] checks no path.  When it succeeds
    the content is in the file [filepath.Join(projectDir, relPath)],
    whatever [relPath] is -- also a path that leaves the project
    directory -- and the answer names that file. *)
Theorem Zug_createFile_writes_joined_path (a : Zug.AutonomousCodingAgent)
    (w w1 : Outside.World) (relPath content msg : string) :
  Zug.createFile a w relPath content = (inl msg, w1) →
  msg = "File created: " +:+ GoFilepath.Join [Zug.projectDir a; relPath] ∧
  GoOs.ReadFile (Outside.fs w1) (GoFilepath.Join [Zug.projectDir a; relPath]) = inl content.
Proof.
  unfold Zug.createFile. cbv zeta.
  destruct (GoOs.MkdirAll _ _) as [fs1|e]; [|done].
  destruct (GoOs.WriteFile fs1 _ content) as [fs2|e] eqn:Hw; [|done].
  intros [= <- <-]. split; [done|].
  apply WriteFile_inv in Hw as (-> & Hdir & Hname). simpl.
  by apply ReadFile_written.
Qed.

End ZugMore.

Section PortMore.
Context `{lib : GoLib}.
Variable env : Outside.Env.

(** X16: the port checks the arguments before the name.  A function
    call whose arguments decode to a map in which [path] or [content]
    is missing or is no string is answered with the invalid-arguments
    error, whatever function it names; the reply is in the history by
    then (as the copy without name and tool fields), and no file is
    touched. *)
Theorem ZugPort_askModel_checks_arguments_first (a : ZugPort.AutonomousCodingAgent)
    (w : Outside.World) (prompt : string) (message : GoOpenAI.ChatCompletionMessage)
    (rest : list GoOpenAI.ChatCompletionMessage) (call : GoOpenAI.FunctionCall)
    (args : gmap string GoJson.Value) :
  Outside.CreateChatCompletion env (Outside.ticks w)
    ([ZugPort.systemMessage] ++ ZugPort.Context a ++ [user_message prompt])
  = inl {| GoOpenAI.Choices := message :: rest |} →
  GoOpenAI.FunctionCall_ message = Some call →
  UnmarshalMap (GoOpenAI.CallArguments call) = inl args →
  (GoJson.as_string (args !! "path")).2 = false ∨
  (GoJson.as_string (args !! "content")).2 = false →
  ∃ w',
    ZugPort.askModel env a w prompt
    = (inr (ZugPort.ErrInvalidArguments (GoOpenAI.CallName call)),
       ZugPort.set_Context a (ZugPort.Context a ++ [stored_copy message]), w') ∧
    Outside.fs w' = Outside.fs w.
Proof.
  intros Hresp Hcall Hargs Hbad. unfold ZugPort.askModel. fold (user_message prompt).
  cbn [Outside.ticks Outside.emit]. rewrite Hresp. cbn [GoOpenAI.Choices].
  unfold stored_copy. rewrite Hcall, Hargs.
  destruct (GoJson.as_string (args !! "path")) as [path pathOk].
  destruct (GoJson.as_string (args !! "content")) as [content contentOk].
  simpl in Hbad.
  assert (negb pathOk || negb contentOk = true) as ->
    by (destruct Hbad as [-> | ->]; [done|by rewrite orb_true_r]).
  eexists. split; reflexivity.
Qed.

(** X17: the port after an error of the chat service.  The round ends
    without a command and the loop goes on: with more than five
    messages in the history the history is emptied and the next prompt
    is the task itself, otherwise the history stays and the next
    prompt quotes the error and the task. *)
Theorem ZugPort_round_after_error (instruction : string)
    (a : ZugPort.AutonomousCodingAgent) (w : Outside.World)
    (currentInstruction err : string) :
  Outside.CreateChatCompletion env (Outside.ticks w)
    ([ZugPort.systemMessage] ++ ZugPort.Context a ++ [user_message currentInstruction])
  = inr err →
  ∃ w',
    ZugPort.feedback_round env instruction a w currentInstruction
    = (if 5 <? length (ZugPort.Context a)
       then ZugPort.Again (ZugPort.set_Context a []) w' instruction
       else ZugPort.Again a w'
              ("The previous attempt to get a response failed with: chat completion error: "
               +:+ err
               +:+ ". Please try again, or suggest a different approach to achieve: "
               +:+ instruction)) ∧
    Outside.fs w' = Outside.fs w ∧ executed (Outside.trace w') = executed (Outside.trace w).
Proof.
  intros Hresp. unfold ZugPort.feedback_round, ZugPort.askModel.
  fold (user_message currentInstruction).
  cbn [Outside.ticks Outside.emit]. rewrite Hresp.
  eexists. split; [reflexivity|]. split; [done|].
  simpl. unfold executed. rewrite omap_app. simpl. by rewrite List.app_nil_r.
Qed.

(** X18: when the port runs the tests.  After an answer in text the
    port runs the test command whenever the project has an entry named
    [tests], a regular file as well as a directory; the command is
    started directly, from the fields of the command line, in the
    project directory. *)
Theorem ZugPort_tests_run_for_any_entry (instruction : string)
    (a : ZugPort.AutonomousCodingAgent) (w : Outside.World) (currentInstruction : string)
    (message : GoOpenAI.ChatCompletionMessage) (rest : list GoOpenAI.ChatCompletionMessage)
    (node : GoOs.node) (name : string) (args : list string) :
  Outside.CreateChatCompletion env (Outside.ticks w)
    ([ZugPort.systemMessage] ++ ZugPort.Context a ++ [user_message currentInstruction])
  = inl {| GoOpenAI.Choices := message :: rest |} →
  GoOpenAI.FunctionCall_ message = None →
  GoOs.lookup (Outside.fs w) (GoFilepath.Join [ZugPort.ProjectDir a; "tests"]) = Some node →
  Fields ZugPort.testCommand = name :: args →
  executed (Outside.trace
              (round_world (ZugPort.feedback_round env instruction a w currentInstruction)))
  = executed (Outside.trace w) ++ [(ZugPort.ProjectDir a, name :: args)].
Proof.
  intros Hresp Hcall Hnode Hfields. unfold ZugPort.feedback_round, ZugPort.askModel.
  fold (user_message currentInstruction).
  cbn [Outside.ticks Outside.emit]. rewrite Hresp. cbn [GoOpenAI.Choices].
  rewrite Hcall.
  cbn [ZugPort.ProjectDir ZugPort.set_Context Outside.fs Outside.emit Outside.tick].
  unfold GoOs.Stat. rewrite Hnode. cbn [GoOs.IsNotExist negb].
  unfold ZugPort.runShell. rewrite Hfields.
  cbn [Outside.ticks Outside.emit Outside.tick Outside.fs ZugPort.ProjectDir
       ZugPort.set_Context].
  destruct (Outside.exec env _ _ _ _) as [c fs'].
  destruct (Outside.Failure c); [|destruct (ZugPort.tests_passed _)];
    simpl; unfold executed; rewrite !omap_app; simpl; by rewrite !List.app_nil_r.
Qed.

End PortMore.

(** ** An answer without choices *)

Section NoChoices.
Context `{lib : GoLib} `{engine : GoRegexp.Engine}.
Variable env : Outside.Env.

Lemma ZugPort_mute_round instruction a w currentInstruction :
  no_choices env →
  ∃ a1 w1 instruction1,
    ZugPort.feedback_round env instruction a w currentInstruction
    = ZugPort.Again a1 w1 instruction1.
Proof.
  intros Hmute. unfold ZugPort.feedback_round, ZugPort.askModel.
  rewrite Hmute. cbn [GoOpenAI.Choices].
  destruct (5 <? length (ZugPort.Context a)); eauto.
Qed.

(** X19: an answer of the chat service without choices, in the three
    variants.  [zug.go] indexes the first choice and panics, which
    ends its feedback loop; the port takes it for an error and asks
    again, without end; the tool-calling agent gives the task up with
    the error of the empty choices, after one request. *)
Theorem empty_choices_in_the_variants (z : Zug.AutonomousCodingAgent)
    (p : ZugPort.AutonomousCodingAgent) (a : Agent.AutonomousCodingAgent)
    (w : Outside.World) (task : string) :
  no_choices env →
  (∃ w', Zug.feedbackLoop env z w task (Zug.Crashed Outside.index_out_of_range) z w') ∧
  (∀ o p' w', ¬ ZugPort.feedbackLoop env task p w task o p' w') ∧
  (Agent.feedbackLoop env a w task).1.1 = Agent.ChatFailed Agent.ErrEmptyChoices ∧
  length (requested (Outside.trace (Agent.feedbackLoop env a w task).2))
  = S (length (requested (Outside.trace w))).
Proof.
  intros Hmute. split; [|split].
  - eexists. apply Zug.feedbackLoop_done.
    unfold Zug.feedback_round, Zug.askModel. rewrite Hmute. reflexivity.
  - intros o p' w' Hloop.
    induction Hloop as [p w i o p' w' Hdone|p w i p1 w1 i1 o p' w' Hagain Hloop IH];
      [|done].
    destruct (ZugPort_mute_round task p w i Hmute) as (p1 & w1 & i1 & Hround).
    congruence.
  - unfold Agent.feedbackLoop. cbn [Agent.feedback_turns].
    rewrite (chat_first_step env). cbv zeta. unfold Agent.chat_step.
    rewrite Hmute. cbn [GoOpenAI.Choices]. split; [done|].
    simpl. unfold requested. rewrite !omap_app, !length_app. simpl. lia.
Qed.

End NoChoices.

Lemma Zug_createFile_writes_joined_path_witness :
  Zug.createFile {| Zug.projectDir := "project"; Zug.context := [] |}
    {| Outside.fs := <["project" := GoOs.Dir]> ∅; Outside.ticks := 0;
       Outside.trace := []; Outside.writes := [] |}
    "../notes.txt" "x"
  = (inl "File created: notes.txt",
     {| Outside.fs := <["notes.txt" := GoOs.File "x"]> (<["project" := GoOs.Dir]> ∅);
        Outside.ticks := 0; Outside.trace := [];
        Outside.writes := [("notes.txt", "x")] |}) ∧
  GoFilepath.Join ["project"; "../notes.txt"] = "notes.txt" ∧
  "File created: notes.txt"
  = "File created: " +:+ GoFilepath.Join ["project"; "../notes.txt"] ∧
  GoOs.ReadFile (<["notes.txt" := GoOs.File "x"]> (<["project" := GoOs.Dir]> ∅))
    (GoFilepath.Join ["project"; "../notes.txt"]) = inl "x".
Proof.
  assert (Zug.createFile {| Zug.projectDir := "project"; Zug.context := [] |}
            {| Outside.fs := <["project" := GoOs.Dir]> ∅; Outside.ticks := 0;
               Outside.trace := []; Outside.writes := [] |} "../notes.txt" "x"
          = (inl "File created: notes.txt",
             {| Outside.fs := <["notes.txt" := GoOs.File "x"]> (<["project" := GoOs.Dir]> ∅);
                Outside.ticks := 0; Outside.trace := [];
                Outside.writes := [("notes.txt", "x")] |})) as Hrun.
  { vm_compute. reflexivity. }
  split; [exact Hrun|]. split; [vm_compute; reflexivity|].
  exact (Zug_createFile_writes_joined_path _ _ _ _ _ _ Hrun).
Defined.

Lemma ZugPort_askModel_checks_arguments_first_witness :
  UnmarshalMap (lib := Small.lib) (path_arguments "a.txt")
  = inl {["path" := GoJson.Str "a.txt"]} ∧
  (GoJson.as_string (({["path" := GoJson.Str "a.txt"]} : gmap string GoJson.Value)
                       !! "content")).2 = false ∧
  ∃ w',
    ZugPort.askModel (lib := Small.lib) create_call_env
      {| ZugPort.ProjectDir := "/proj"; ZugPort.Context := [] |} proj_world "make a.txt"
    = (inr (ZugPort.ErrInvalidArguments "create_file"),
       ZugPort.set_Context {| ZugPort.ProjectDir := "/proj"; ZugPort.Context := [] |}
         ([] ++ [stored_copy create_call]), w') ∧
    Outside.fs w' = Outside.fs proj_world.
Proof.
  assert (UnmarshalMap (lib := Small.lib) (path_arguments "a.txt")
          = inl {["path" := GoJson.Str "a.txt"]}) as Hargs by (vm_compute; reflexivity).
  split; [exact Hargs|]. split; [vm_compute; reflexivity|].
  apply (ZugPort_askModel_checks_arguments_first (lib := Small.lib) create_call_env
           {| ZugPort.ProjectDir := "/proj"; ZugPort.Context := [] |} proj_world
           "make a.txt" create_call []
           {| GoOpenAI.CallName := "create_file";
              GoOpenAI.CallArguments := path_arguments "a.txt" |}
           {["path" := GoJson.Str "a.txt"]});
    [reflexivity|reflexivity|exact Hargs|right; vm_compute; reflexivity].
Defined.

Lemma ZugPort_round_after_error_witness :
  Outside.CreateChatCompletion down_env (Outside.ticks proj_world)
    ([ZugPort.systemMessage] ++ [] ++ [user_message "build it"]) = inr "connection refused" ∧
  ∃ w',
    ZugPort.feedback_round (lib := Small.lib) down_env "build it"
      {| ZugPort.ProjectDir := "/proj"; ZugPort.Context := [] |} proj_world "build it"
    = (if 5 <? length (ZugPort.Context
                         {| ZugPort.ProjectDir := "/proj"; ZugPort.Context := [] |})
       then ZugPort.Again
              (ZugPort.set_Context {| ZugPort.ProjectDir := "/proj"; ZugPort.Context := [] |} [])
              w' "build it"
       else ZugPort.Again {| ZugPort.ProjectDir := "/proj"; ZugPort.Context := [] |} w'
              ("The previous attempt to get a response failed with: chat completion error: "
               +:+ "connection refused"
               +:+ ". Please try again, or suggest a different approach to achieve: "
               +:+ "build it")) ∧
    Outside.fs w' = Outside.fs proj_world ∧
    executed (Outside.trace w') = executed (Outside.trace proj_world).
Proof.
  split; [reflexivity|].
  apply (ZugPort_round_after_error (lib := Small.lib) down_env "build it"
           {| ZugPort.ProjectDir := "/proj"; ZugPort.Context := [] |} proj_world
           "build it" "connection refused").
  reflexivity.
Defined.

Lemma ZugPort_tests_run_for_any_entry_witness :
  GoOs.lookup (Outside.fs tests_file_world) (GoFilepath.Join ["/proj"; "tests"])
  = Some (GoOs.File "notes") ∧
  GoOs.IsDir (Outside.fs tests_file_world) (GoFilepath.Join ["/proj"; "tests"]) = false ∧
  Fields (GoLib := Small.lib) ZugPort.testCommand
  = ["pytest"; "--maxfail=1"; "--disable-warnings"; "-q"] ∧
  executed (Outside.trace
              (round_world
                 (ZugPort.feedback_round (lib := Small.lib) passing_env "build it"
                    {| ZugPort.ProjectDir := "/proj"; ZugPort.Context := [] |}
                    tests_file_world "build it")))
  = executed (Outside.trace tests_file_world)
    ++ [("/proj", ["pytest"; "--maxfail=1"; "--disable-warnings"; "-q"])].
Proof.
  split; [vm_compute; reflexivity|]. split; [vm_compute; reflexivity|].
  split; [vm_compute; reflexivity|].
  apply (ZugPort_tests_run_for_any_entry (lib := Small.lib) passing_env "build it"
           {| ZugPort.ProjectDir := "/proj"; ZugPort.Context := [] |} tests_file_world
           "build it"
           {| GoOpenAI.Role := "assistant"; GoOpenAI.Content := "done";
              GoOpenAI.Name := ""; GoOpenAI.FunctionCall_ := None;
              GoOpenAI.ToolCallID := ""; GoOpenAI.ToolCalls := [] |} []
           (GoOs.File "notes"));
    [reflexivity|reflexivity|vm_compute; reflexivity|vm_compute; reflexivity].
Defined.

Lemma empty_choices_in_the_variants_witness :
  no_choices mute_env ∧
  (∃ w', Zug.feedbackLoop (lib := Small.lib) mute_env
           {| Zug.projectDir := "/proj"; Zug.context := [] |} proj_world "build it"
           (Zug.Crashed Outside.index_out_of_range)
           {| Zug.projectDir := "/proj"; Zug.context := [] |} w') ∧
  (∀ o p' w', ¬ ZugPort.feedbackLoop (lib := Small.lib) mute_env "build it"
                  {| ZugPort.ProjectDir := "/proj"; ZugPort.Context := [] |} proj_world
                  "build it" o p' w') ∧
  (Agent.feedbackLoop (lib := Small.lib) mute_env proj_agent proj_world "build it").1.1
  = Agent.ChatFailed Agent.ErrEmptyChoices ∧
  length (requested
            (Outside.trace
               (Agent.feedbackLoop (lib := Small.lib) mute_env proj_agent proj_world
                  "build it").2))
  = S (length (requested (Outside.trace proj_world))).
Proof.
  assert (no_choices mute_env) as Hmute by (intros n msgs; reflexivity).
  split; [exact Hmute|].
  exact (empty_choices_in_the_variants (lib := Small.lib) mute_env
           {| Zug.projectDir := "/proj"; Zug.context := [] |}
           {| ZugPort.ProjectDir := "/proj"; ZugPort.Context := [] |}
           proj_agent proj_world "build it" Hmute).
Defined.

Lemma Zug_feedbackLoop_diverges_witness :
  always_text failing_env ∧
  Fields (GoLib := Small.lib) Zug.testCommand ≠ [] ∧
  commands_fail failing_env "/proj" (Zug.tests_passed (lib := Small.lib)) ∧
  GoOs.IsDir (Outside.fs tests_world) (GoFilepath.Join ["/proj"; "tests"]) = true ∧
  ∀ o a' w',
    ¬ Zug.feedbackLoop (lib := Small.lib) failing_env
        {| Zug.projectDir := "/proj"; Zug.context := [] |} tests_world
        "make the tests pass" o a' w'.
Proof.
  assert (always_text failing_env) as Htext.
  { intros n msgs. eexists _, []. split; reflexivity. }
  assert (Fields (GoLib := Small.lib) Zug.testCommand ≠ []) as Hfields
    by (vm_compute; discriminate).
  assert (commands_fail failing_env "/proj" (Zug.tests_passed (lib := Small.lib))) as Hfail.
  { intros n argv fs. split; [vm_compute; reflexivity|done]. }
  assert (GoOs.IsDir (Outside.fs tests_world) (GoFilepath.Join ["/proj"; "tests"]) = true)
    as Hdir by (vm_compute; reflexivity).
  split; [exact Htext|]. split; [exact Hfields|]. split; [exact Hfail|].
  split; [exact Hdir|]. intros o a' w'.
  exact (Zug_feedbackLoop_diverges (lib := Small.lib) failing_env
           {| Zug.projectDir := "/proj"; Zug.context := [] |} tests_world
           "make the tests pass" o a' w' Htext Hfields Hfail Hdir).
Defined.

Lemma ZugPort_feedbackLoop_diverges_witness :
  service_down down_env ∧
  ∀ o a' w',
    ¬ ZugPort.feedbackLoop (lib := Small.lib) down_env "build it"
        {| ZugPort.ProjectDir := "/proj"; ZugPort.Context := [] |} proj_world
        "build it" o a' w'.
Proof.
  assert (service_down down_env) as Hdown by (intros n msgs; by eexists).
  split; [exact Hdown|]. intros o a' w'.
  exact (ZugPort_feedbackLoop_diverges (lib := Small.lib) down_env "build it"
           {| ZugPort.ProjectDir := "/proj"; ZugPort.Context := [] |} proj_world
           "build it" o a' w' Hdown).
Defined.

(** ** [listFiles] *)




Section ListFiles.
Context `{lib : GoLib} `{engine : GoRegexp.Engine}.


End ListFiles.


(** ** Paths resolved: [Clean], [Join] and [Dir] on cleaned paths *)

Lemma no_separator_app (a b : string) :
  no_separator (a +:+ b) = no_separator a && no_separator b.
Proof.
  induction a as [|c a IH]; [done|].
  rewrite bytes_app_cons. simpl. rewrite IH. by rewrite andb_assoc.
Qed.

Lemma copy_element_app (e r : string) :
  no_separator e = true → GoFilepath.at_element_end r = true →
  GoFilepath.copy_element (e +:+ r) = (e, r).
Proof.
  intros He Hr. induction e as [|c e IH].
  - rewrite bytes_app_nil_l. destruct r as [|c r]; [done|]. simpl in *. by rewrite Hr.
  - rewrite bytes_app_cons. simpl in *. apply andb_true_iff in He as [Hc He].
    apply negb_true_iff in Hc. rewrite Hc, (IH He). done.
Qed.

Lemma copy_element_inv (x : string) :
  x = fst (GoFilepath.copy_element x) +:+ snd (GoFilepath.copy_element x) ∧
  no_separator (fst (GoFilepath.copy_element x)) = true.
Proof.
  induction x as [|c x [IH1 IH2]]; [done|].
  cbn [GoFilepath.copy_element].
  destruct (GoFilepath.IsPathSeparator c) eqn:Hsep; [done|].
  destruct (GoFilepath.copy_element x) as [e r]. simpl in *.
  rewrite bytes_app_cons, <- IH1. by rewrite Hsep.
Qed.

Lemma slashed_app (l1 l2 : list string) :
  slashed (l1 ++ l2) = slashed l1 +:+ slashed l2.
Proof.
  induction l1 as [|e l1 IH]; [by rewrite bytes_app_nil_l|].
  simpl. by rewrite IH, !bytes_app_assoc.
Qed.

Lemma slashed_cons (e : string) (es : list string) :
  slashed (e :: es) = String "/" (e +:+ slashed es).
Proof. done. Qed.

Lemma render_snoc (rooted : bool) (l : list string) (e : string) :
  render rooted (l ++ [e])
  = render rooted l +:+ (match l with [] => "" | _ => "/" end) +:+ e.
Proof.
  unfold render. destruct rooted.
  - destruct l as [|e0 l]; [simpl; by rewrite bytes_app_nil_r|].
    change ((e0 :: l) ++ [e]) with (e0 :: (l ++ [e])).
    rewrite !slashed_cons, slashed_app. simpl slashed.
    by rewrite ?bytes_app_nil_r, ?bytes_app_cons, ?bytes_app_assoc.
  - destruct l as [|e0 l]; [simpl; by rewrite bytes_app_nil_r|].
    change ((e0 :: l) ++ [e]) with (e0 :: (l ++ [e])).
    rewrite !slashed_cons, slashed_app. simpl slashed. simpl drop.
    by rewrite ?bytes_app_nil_r, ?bytes_app_cons, ?bytes_app_assoc.
Qed.

Lemma index_app_r (a b : string) (n : nat) :
  index (String.length a + n) (a +:+ b) = index n b.
Proof.
  induction a as [|c a IH]; [by rewrite bytes_app_nil_l|].
  rewrite bytes_app_cons. exact IH.
Qed.

Lemma index_no_separator (e : string) (n : nat) :
  no_separator e = true →
  match index n e with Some c => GoFilepath.IsPathSeparator c | None => false end = false.
Proof.
  revert n. induction e as [|c e IH]; intros n He; [by destruct n|].
  simpl in He. apply andb_true_iff in He as [Hc He]. apply negb_true_iff in Hc.
  destruct n as [|n]; [exact Hc|]. by apply IH.
Qed.

Lemma scan_back_element (R s e : string) (dd : nat) :
  no_separator e = true →
  s = "/" ∨ (s = "" ∧ dd = String.length R) → dd ≤ String.length R →
  ∀ n, GoFilepath.scan_back (R +:+ s +:+ e) dd (String.length R + String.length s + n)
       = String.length R.
Proof.
  intros He Hs Hdd n. induction n as [|n IH].
  - rewrite Nat.add_0_r. destruct Hs as [->|[-> ->]].
    + replace (String.length R + String.length "/") with (S (String.length R))
        by (simpl; lia).
      cbn [GoFilepath.scan_back].
      rewrite (proj2 (Nat.ltb_lt dd (S (String.length R)))) by lia.
      replace (S (String.length R)) with (String.length R + 1) by lia.
      rewrite index_app_r. change (index 1 ("/" +:+ e)) with (index 0 e).
      rewrite (index_no_separator e 0 He). simpl andb. cbv iota.
      destruct (String.length R) as [|w] eqn:Hw; [done|].
      cbn [GoFilepath.scan_back].
      replace (S w) with (String.length R + 0) at 2 by lia.
      rewrite index_app_r. simpl index. by rewrite andb_false_r.
    + simpl String.length. rewrite Nat.add_0_r.
      destruct (String.length R) as [|w] eqn:Hw; [done|].
      cbn [GoFilepath.scan_back]. by rewrite Nat.ltb_irrefl.
  - replace (String.length R + String.length s + S n)
      with (S (String.length R + String.length s + n)) by lia.
    cbn [GoFilepath.scan_back].
    rewrite (proj2 (Nat.ltb_lt dd _)) by lia.
    replace (S (String.length R + String.length s + n))
      with (String.length R + (String.length s + S n)) by lia.
    rewrite index_app_r.
    replace (String.length s + S n) with (String.length s + S n) by done.
    rewrite index_app_r, (index_no_separator e (S n) He). exact IH.
Qed.

Lemma named_element (e : string) : named e → element e.
Proof. by intros [? _]. Qed.

Lemma parent_element : element "..".
Proof. done. Qed.

Lemma cleaned_elements (k : nat) (ns : list string) :
  Forall named ns → Forall element (cleaned k ns).
Proof.
  intros Hns. apply Forall_app. split.
  - apply Forall_replicate, parent_element.
  - eapply Forall_impl; [exact Hns|]. apply named_element.
Qed.

Lemma cleaned_snoc (k : nat) (ns : list string) (e : string) :
  cleaned k (ns ++ [e]) = cleaned k ns ++ [e].
Proof. unfold cleaned. by rewrite app_assoc. Qed.

Lemma cleaned_parent (k : nat) : cleaned (S k) [] = cleaned k [] ++ [".."].
Proof.
  unfold cleaned. rewrite !app_nil_r. 
  change [".."] with (replicate 1 ".."). rewrite <- replicate_add.
  by replace (k + 1) with (S k) by lia.
Qed.

Lemma needs_separator_render (rooted : bool) (l : list string) :
  Forall element l →
  needs_separator rooted (render rooted l) = match l with [] => false | _ => true end.
Proof.
  intros Hl. unfold needs_separator, render.
  destruct l as [|e l]; [by destruct rooted|].
  apply Forall_cons in Hl as [[He _] _].
  destruct e as [|c e]; [done|]. by destruct rooted.
Qed.

Lemma render_nonempty (l : list string) :
  Forall element l →
  (0 <? String.length (render false l)) = match l with [] => false | _ => true end.
Proof.
  intros Hl. destruct l as [|e l]; [done|].
  apply Forall_cons in Hl as [[He _] _]. by destruct e.
Qed.

Lemma slashed_length_app (l1 l2 : list string) :
  String.length (slashed (l1 ++ l2))
  = String.length (slashed l1) + String.length (slashed l2).
Proof. by rewrite slashed_app, bytes_length_app. Qed.

Lemma render_length (rooted : bool) (l : list string) :
  String.length (render rooted l)
  = if rooted then match l with [] => 1 | _ => String.length (slashed l) end
    else String.length (slashed l) - 1.
Proof.
  unfold render. destruct rooted; [by destruct l|].
  rewrite bytes_length_drop. lia.
Qed.

Lemma slashed_length_pos (l : list string) : l ≠ [] → 1 ≤ String.length (slashed l).
Proof. destruct l as [|e l]; [done|]. intros _. simpl. lia. Qed.

Lemma backstop_le (rooted : bool) (k : nat) (ns : list string) :
  (rooted = true → k = 0) →
  backstop rooted k ≤ String.length (render rooted (cleaned k ns)).
Proof.
  intros Hk. unfold backstop. destruct rooted.
  - rewrite Hk by done. rewrite render_length. unfold cleaned. simpl.
    destruct ns as [|e ns]; [done|]. simpl. lia.
  - rewrite !render_length. unfold cleaned. rewrite slashed_length_app. lia.
Qed.

Lemma backstop_eq (rooted : bool) (k : nat) :
  (rooted = true → k = 0) →
  backstop rooted k = String.length (render rooted (cleaned k [])).
Proof.
  intros Hk. unfold backstop, cleaned. rewrite app_nil_r.
  destruct rooted; [|done]. by rewrite Hk.
Qed.

Lemma backstop_lt (rooted : bool) (k : nat) (ns : list string) (e : string) :
  (rooted = true → k = 0) → e ≠ "" →
  backstop rooted k < String.length (render rooted (cleaned k (ns ++ [e]))).
Proof.
  intros Hk He. pose proof (backstop_le rooted k ns Hk) as Hle.
  rewrite cleaned_snoc, render_snoc, !bytes_length_app.
  destruct e; [done|]. simpl. lia.
Qed.

(** One iteration of the loop of [Clean], by the case it takes. *)
Lemma Clean_loop_separator (f : nat) (rooted : bool) (c : ascii) (rest1 out : string)
    (dd : nat) :
  GoFilepath.IsPathSeparator c = true →
  GoFilepath.Clean_loop (S f) rooted (String c rest1) out dd
  = GoFilepath.Clean_loop f rooted rest1 out dd.
Proof. intros Hc. cbn [GoFilepath.Clean_loop]. by rewrite Hc. Qed.

Lemma Clean_loop_dot (f : nat) (rooted : bool) (c : ascii) (rest1 out : string) (dd : nat) :
  GoFilepath.IsPathSeparator c = false →
  GoFilepath.is_dot c && GoFilepath.at_element_end rest1 = true →
  GoFilepath.Clean_loop (S f) rooted (String c rest1) out dd
  = GoFilepath.Clean_loop f rooted rest1 out dd.
Proof. intros Hc Hdot. cbn [GoFilepath.Clean_loop]. by rewrite Hc, Hdot. Qed.

Lemma Clean_loop_parent (f : nat) (rooted : bool) (c c2 : ascii) (rest2 out : string)
    (dd : nat) :
  GoFilepath.IsPathSeparator c = false →
  GoFilepath.is_dot c && GoFilepath.at_element_end (String c2 rest2) = false →
  GoFilepath.is_dot c && (GoFilepath.is_dot c2 && GoFilepath.at_element_end rest2) = true →
  GoFilepath.Clean_loop (S f) rooted (String c (String c2 rest2)) out dd
  = if dd <? String.length out then
      GoFilepath.Clean_loop f rooted rest2
        (take (GoFilepath.scan_back out dd (String.length out - 1)) out) dd
    else if negb rooted then
      GoFilepath.Clean_loop f rooted rest2
        ((if 0 <? String.length out then out +:+ "/" else out) +:+ "..")
        (String.length ((if 0 <? String.length out then out +:+ "/" else out) +:+ ".."))
    else GoFilepath.Clean_loop f rooted rest2 out dd.
Proof.
  intros Hc Hdot Hdd. cbn [GoFilepath.Clean_loop]. rewrite Hc, Hdot, Hdd. done.
Qed.

Lemma Clean_loop_element (f : nat) (rooted : bool) (c : ascii) (rest1 out : string)
    (dd : nat) :
  GoFilepath.IsPathSeparator c = false →
  GoFilepath.is_dot c && GoFilepath.at_element_end rest1 = false →
  GoFilepath.is_dot c &&
    match rest1 with
    | String c2 rest2 => GoFilepath.is_dot c2 && GoFilepath.at_element_end rest2
    | EmptyString => false
    end = false →
  GoFilepath.Clean_loop (S f) rooted (String c rest1) out dd
  = GoFilepath.Clean_loop f rooted (snd (GoFilepath.copy_element (String c rest1)))
      ((if needs_separator rooted out then out +:+ "/" else out)
       +:+ fst (GoFilepath.copy_element (String c rest1))) dd.
Proof.
  intros Hc Hdot Hdd. cbn [GoFilepath.Clean_loop]. rewrite Hc, Hdot, Hdd.
  unfold needs_separator. by destruct (GoFilepath.copy_element (String c rest1)).
Qed.

Lemma at_element_end_app (x r : string) :
  GoFilepath.at_element_end r = true →
  GoFilepath.at_element_end (x +:+ r) = GoFilepath.at_element_end x.
Proof. intros Hr. destruct x; [by rewrite bytes_app_nil_l|done]. Qed.

Lemma element_not_end (e r : string) :
  e ≠ "" → no_separator e = true → GoFilepath.at_element_end (e +:+ r) = false.
Proof.
  intros He Hsep. destruct e as [|c e]; [done|]. rewrite bytes_app_cons. simpl in *.
  apply andb_true_iff in Hsep as [Hc _]. by apply negb_true_iff in Hc.
Qed.

(** The loop of [Clean] at an element that names an entry. *)
Lemma Clean_loop_at_name (f : nat) (rooted : bool) (k : nat) (ns : list string)
    (e r : string) (dd : nat) :
  named e → Forall named ns → GoFilepath.at_element_end r = true →
  GoFilepath.Clean_loop (S f) rooted (e +:+ r) (render rooted (cleaned k ns)) dd
  = GoFilepath.Clean_loop f rooted r (render rooted (cleaned k (ns ++ [e]))) dd.
Proof.
  intros [[He Hsep] [Hdot Hdd]] Hns Hr.
  destruct e as [|c e1]; [done|]. rewrite bytes_app_cons.
  assert (GoFilepath.IsPathSeparator c = false) as Hc.
  { simpl in Hsep. apply andb_true_iff in Hsep as [Hc _]. by apply negb_true_iff in Hc. }
  assert (no_separator e1 = true) as Hsep1.
  { simpl in Hsep. by apply andb_true_iff in Hsep as [_ ?]. }
  rewrite Clean_loop_element; [|done| |].
  - rewrite <- bytes_app_cons, copy_element_app by done. simpl fst. simpl snd.
    rewrite needs_separator_render by (by apply cleaned_elements).
    rewrite cleaned_snoc, render_snoc.
    destruct (cleaned k ns); by rewrite ?bytes_app_nil_l, ?bytes_app_assoc.
  - destruct (GoFilepath.is_dot c) eqn:Hd; [|done]. simpl.
    destruct e1 as [|c1 e1]; [|by apply element_not_end].
    exfalso. apply Hdot. f_equal. by apply Ascii.eqb_eq in Hd.
  - destruct (GoFilepath.is_dot c) eqn:Hd; [|done]. simpl.
    destruct e1 as [|c1 e1].
    { rewrite bytes_app_nil_l. destruct r as [|c2 r]; [done|].
      simpl in Hr. unfold GoFilepath.is_dot.
      unfold GoFilepath.IsPathSeparator in Hr. apply Ascii.eqb_eq in Hr as ->. done. }
    rewrite bytes_app_cons.
    destruct (GoFilepath.is_dot c1) eqn:Hd1; [|done]. simpl.
    destruct e1 as [|c2 e1].
    { exfalso. apply Hdd. apply Ascii.eqb_eq in Hd, Hd1. by subst. }
    apply element_not_end; [done|]. simpl in Hsep1.
    by apply andb_true_iff in Hsep1 as [_ ?].
Qed.

(** ... at a parent element, when the output ends with a name. *)
Lemma Clean_loop_back (f : nat) (rooted : bool) (k : nat) (ns : list string)
    (e rest2 : string) :
  (rooted = true → k = 0) → element e → Forall named ns →
  GoFilepath.at_element_end rest2 = true →
  GoFilepath.Clean_loop (S f) rooted (".." +:+ rest2)
    (render rooted (cleaned k (ns ++ [e]))) (backstop rooted k)
  = GoFilepath.Clean_loop f rooted rest2 (render rooted (cleaned k ns)) (backstop rooted k).
Proof.
  intros Hk [He Hsep] Hns Hr.
  change (".." +:+ rest2) with (String "." (String "." rest2)).
  rewrite Clean_loop_parent; [|done|done|by rewrite Hr].
  rewrite (proj2 (Nat.ltb_lt _ _)) by (by apply backstop_lt).
  f_equal. rewrite cleaned_snoc, render_snoc.
  set (R := render rooted (cleaned k ns)).
  set (s := match cleaned k ns with [] => "" | _ => "/" end).
  assert (String.length (R +:+ s +:+ e) - 1
          = String.length R + String.length s + (String.length e - 1)) as ->.
  { rewrite !bytes_length_app. destruct e; [done|]. simpl. lia. }
  rewrite scan_back_element; [apply bytes_take_app_length|done| |by apply backstop_le].
  subst s R. destruct (cleaned k ns) as [|e0 l] eqn:Hl; [|by left].
  right. split; [done|].
  unfold cleaned in Hl. apply app_eq_nil in Hl as [Hrep ->].
  destruct k; [|done]. by destruct rooted.
Qed.

(** ... at a parent element, when the output holds parent elements only. *)
Lemma Clean_loop_up (f k : nat) (rest2 : string) :
  GoFilepath.at_element_end rest2 = true →
  GoFilepath.Clean_loop (S f) false (".." +:+ rest2)
    (render false (cleaned k [])) (backstop false k)
  = GoFilepath.Clean_loop f false rest2
      (render false (cleaned (S k) [])) (backstop false (S k)).
Proof.
  intros Hr.
  change (".." +:+ rest2) with (String "." (String "." rest2)).
  rewrite Clean_loop_parent; [|done|done|by rewrite Hr].
  rewrite (backstop_eq false k) at 1 by done. rewrite Nat.ltb_irrefl. simpl negb. cbv iota.
  rewrite render_nonempty by (by apply cleaned_elements).
  assert ((if match cleaned k [] with [] => false | _ => true end
           then render false (cleaned k []) +:+ "/" else render false (cleaned k []))
          +:+ ".." = render false (cleaned (S k) [])) as ->.
  { rewrite cleaned_parent, render_snoc.
    destruct (cleaned k []); by rewrite ?bytes_app_nil_l, ?bytes_app_assoc. }
  by rewrite (backstop_eq false (S k)).
Qed.

(** ... at a parent element of the root. *)
Lemma Clean_loop_root (f : nat) (rest2 : string) :
  GoFilepath.at_element_end rest2 = true →
  GoFilepath.Clean_loop (S f) true (".." +:+ rest2) "/" 1
  = GoFilepath.Clean_loop f true rest2 "/" 1.
Proof.
  intros Hr.
  change (".." +:+ rest2) with (String "." (String "." rest2)).
  rewrite Clean_loop_parent; [done|done|done|by rewrite Hr].
Qed.

Lemma copy_element_app_r (x r : string) :
  GoFilepath.at_element_end r = true →
  GoFilepath.copy_element (x +:+ r)
  = (fst (GoFilepath.copy_element x), snd (GoFilepath.copy_element x) +:+ r).
Proof.
  intros Hr. induction x as [|c x IH].
  - rewrite bytes_app_nil_l. destruct r as [|c r]; [done|]. simpl in *. by rewrite Hr.
  - rewrite bytes_app_cons. cbn [GoFilepath.copy_element].
    destruct (GoFilepath.IsPathSeparator c); [done|].
    rewrite IH. by destruct (GoFilepath.copy_element x).
Qed.

(** The loop of [Clean] keeps the form of the output: after any input
    that ends where an element ends, the output is again a cleaned
    path, whatever follows. *)
Lemma Clean_loop_prefix (n : nat) (rooted : bool) :
  ∀ (x : string) (k : nat) (ns : list string),
    String.length x ≤ n → (rooted = true → k = 0) → Forall named ns →
    ∃ (k' : nat) (ns' : list string),
      (rooted = true → k' = 0) ∧ Forall named ns' ∧
      ∀ (r : string) (f f' : nat),
        GoFilepath.at_element_end r = true →
        String.length (x +:+ r) ≤ f → String.length r ≤ f' →
        GoFilepath.Clean_loop f rooted (x +:+ r)
          (render rooted (cleaned k ns)) (backstop rooted k)
        = GoFilepath.Clean_loop f' rooted r
            (render rooted (cleaned k' ns')) (backstop rooted k').
Proof.
  induction n as [|n IH]; intros x k ns Hn Hk Hns.
  { assert (x = "") as -> by (apply bytes_length_0; lia).
    exists k, ns. split; [done|]. split; [done|]. intros r f f' _ Hf Hf'.
    rewrite bytes_app_nil_l in *. by apply Clean_loop_fuel. }
  destruct x as [|c x1].
  { exists k, ns. split; [done|]. split; [done|]. intros r f f' _ Hf Hf'.
    rewrite bytes_app_nil_l in *. by apply Clean_loop_fuel. }
  simpl in Hn.
  destruct (GoFilepath.IsPathSeparator c) eqn:Hc.
  { destruct (IH x1 k ns) as (k' & ns' & Hk' & Hns' & Hrun); [lia|done|done|].
    exists k', ns'. split; [done|]. split; [done|]. intros r f f' Hr Hf Hf'.
    rewrite bytes_app_cons in *. destruct f as [|f]; [simpl in Hf; lia|].
    rewrite Clean_loop_separator by done. apply Hrun; [done|simpl in Hf; lia|done]. }
  destruct (GoFilepath.is_dot c && GoFilepath.at_element_end x1) eqn:Hdot.
  { destruct (IH x1 k ns) as (k' & ns' & Hk' & Hns' & Hrun); [lia|done|done|].
    exists k', ns'. split; [done|]. split; [done|]. intros r f f' Hr Hf Hf'.
    rewrite bytes_app_cons in *. destruct f as [|f]; [simpl in Hf; lia|].
    rewrite Clean_loop_dot; [|done|by rewrite at_element_end_app].
    apply Hrun; [done|simpl in Hf; lia|done]. }
  destruct (GoFilepath.is_dot c &&
            match x1 with
            | String c2 x2 => GoFilepath.is_dot c2 && GoFilepath.at_element_end x2
            | EmptyString => false
            end) eqn:Hdd.
  { destruct x1 as [|c2 x2]; [by rewrite andb_false_r in Hdd|].
    apply andb_true_iff in Hdd as [Hd1 [Hd2 Hend]%andb_true_iff].
    apply Ascii.eqb_eq in Hd1 as ->. apply Ascii.eqb_eq in Hd2 as ->.
    simpl in Hn.
    destruct ns as [|e ns0 _] using rev_ind.
    - destruct rooted.
      + rewrite Hk by done.
        destruct (IH x2 0 []) as (k' & ns' & Hk' & Hns' & Hrun); [lia|done|done|].
        exists k', ns'. split; [done|]. split; [done|]. intros r f f' Hr Hf Hf'.
        rewrite !bytes_app_cons in *. destruct f as [|f]; [simpl in Hf; lia|].
        change (String "." (String "." (x2 +:+ r))) with (".." +:+ (x2 +:+ r)).
        change (render true (cleaned 0 [])) with "/".
        change (backstop true 0) with 1.
        rewrite Clean_loop_root by (by rewrite at_element_end_app).
        apply (Hrun r f f'); [done|simpl in Hf; lia|done].
      + destruct (IH x2 (S k) []) as (k' & ns' & Hk' & Hns' & Hrun); [lia|done|done|].
        exists k', ns'. split; [done|]. split; [done|]. intros r f f' Hr Hf Hf'.
        rewrite !bytes_app_cons in *. destruct f as [|f]; [simpl in Hf; lia|].
        change (String "." (String "." (x2 +:+ r))) with (".." +:+ (x2 +:+ r)).
        rewrite Clean_loop_up by (by rewrite at_element_end_app).
        apply (Hrun r f f'); [done|simpl in Hf; lia|done].
    - apply Forall_app in Hns as [Hns0 [He _]%Forall_cons].
      destruct (IH x2 k ns0) as (k' & ns' & Hk' & Hns' & Hrun); [lia|done|done|].
      exists k', ns'. split; [done|]. split; [done|]. intros r f f' Hr Hf Hf'.
      rewrite !bytes_app_cons in *. destruct f as [|f]; [simpl in Hf; lia|].
      change (String "." (String "." (x2 +:+ r))) with (".." +:+ (x2 +:+ r)).
      rewrite Clean_loop_back;
        [|done|by apply named_element|done|by rewrite at_element_end_app].
      apply (Hrun r f f'); [done|simpl in Hf; lia|done]. }
  (* an element that names an entry *)
  destruct (copy_element_inv (String c x1)) as [Hsplit Hsep].
  destruct (copy_element_spec (String c x1)) as (Hlen & Hend & _).
  destruct (GoFilepath.copy_element (String c x1)) as [e x'] eqn:Hcopy.
  simpl in Hsplit, Hsep, Hlen, Hend.
  assert (e ≠ "") as He.
  { intros ->. cbn [GoFilepath.copy_element] in Hcopy. rewrite Hc in Hcopy.
    by destruct (GoFilepath.copy_element x1). }
  assert (named e) as Hnamed.
  { split; [done|]. split.
    - intros ->. rewrite bytes_app_cons, bytes_app_nil_l in Hsplit.
      injection Hsplit as -> ->. by rewrite Hend in Hdot.
    - intros ->. rewrite !bytes_app_cons, bytes_app_nil_l in Hsplit.
      injection Hsplit as -> ->. simpl in Hdd. by rewrite Hend in Hdd. }
  destruct (IH x' k (ns ++ [e])) as (k' & ns' & Hk' & Hns' & Hrun).
  { destruct e; [done|]. simpl in Hlen. lia. }
  { done. }
  { apply Forall_app. split; [done|]. by apply Forall_singleton. }
  exists k', ns'. split; [done|]. split; [done|]. intros r f f' Hr Hf Hf'.
  rewrite Hsplit, bytes_app_assoc in *.
  destruct f as [|f]. { destruct e; [done|]. simpl in Hf. lia. }
  rewrite Clean_loop_at_name; [|done|done|by rewrite at_element_end_app].
  apply (Hrun r f f'); [done| |done].
  rewrite !bytes_length_app in *. destruct e; [done|]. simpl in Hf. lia.
Qed.

Lemma slashed_at_end (es : list string) (r : string) :
  GoFilepath.at_element_end r = true →
  GoFilepath.at_element_end (slashed es +:+ r) = true.
Proof. intros Hr. destruct es; [by rewrite bytes_app_nil_l|done]. Qed.

(** The loop of [Clean] over elements that name entries appends them. *)
Lemma Clean_loop_names (rooted : bool) (es : list string) :
  ∀ (k : nat) (ns : list string) (dd : nat) (r : string) (f f' : nat),
    Forall named es → Forall named ns → GoFilepath.at_element_end r = true →
    String.length (slashed es +:+ r) ≤ f → String.length r ≤ f' →
    GoFilepath.Clean_loop f rooted (slashed es +:+ r) (render rooted (cleaned k ns)) dd
    = GoFilepath.Clean_loop f' rooted r (render rooted (cleaned k (ns ++ es))) dd.
Proof.
  induction es as [|e es IH]; intros k ns dd r f f' Hes Hns Hr Hf Hf'.
  { rewrite app_nil_r. simpl slashed in *. rewrite bytes_app_nil_l in *.
    by apply Clean_loop_fuel. }
  apply Forall_cons in Hes as [He Hes].
  rewrite slashed_cons, bytes_app_cons, bytes_app_assoc in *.
  destruct f as [|f]; [simpl in Hf; lia|]. simpl in Hf.
  rewrite Clean_loop_separator by done.
  destruct f as [|f].
  { rewrite bytes_length_app in Hf. destruct He as [[He _] _]. destruct e; [done|].
    simpl in Hf. lia. }
  rewrite Clean_loop_at_name; [|done|done|by apply slashed_at_end].
  replace (ns ++ e :: es) with ((ns ++ [e]) ++ es) by (by rewrite <- app_assoc).
  apply IH; [done| |done| |done].
  - apply Forall_app. split; [done|]. by apply Forall_singleton.
  - rewrite bytes_length_app in Hf. destruct He as [[He _] _]. destruct e; [done|].
    simpl in Hf. lia.
Qed.

(** The loop of [Clean] over leading parent elements appends them. *)
Lemma Clean_loop_parents (j : nat) :
  ∀ (k : nat) (r : string) (f f' : nat),
    GoFilepath.at_element_end r = true →
    String.length (slashed (replicate j "..") +:+ r) ≤ f → String.length r ≤ f' →
    GoFilepath.Clean_loop f false (slashed (replicate j "..") +:+ r)
      (render false (cleaned k [])) (backstop false k)
    = GoFilepath.Clean_loop f' false r
        (render false (cleaned (k + j) [])) (backstop false (k + j)).
Proof.
  induction j as [|j IH]; intros k r f f' Hr Hf Hf'.
  { rewrite Nat.add_0_r. simpl slashed in *. rewrite bytes_app_nil_l in *.
    by apply Clean_loop_fuel. }
  change (replicate (S j) "..") with (".." :: replicate j "..") in *.
  rewrite slashed_cons, bytes_app_cons, bytes_app_assoc in *.
  destruct f as [|f]; [simpl in Hf; lia|]. simpl in Hf.
  rewrite Clean_loop_separator by done.
  rewrite bytes_length_app in Hf. simpl in Hf.
  destruct f as [|f]; [lia|].
  rewrite Clean_loop_up by (by apply slashed_at_end).
  replace (k + S j) with (S k + j) by lia.
  apply IH; [done|lia|done].
Qed.

(** [Clean] of a path that is not empty, in terms of its loop. *)
Lemma Clean_unfold (path : string) :
  path ≠ "" →
  GoFilepath.Clean path
  = let rooted := GoFilepath.IsAbs path in
    let out := GoFilepath.Clean_loop (S (String.length path)) rooted ("/" +:+ path)
                 (render rooted (cleaned 0 [])) (backstop rooted 0) in
    if is_empty out then "." else out.
Proof.
  destruct path as [|c0 path1]; [done|]. intros _.
  unfold GoFilepath.Clean, GoFilepath.IsAbs. cbv zeta.
  change ("/" +:+ String c0 path1) with (String "/" (String c0 path1)).
  rewrite (Clean_loop_separator _ _ "/") by done.
  cbn [GoStrings.HasPrefix]. rewrite HasPrefix_nil, andb_true_r. unfold GoFilepath.IsPathSeparator, GoFilepath.Separator.
  destruct (Ascii.eqb c0 "/") eqn:Hc0; [|done].
  cbn [String.length]. rewrite Clean_loop_separator by exact Hc0.
  by rewrite (Clean_loop_fuel (S (String.length path1)) (String.length path1)) by lia.
Qed.

Lemma IsAbs_app (path r : string) :
  path ≠ "" → GoFilepath.IsAbs (path +:+ r) = GoFilepath.IsAbs path.
Proof.
  destruct path as [|c path]; [done|]. intros _. rewrite bytes_app_cons.
  unfold GoFilepath.IsAbs. cbn [GoStrings.HasPrefix]. by rewrite !HasPrefix_nil.
Qed.

(** [Clean] reads a path that is not empty into a cleaned path, and
    goes on from there with whatever follows an element end. *)
Lemma Clean_state (path : string) :
  path ≠ "" →
  ∃ (k : nat) (ns : list string),
    (GoFilepath.IsAbs path = true → k = 0) ∧ Forall named ns ∧
    ∀ (r : string) (f' : nat),
      GoFilepath.at_element_end r = true → String.length r ≤ f' →
      GoFilepath.Clean (path +:+ r)
      = let out := GoFilepath.Clean_loop f' (GoFilepath.IsAbs path) r
                     (render (GoFilepath.IsAbs path) (cleaned k ns))
                     (backstop (GoFilepath.IsAbs path) k) in
        if is_empty out then "." else out.
Proof.
  intros Hpath.
  destruct (Clean_loop_prefix (S (String.length path)) (GoFilepath.IsAbs path)
              ("/" +:+ path) 0 []) as (k & ns & Hk & Hns & Hrun); [done|done|done|].
  exists k, ns. split; [done|]. split; [done|]. intros r f' Hr Hf'.
  rewrite Clean_unfold by (by destruct path). cbv zeta.
  rewrite (IsAbs_app path r Hpath).
  rewrite <- (bytes_app_assoc "/" path r).
  rewrite (Hrun r _ f' Hr); [done| |done].
  rewrite bytes_app_assoc. change ("/" +:+ path +:+ r) with (String "/" (path +:+ r)).
  done.
Qed.

Lemma render_app (rooted : bool) (l es : list string) :
  l ≠ [] → render rooted (l ++ es) = render rooted l +:+ slashed es.
Proof.
  intros Hl. destruct l as [|e l]; [done|]. unfold render.
  change ((e :: l) ++ es) with (e :: (l ++ es)).
  destruct rooted.
  - by rewrite !slashed_cons, slashed_app, bytes_app_cons, bytes_app_assoc.
  - rewrite !slashed_cons, slashed_app. simpl drop. by rewrite bytes_app_assoc.
Qed.

Lemma render_rooted (l : list string) : GoFilepath.IsAbs (render true l) = true.
Proof.
  destruct l as [|e l]; [done|]. unfold render, GoFilepath.IsAbs.
  rewrite slashed_cons. cbn [GoStrings.HasPrefix]. by rewrite HasPrefix_nil.
Qed.

Lemma render_not_rooted (l : list string) :
  Forall element l → GoFilepath.IsAbs (render false l) = false.
Proof.
  intros Hl. destruct l as [|e l]; [done|].
  apply Forall_cons in Hl as [[He Hsep] _].
  destruct e as [|c e]; [done|]. unfold render. rewrite slashed_cons, bytes_app_cons.
  simpl drop. unfold GoFilepath.IsAbs. cbn [GoStrings.HasPrefix].
  simpl in Hsep. apply andb_true_iff in Hsep as [Hc _]. apply negb_true_iff in Hc.
  unfold GoFilepath.IsPathSeparator, GoFilepath.Separator in Hc. by rewrite Hc.
Qed.

(** [Clean] of a cleaned path and what follows it: the loop goes on
    from the cleaned path. *)
Lemma Clean_render (rooted : bool) (k : nat) (ns : list string) (r : string) (f' : nat) :
  (rooted = true → k = 0) → Forall named ns →
  cleaned k ns ≠ [] ∨ rooted = true →
  GoFilepath.at_element_end r = true → String.length r ≤ f' →
  GoFilepath.Clean (render rooted (cleaned k ns) +:+ r)
  = let out := GoFilepath.Clean_loop f' rooted r
                 (render rooted (cleaned k ns)) (backstop rooted k) in
    if is_empty out then "." else out.
Proof.
  intros Hk Hns Hl Hr Hf'.
  assert (render rooted (cleaned k ns) ≠ "") as Hne.
  { destruct rooted.
    - by destruct (cleaned k ns).
    - destruct Hl as [Hl|]; [|done]. pose proof (cleaned_elements k ns Hns) as Hel.
      destruct (cleaned k ns) as [|e l]; [done|].
      apply Forall_cons in Hel as [[He _] _]. by destruct e. }
  rewrite Clean_unfold by (by destruct (render rooted (cleaned k ns))). cbv zeta.
  rewrite (IsAbs_app _ r Hne).
  assert (GoFilepath.IsAbs (render rooted (cleaned k ns)) = rooted) as ->.
  { destruct rooted; [apply render_rooted|].
    apply render_not_rooted. by apply cleaned_elements. }
  assert (GoFilepath.Clean_loop
            (S (String.length (render rooted (cleaned k ns) +:+ r))) rooted
            ("/" +:+ render rooted (cleaned k ns) +:+ r)
            (render rooted (cleaned 0 [])) (backstop rooted 0)
          = GoFilepath.Clean_loop f' rooted r
              (render rooted (cleaned k ns)) (backstop rooted k)) as ->; [|done].
  destruct (cleaned k ns) as [|e0 l0] eqn:Hcl.
  { destruct Hl as [?| ->]; [done|]. rewrite Hk by done.
    change ("/" +:+ render true [] +:+ r) with (String "/" (String "/" r)).
    rewrite Clean_loop_separator by done.
    change (String.length (render true [] +:+ r)) with (S (String.length r)).
    rewrite Clean_loop_separator by done.
    change (render true (cleaned 0 [])) with (render true []).
    apply Clean_loop_fuel; [lia|done]. }
  rewrite <- Hcl.
  assert (cleaned k ns ≠ []) as Hcons by (by rewrite Hcl).
  assert (∀ f, String.length (slashed (cleaned k ns) +:+ r) ≤ f →
          GoFilepath.Clean_loop f rooted (slashed (cleaned k ns) +:+ r)
            (render rooted (cleaned 0 [])) (backstop rooted 0)
          = GoFilepath.Clean_loop f' rooted r
              (render rooted (cleaned k ns)) (backstop rooted k)) as Hgo.
  { intros f Hf. unfold cleaned at 1. unfold cleaned at 1 in Hf.
    rewrite slashed_app, bytes_app_assoc in *.
    destruct rooted.
    - rewrite Hk in * by done. simpl replicate in *. simpl slashed in *.
      rewrite bytes_app_nil_l in *.
      by rewrite (Clean_loop_names true ns 0 [] _ r f f').
    - rewrite (Clean_loop_parents k 0 (slashed ns +:+ r) f
                 (String.length (slashed ns +:+ r)));
        [|by apply slashed_at_end|done|done].
      by rewrite (Clean_loop_names false ns k [] _ r _ f'). }
  destruct rooted.
  - change ("/" +:+ render true (cleaned k ns) +:+ r)
      with (String "/" (render true (cleaned k ns) +:+ r)).
    rewrite Clean_loop_separator by done.
    unfold render at 1 2. rewrite Hcl, <- Hcl. by apply Hgo.
  - assert ("/" +:+ render false (cleaned k ns) = slashed (cleaned k ns)) as Hsl.
    { by rewrite Hcl. }
    rewrite <- bytes_app_assoc, Hsl. apply Hgo.
    rewrite <- Hsl, !bytes_length_app. simpl. lia.
Qed.

Lemma render_not_empty (rooted : bool) (l : list string) :
  Forall element l → l ≠ [] ∨ rooted = true → is_empty (render rooted l) = false.
Proof.
  intros Hel Hl. destruct rooted.
  - destruct l; [done|]. unfold render. by rewrite slashed_cons.
  - destruct Hl as [Hl|]; [|done]. destruct l as [|e l]; [done|].
    apply Forall_cons in Hel as [[He _] _]. by destruct e.
Qed.

(** [Clean] leaves a cleaned path as it is, also before a separator. *)
Lemma Clean_cleaned (rooted : bool) (k : nat) (ns : list string) :
  (rooted = true → k = 0) → Forall named ns → cleaned k ns ≠ [] ∨ rooted = true →
  GoFilepath.Clean (render rooted (cleaned k ns)) = render rooted (cleaned k ns) ∧
  GoFilepath.Clean (render rooted (cleaned k ns) +:+ "/") = render rooted (cleaned k ns).
Proof.
  intros Hk Hns Hl.
  pose proof (render_not_empty rooted (cleaned k ns) (cleaned_elements k ns Hns) Hl) as Hne.
  split.
  - rewrite <- (bytes_app_nil_r (render rooted (cleaned k ns))) at 1.
    rewrite (Clean_render rooted k ns "" 0) by done. simpl. by rewrite Hne.
  - rewrite (Clean_render rooted k ns "/" 1) by done. simpl. by rewrite Hne.
Qed.

Lemma render_cons (e : string) (l : list string) :
  render false (e :: l) = e +:+ slashed l.
Proof. done. Qed.

(** A cleaned path that is neither absolute nor leaves its directory
    is [.] or made of names. *)
Lemma Clean_inner (rel : string) :
  GoFilepath.IsAbs (GoFilepath.Clean rel) = false →
  GoStrings.HasPrefix (GoFilepath.Clean rel) "../" = false →
  GoFilepath.Clean rel ≠ ".." →
  GoFilepath.Clean rel = "." ∨
  ∃ ns, ns ≠ [] ∧ Forall named ns ∧ GoFilepath.Clean rel = render false ns.
Proof.
  intros Habs Hup Hdd. destruct (decide (rel = "")) as [->|Hrel]; [by left|].
  destruct (Clean_state rel Hrel) as (k & ns & Hk & Hns & Hrun).
  specialize (Hrun "" 0 eq_refl (Nat.le_refl 0)).
  rewrite bytes_app_nil_r in Hrun. simpl in Hrun.
  destruct (GoFilepath.IsAbs rel) eqn:Hrooted.
  { rewrite render_not_empty in Hrun
      by (by apply cleaned_elements || by right).
    rewrite Hrun, render_rooted in Habs. done. }
  destruct (cleaned k ns) as [|e l] eqn:Hcl; [by left|].
  rewrite render_not_empty in Hrun;
    [|rewrite <- Hcl; by apply cleaned_elements|by left].
  right. destruct k as [|k].
  - unfold cleaned in Hcl. simpl in Hcl. subst ns. exists (e :: l). by rewrite Hrun.
  - exfalso. unfold cleaned in Hcl. simpl in Hcl. injection Hcl as <- Hl.
    rewrite Hrun, render_cons in Hup, Hdd.
    destruct l as [|e1 l]; [by rewrite bytes_app_nil_r in Hdd|].
    rewrite slashed_cons in Hup.
    change (".." +:+ String "/" (e1 +:+ slashed l)) with ("../" +:+ (e1 +:+ slashed l)) in Hup.
    by rewrite HasPrefix_app in Hup.
Qed.

Lemma element_at_front (e s r : string) :
  element e → GoFilepath.at_element_end r = true →
  e +:+ s = "." +:+ r → e = ".".
Proof.
  intros [He Hsep] Hr Heq. destruct e as [|c e]; [done|].
  rewrite bytes_app_cons in Heq. change ("." +:+ r) with (String "." r) in Heq.
  injection Heq as -> Heq. destruct e as [|c' e]; [done|].
  rewrite bytes_app_cons in Heq. subst r. cbn [GoFilepath.at_element_end] in Hr.
  cbn [no_separator] in Hsep.
  apply andb_true_iff in Hsep as [_ [Hc' _]%andb_true_iff]. by rewrite Hr in Hc'.
Qed.

Lemma cleaned_not_dot (k : nat) (ns : list string) :
  Forall named ns → Forall (λ e, element e ∧ e ≠ ".") (cleaned k ns).
Proof.
  intros Hns. apply Forall_app. split.
  - by apply Forall_replicate.
  - eapply Forall_impl; [exact Hns|]. by intros e [? [? _]].
Qed.

(** What a cleaned path cannot be or begin with. *)
Lemma render_begins (rooted : bool) (l : list string) :
  Forall (λ e, element e ∧ e ≠ ".") l →
  GoStrings.HasPrefix (render rooted l) "//" = false ∧
  GoStrings.HasPrefix (render rooted l) "./" = false ∧
  (l ≠ [] → render rooted l ≠ "/" ∧ render rooted l ≠ ".").
Proof.
  intros Hl. destruct l as [|e l]; [by destruct rooted|].
  apply Forall_cons in Hl as [[[He Hsep] Hdot] _].
  assert (∃ c e', e = String c e' ∧ GoFilepath.IsPathSeparator c = false)
    as (c & e' & -> & Hc).
  { destruct e as [|c e']; [done|]. exists c, e'. split; [done|].
    simpl in Hsep. apply andb_true_iff in Hsep as [Hc _]. by apply negb_true_iff in Hc. }
  unfold GoFilepath.IsPathSeparator, GoFilepath.Separator in Hc.
  destruct rooted.
  - unfold render. rewrite slashed_cons, bytes_app_cons. cbn [GoStrings.HasPrefix].
    rewrite Hc. done.
  - rewrite render_cons. split; [|split].
    + rewrite bytes_app_cons. cbn [GoStrings.HasPrefix]. by rewrite Hc.
    + destruct (GoStrings.HasPrefix _ "./") eqn:Hp; [|done]. exfalso.
      apply HasPrefix_spec in Hp as [r Hr]. apply Hdot.
      apply (element_at_front _ (slashed l) ("/" +:+ r)); [done|done|exact Hr].
    + intros _. split.
      * rewrite bytes_app_cons. intros [= -> _]. done.
      * intros Heq. apply Hdot.
        by apply (element_at_front _ (slashed l) ""); [|done|exact Heq].
Qed.

Lemma Join_project (P clean : string) :
  clean ≠ "" →
  GoFilepath.Join [P; clean]
  = if is_empty P then GoFilepath.Clean clean
    else GoFilepath.Clean (P +:+ "/" +:+ clean).
Proof.
  intros Hclean. cbn [GoFilepath.Join GoStrings.Join].
  destruct (is_empty P); [|done]. by destruct clean.
Qed.

(** [Clean] of a directory and [.] below it is the directory. *)
Lemma Clean_below_dot (P : string) :
  P ≠ "" → GoFilepath.Clean (P +:+ "/" +:+ ".") = GoFilepath.Clean P.
Proof.
  intros HP. destruct (Clean_state P HP) as (k & ns & Hk & Hns & Hrun).
  change ("/" +:+ ".") with "/.". rewrite (Hrun "/." 2) by done.
  pose proof (Hrun "" 0 eq_refl (Nat.le_refl 0)) as H0.
  rewrite bytes_app_nil_r in H0. by rewrite H0.
Qed.

(** [Clean] of a directory and names below it is the cleaned directory
    with the names after it. *)
Lemma Clean_below_names (P : string) (ns : list string) :
  P ≠ "" → Forall named ns →
  ∃ (k : nat) (ns0 : list string),
    (GoFilepath.IsAbs P = true → k = 0) ∧ Forall named ns0 ∧
    GoFilepath.Clean P
    = (if is_empty (render (GoFilepath.IsAbs P) (cleaned k ns0)) then "."
       else render (GoFilepath.IsAbs P) (cleaned k ns0)) ∧
    GoFilepath.Clean (P +:+ slashed ns)
    = (if is_empty (render (GoFilepath.IsAbs P) (cleaned k (ns0 ++ ns))) then "."
       else render (GoFilepath.IsAbs P) (cleaned k (ns0 ++ ns))).
Proof.
  intros HP Hns. destruct (Clean_state P HP) as (k & ns0 & Hk & Hns0 & Hrun).
  exists k, ns0. split; [done|]. split; [done|]. split.
  - pose proof (Hrun "" 0 eq_refl (Nat.le_refl 0)) as H0.
    by rewrite bytes_app_nil_r in H0.
  - rewrite (Hrun (slashed ns) (String.length (slashed ns)));
      [|by destruct ns|done]. cbv zeta.
    rewrite <- (bytes_app_nil_r (slashed ns)).
    rewrite (Clean_loop_names _ ns k ns0 _ "" _ 0); [done|done|done|done| |done].
    by rewrite bytes_app_nil_r.
Qed.

Lemma HasPrefix_longer (s t : string) : t ≠ "" → GoStrings.HasPrefix s (s +:+ t) = false.
Proof.
  intros Ht. destruct (GoStrings.HasPrefix s (s +:+ t)) eqn:Hp; [|done].
  apply HasPrefix_length in Hp. rewrite bytes_length_app in Hp.
  destruct t; [done|]. simpl in Hp. lia.
Qed.

(** How a path that passes the first test of [absPath] is joined to
    the project directory [P]. *)
Lemma Join_resolved (P rel : string) :
  let clean := GoFilepath.Clean rel in
  let root := GoFilepath.Clean P in
  let full := GoFilepath.Join [P; clean] in
  GoFilepath.IsAbs clean = false → GoStrings.HasPrefix clean "../" = false →
  clean ≠ ".." →
  (clean = "." ∧ full = root) ∨
  (clean ≠ "." ∧ (root = "/" ∨ root = ".") ∧
   GoStrings.HasPrefix full (root +:+ "/") = false ∧ full ≠ root) ∨
  (clean ≠ "." ∧ root ≠ "/" ∧ root ≠ "." ∧ full = root +:+ "/" +:+ clean ∧
   ∃ (rooted : bool) (k : nat) (ns0 ns : list string),
     (rooted = true → k = 0) ∧ Forall named ns0 ∧ cleaned k ns0 ≠ [] ∧
     Forall named ns ∧ ns ≠ [] ∧
     root = render rooted (cleaned k ns0) ∧ "/" +:+ clean = slashed ns).
Proof.
  intros clean root full.
  assert (clean = GoFilepath.Clean rel) as Hc by done.
  assert (root = GoFilepath.Clean P) as Hr by done.
  assert (full = GoFilepath.Join [P; clean]) as Hf by done.
  clearbody clean root full. intros Habs Hup Hdd. rewrite Hc in Habs, Hup, Hdd.
  destruct (Clean_inner rel Habs Hup Hdd) as [Hdot|(ns & Hne & Hns & Hclean)];
    rewrite <- Hc in *.
  - (* the path is the project directory itself *)
    left. split; [done|]. rewrite Hf, Hdot, Join_project by done. rewrite Hr.
    destruct P as [|c P]; [done|]. cbn [is_empty]. by apply Clean_below_dot.
  - right.
    assert (clean ≠ "") as Hclean_ne.
    { rewrite Hclean. apply is_empty_false, render_not_empty; [|by left].
      eapply Forall_impl; [exact Hns|]. apply named_element. }
    destruct (render_begins false ns (cleaned_not_dot 0 ns Hns)) as (_ & Hnodot & Hnot).
    destruct (Hnot Hne) as [_ Hnotdot]. rewrite <- Hclean in Hnodot, Hnotdot.
    rewrite Join_project in Hf by done.
    destruct (decide (P = "")) as [->|HPne].
    + (* no project directory named: the current directory *)
      left. cbn [is_empty] in Hf. change (GoFilepath.Clean "") with "." in Hr. subst root.
      destruct (Clean_cleaned false 0 ns) as [Hid _]; [done|done|by left|].
      change (cleaned 0 ns) with ns in Hid. rewrite Hclean, Hid, <- Hclean in Hf.
      subst full. split; [done|]. split; [by right|]. done.
    + rewrite (proj2 (is_empty_false P)) in Hf by done.
      assert ("/" +:+ clean = slashed ns) as Hsl.
      { rewrite Hclean. by destruct ns. }
      rewrite Hsl in Hf.
      destruct (Clean_below_names P ns HPne Hns) as (k & ns0 & Hk & Hns0 & Hroot & Hfull).
      rewrite <- Hr in Hroot. rewrite Hfull in Hf.
      set (rooted := GoFilepath.IsAbs P) in *.
      rewrite render_not_empty in Hf;
        [|apply cleaned_elements, Forall_app; by split
         |left; unfold cleaned; destruct ns; [done|];
          intros [_ [? ?]%app_eq_nil]%app_eq_nil; done].
      destruct (decide (cleaned k ns0 = [])) as [Hcl|Hcl].
      * (* the project directory is the root or the current directory *)
        left. split; [done|].
        unfold cleaned in Hcl. apply app_eq_nil in Hcl as [Hrep ->].
        destruct k; [|done]. change (cleaned 0 ([] ++ ns)) with ns in Hf.
        change (cleaned 0 []) with (@nil string) in Hroot.
        destruct (render_begins rooted ns (cleaned_not_dot 0 ns Hns))
          as (Hno2 & Hno1 & Hnot'). destruct (Hnot' Hne) as [Hnotroot Hnotdot'].
        rewrite <- Hf in *.
        destruct rooted; simpl in Hroot; rewrite Hroot.
        -- split; [by left|]. done.
        -- split; [by right|]. done.
      * right. split; [done|].
        assert (cleaned k (ns0 ++ ns) = cleaned k ns0 ++ ns) as Happ.
        { unfold cleaned. by rewrite app_assoc. }
        rewrite Happ, render_app in Hf by done.
        rewrite render_not_empty in Hroot; [|by apply cleaned_elements|by left].
        rewrite <- Hroot, <- Hsl in Hf.
        destruct (render_begins rooted (cleaned k ns0) (cleaned_not_dot k ns0 Hns0))
          as (_ & _ & Hnot'). rewrite <- Hroot in Hnot'.
        destruct Hnot' as [Hr1 Hr2]; [done|].
        split; [done|]. split; [done|]. split; [done|].
        by exists rooted, k, ns0, ns.
Qed.

(** X24: what [absPath] returns.  A path whose cleaned form is
    absolute, is [..] or begins with [../] is refused as invalid.  A
    path that cleans to [.] resolves to the cleaned project
    directory.  Every other path resolves to the cleaned project
    directory, a separator and the cleaned path -- except when the
    project directory cleans to [/] or to [.]: then it is refused as
    escaping the project directory, so that such an agent accepts no
    path but those that clean to [.]. *)
Theorem absPath_resolves (a : Agent.AutonomousCodingAgent) (rel : string) :
  let clean := GoFilepath.Clean rel in
  let root := GoFilepath.Clean (Agent.projectDir a) in
  Agent.absPath a rel
  = if GoFilepath.IsAbs clean || GoStrings.HasPrefix clean "../" || String.eqb clean ".."
    then Agent.Err (Agent.ErrInvalidPath rel)
    else if String.eqb clean "." then Agent.Ok root
    else if String.eqb root "/" || String.eqb root "."
    then Agent.Err (Agent.ErrEscapesProjectDir rel)
    else Agent.Ok (root +:+ "/" +:+ clean).
Proof.
  intros clean root. unfold Agent.absPath.
  change (".." +:+ "/") with "../". fold clean. fold root.
  destruct (GoFilepath.IsAbs clean || GoStrings.HasPrefix clean "../" || String.eqb clean "..")
    eqn:Hcond; [done|].
  apply orb_false_iff in Hcond as [[Habs Hup]%orb_false_iff Hdd%eqb_neq].
  destruct (Join_resolved (Agent.projectDir a) rel Habs Hup Hdd)
    as [[Hdot Hfull]|[(Hdot & Hroot & Hpre & Hfull)|(Hdot & Hr1 & Hr2 & Hfull & _)]];
    fold clean in Hdot, Hfull; fold root in Hfull.
  - rewrite Hfull, HasPrefix_longer by done.
    rewrite (proj2 (eqb_eq root root)), (proj2 (eqb_eq clean ".")) by done. done.
  - fold clean root in Hpre. fold root in Hroot. rewrite Hpre.
    rewrite (proj2 (eqb_neq _ root)), (proj2 (eqb_neq clean ".")) by done.
    by destruct Hroot as [-> | ->].
  - fold root in Hr1, Hr2. rewrite Hfull, <- bytes_app_assoc, HasPrefix_app.
    rewrite (proj2 (eqb_neq clean ".")) by done.
    rewrite (proj2 (eqb_neq root "/")), (proj2 (eqb_neq root ".")) by done.
    by rewrite bytes_app_assoc.
Qed.

(** The form of a cleaned path. *)
Lemma Clean_shape (P : string) :
  GoFilepath.Clean P = "." ∨ GoFilepath.Clean P = "/" ∨
  ∃ (rooted : bool) (k : nat) (ns : list string),
    (rooted = true → k = 0) ∧ Forall named ns ∧ cleaned k ns ≠ [] ∧
    GoFilepath.Clean P = render rooted (cleaned k ns).
Proof.
  destruct (decide (P = "")) as [->|HP]; [by left|].
  destruct (Clean_state P HP) as (k & ns & Hk & Hns & Hrun).
  specialize (Hrun "" 0 eq_refl (Nat.le_refl 0)).
  rewrite bytes_app_nil_r in Hrun. simpl in Hrun.
  destruct (decide (cleaned k ns = [])) as [Hcl|Hcl].
  - rewrite Hcl in Hrun. destruct (GoFilepath.IsAbs P); [by right; left|by left].
  - right. right. exists (GoFilepath.IsAbs P), k, ns.
    rewrite render_not_empty in Hrun; [done|by apply cleaned_elements|by left].
Qed.











Section Sandbox.
Context `{lib : GoLib} `{engine : GoRegexp.Engine}.



End Sandbox.

